(** * Thalamus schema analyzer: the workflow stages and their repair passes

    A shallow embedding of the deterministic parts of the schema-analysis
    workflow (entity matcher, schema normalizer, mapping generator and
    response assembly), with the properties their specification states.

    Python values are embedded as the JSON-shaped type [value].  A Python
    [dict] with text keys is an association list in insertion order:
    assignment to an existing key keeps its position, assignment to a new
    key appends.  Python exceptions are the [Raise] outcome of [result];
    the stage functions, which mutate the workflow state in place and keep
    the mutations made before an exception, run in the monad [M].

    The hosted model, the JSON parser and the regular-expression engine
    are library code: they are parameters of the stage functions.  A
    logging call is embedded as the evaluation of its arguments, which can
    raise; what it writes is not modelled.

    Text is [String.string], one [ascii] per character; lower-casing acts
    on the ASCII letters, which is all the tags it is compared with are
    made of.  A float is the rational it denotes; the non-finite floats
    are outside the model. *)

From Stdlib Require Import String Ascii List ZArith QArith Bool Lia.
Import ListNotations.

Local Open Scope string_scope.
Local Open Scope Z_scope.
Local Open Scope list_scope.

(** ** Values *)

#[local] Set Warnings "-register-all".

Inductive value : Type :=
| VNone
| VBool (b : bool)
| VInt (n : Z)
| VFloat (q : Q)
| VStr (s : string)
| VList (l : list value)
| VDict (d : list (string * value)).

Definition dict : Type := list (string * value).

(** The name Python reports for the type of a value. *)
Definition type_name (v : value) : string :=
  match v with
  | VNone => "NoneType"
  | VBool _ => "bool"
  | VInt _ => "int"
  | VFloat _ => "float"
  | VStr _ => "str"
  | VList _ => "list"
  | VDict _ => "dict"
  end.

(** Truth value of an object: [None], [False], zero and the empty
    containers are false. *)
Definition truthy (v : value) : bool :=
  match v with
  | VNone => false
  | VBool b => b
  | VInt n => negb (n =? 0)
  | VFloat q => negb (Qeq_bool q 0)
  | VStr s => negb (String.eqb s "")
  | VList l => match l with [] => false | _ => true end
  | VDict d => match d with [] => false | _ => true end
  end.

(** The float literals of the source, as the binary64 numbers they denote. *)
Definition float_0_5 : Q := 1 # 2.
Definition float_0_7 : Q := 3152519739159347 # 4503599627370496.
Definition float_0_8 : Q := 3602879701896397 # 4503599627370496.
Definition float_0_9 : Q := 8106479329266893 # 9007199254740992.

(** ** Exceptions *)

Inductive exn : Type :=
| KeyError (key : string)
| AttributeError (ty attr : string)
| TypeError (msg : string)
| JSONDecodeError (msg : string)
| OtherError (msg : string).

(** [str(e)].  A [KeyError] prints the [repr] of its key; every key the
    source subscripts with is a plain identifier. *)
Definition str_exn (e : exn) : string :=
  match e with
  | KeyError k => "'" ++ k ++ "'"
  | AttributeError ty attr =>
      "'" ++ ty ++ "' object has no attribute '" ++ attr ++ "'"
  | TypeError msg => msg
  | JSONDecodeError msg => msg
  | OtherError msg => msg
  end.

Inductive result (A : Type) : Type :=
| Ok (a : A)
| Raise (e : exn).

Arguments Ok {A} a.
Arguments Raise {A} e.

Definition rbind {A B : Type} (r : result A) (f : A -> result B) : result B :=
  match r with
  | Ok a => f a
  | Raise e => Raise e
  end.

Declare Scope py_scope.
Delimit Scope py_scope with py.

Notation "'let?' x ':=' r 'in' k" := (rbind r (fun x => k))
  (at level 10, x name, r at level 100, k at level 200) : py_scope.

Local Open Scope py_scope.

(** ** Dictionaries *)

Fixpoint dict_get (k : string) (d : dict) : option value :=
  match d with
  | [] => None
  | (k', v) :: rest => if String.eqb k k' then Some v else dict_get k rest
  end.

(** [d[k] = v] *)
Fixpoint dict_set (k : string) (v : value) (d : dict) : dict :=
  match d with
  | [] => [(k, v)]
  | (k', v') :: rest =>
      if String.eqb k k' then (k', v) :: rest
      else (k', v') :: dict_set k v rest
  end.

(** [k in d] *)
Definition dict_mem (k : string) (d : dict) : bool :=
  match dict_get k d with Some _ => true | None => false end.

(** [d.get(k, default)] *)
Definition dict_get_default (k : string) (default : value) (d : dict) : value :=
  match dict_get k d with Some v => v | None => default end.

(** [d[k]] *)
Definition dict_getitem (k : string) (d : dict) : result value :=
  match dict_get k d with Some v => Ok v | None => Raise (KeyError k) end.

Definition dict_keys (d : dict) : list string := map fst d.

(** ** Operations on arbitrary objects *)

(** [v.get(k, default)]: only a dict has the method. *)
Definition py_get (v : value) (k : string) (default : value) : result value :=
  match v with
  | VDict d => Ok (dict_get_default k default d)
  | _ => Raise (AttributeError (type_name v) "get")
  end.

(** [v[k]] with a text key. *)
Definition py_getitem (v : value) (k : string) : result value :=
  match v with
  | VDict d => dict_getitem k d
  | VStr _ => Raise (TypeError "string indices must be integers, not 'str'")
  | VList _ =>
      Raise (TypeError "list indices must be integers or slices, not str")
  | _ => Raise (TypeError ("'" ++ type_name v ++ "' object is not subscriptable"))
  end.

(** Text is kept as its UTF-8 bytes.  A byte of the form 10xxxxxx
    continues the character before it. *)
Definition is_continuation (c : ascii) : bool :=
  match c with
  | Ascii _ _ _ _ _ _ b6 b7 => b7 && negb b6
  end.

(** The first [n] characters of a text: a character is taken with the
    bytes that continue it. *)
Fixpoint string_firstn (n : nat) (s : string) : string :=
  match s with
  | EmptyString => ""
  | String c rest =>
      if is_continuation c then String c (string_firstn n rest)
      else
        match n with
        | O => ""
        | S n' => String c (string_firstn n' rest)
        end
  end.

(** [v[:n]] *)
Definition py_slice_to (n : nat) (v : value) : result value :=
  match v with
  | VList l => Ok (VList (firstn n l))
  | VStr s => Ok (VStr (string_firstn n s))
  | VDict _ => Raise (TypeError "unhashable type: 'slice'")
  | _ => Raise (TypeError ("'" ++ type_name v ++ "' object is not subscriptable"))
  end.

(** [len(v)] *)
Definition py_len (v : value) : result Z :=
  match v with
  | VList l => Ok (Z.of_nat (List.length l))
  | VDict d => Ok (Z.of_nat (List.length d))
  | VStr s => Ok (Z.of_nat (String.length s))
  | _ => Raise (TypeError ("object of type '" ++ type_name v ++ "' has no len()"))
  end.

Fixpoint string_chars (s : string) : list value :=
  match s with
  | EmptyString => []
  | String c rest => VStr (String c EmptyString) :: string_chars rest
  end.

(** The elements a [for] loop visits. *)
Definition py_iter (v : value) : result (list value) :=
  match v with
  | VList l => Ok l
  | VDict d => Ok (map (fun kv => VStr (fst kv)) d)
  | VStr s => Ok (string_chars s)
  | _ => Raise (TypeError ("'" ++ type_name v ++ "' object is not iterable"))
  end.

Definition Z_of_bool (b : bool) : Z := if b then 1 else 0.

(** [v >= n] for an int [n]. *)
Definition py_ge_int (v : value) (n : Z) : result bool :=
  match v with
  | VBool b => Ok (n <=? Z_of_bool b)
  | VInt m => Ok (n <=? m)
  | VFloat q => Ok (Qle_bool (inject_Z n) q)
  | _ => Raise (TypeError ("'>=' not supported between instances of '"
                           ++ type_name v ++ "' and 'int'"))
  end.

(** A number as a rational; [bool] is a subtype of [int]. *)
Definition as_number (v : value) : option Q :=
  match v with
  | VBool b => Some (inject_Z (Z_of_bool b))
  | VInt n => Some (inject_Z n)
  | VFloat q => Some q
  | _ => None
  end.

(** [a == b]: numbers by value, text by characters, lists element-wise,
    dicts key by key whatever the order. *)
Fixpoint py_eq (a b : value) {struct a} : bool :=
  match a with
  | VNone => match b with VNone => true | _ => false end
  | VBool _ | VInt _ | VFloat _ =>
      match as_number a, as_number b with
      | Some x, Some y => Qeq_bool x y
      | _, _ => false
      end
  | VStr s => match b with VStr t => String.eqb s t | _ => false end
  | VList l =>
      match b with
      | VList l' =>
          (fix go (xs ys : list value) {struct xs} : bool :=
             match xs, ys with
             | [], [] => true
             | x :: xs', y :: ys' => py_eq x y && go xs' ys'
             | _, _ => false
             end) l l'
      | _ => false
      end
  | VDict d =>
      match b with
      | VDict d' =>
          (List.length d =? List.length d')%nat
          && (fix all (kvs : dict) {struct kvs} : bool :=
                match kvs with
                | [] => true
                | (k, v) :: rest =>
                    match dict_get k d' with
                    | Some v' => py_eq v v'
                    | None => false
                    end && all rest
                end) d
      | _ => false
      end
  end.

(** ** Text helpers *)

(** [str.lower()] on the ASCII letters. *)
Definition ascii_lower (c : ascii) : ascii :=
  let n := nat_of_ascii c in
  if ((65 <=? n) && (n <=? 90))%nat then ascii_of_nat (n + 32) else c.

Fixpoint lower (s : string) : string :=
  match s with
  | EmptyString => EmptyString
  | String c rest => String (ascii_lower c) (lower rest)
  end.

(** [s.replace("_", "")] *)
Fixpoint remove_underscores (s : string) : string :=
  match s with
  | EmptyString => EmptyString
  | String c rest =>
      if Ascii.eqb c "_"%char then remove_underscores rest
      else String c (remove_underscores rest)
  end.

(** ** The state monad of the stage functions *)

Definition M (A : Type) : Type := dict -> result A * dict.

Definition ret {A : Type} (a : A) : M A := fun s => (Ok a, s).

Definition bind {A B : Type} (m : M A) (f : A -> M B) : M B :=
  fun s =>
    match m s with
    | (Ok a, s') => f a s'
    | (Raise e, s') => (Raise e, s')
    end.

Definition lift {A : Type} (r : result A) : M A := fun s => (r, s).

Notation "x <- m ;; k" := (bind m (fun x => k))
  (at level 61, m at next level, right associativity) : py_scope.
Notation "m ;;; k" := (bind m (fun _ => k))
  (at level 61, right associativity) : py_scope.

(** [state[k]] *)
Definition state_getitem (k : string) : M value :=
  fun s => (dict_getitem k s, s).

(** [state.get(k, default)] *)
Definition state_get (k : string) (default : value) : M value :=
  fun s => (Ok (dict_get_default k default s), s).

(** [state[k] = v] *)
Definition state_set (k : string) (v : value) : M unit :=
  fun s => (Ok tt, dict_set k v s).

(** [state[k].append(v)] *)
Definition state_append (k : string) (v : value) : M unit :=
  fun s =>
    match dict_get k s with
    | None => (Raise (KeyError k), s)
    | Some (VList l) => (Ok tt, dict_set k (VList (l ++ [v])) s)
    | Some other => (Raise (AttributeError (type_name other) "append"), s)
    end.

(** [try: body  except Exception as e: handler(e)] *)
Definition try_except {A : Type} (body : M A) (handler : exn -> M A) : M A :=
  fun s =>
    match body s with
    | (Ok a, s') => (Ok a, s')
    | (Raise e, s') => handler e s'
    end.

(** A stage function returns the state it was given, after mutation. *)
Definition run_stage (body : M unit) (state : dict) : result dict :=
  match body state with
  | (Ok _, s') => Ok s'
  | (Raise e, _) => Raise e
  end.

(** Run the computations of a list in order; the first exception wins. *)
Fixpoint map_result {A B : Type} (f : A -> result B) (l : list A)
  : result (list B) :=
  match l with
  | [] => Ok []
  | x :: rest =>
      let? y := f x in
      let? ys := map_result f rest in
      Ok (y :: ys)
  end.

(** ** Prompts

    A prompt is a fixed text around interpolated values: it is recorded as
    the builder that made it together with the values it interpolates. *)

Inductive prompt : Type :=
| EntityMatchingPrompt
    (name detected_fields sample_data composite_fields : value)
    (entities : list (value * value * value))
| MappingNormalizationPrompt
    (name detected_fields sample_data field_analysis : value)
    (target_name target_fields : value)
| NewEntityNormalizationPrompt
    (name detected_fields sample_data field_analysis reason : value).

Inductive system_message : Type :=
| EntityMatcherSystem
| SchemaNormalizerSystem.

Definition float_0_1 : Q := 3602879701896397 # 36028797018963968.

(** ** Entity matcher *)

Definition _build_entity_matching_prompt
  (incoming_schema existing_entities field_analysis : value) : result prompt :=
  let? composite_fields :=
    if truthy field_analysis
    then py_get field_analysis "composite_fields" (VList [])
    else Ok (VList []) in
  let? name := py_getitem incoming_schema "name" in
  let? detected_fields := py_getitem incoming_schema "detected_fields" in
  let? sample_data := py_get incoming_schema "sample_data" (VList []) in
  let? sample_data := py_slice_to 2 sample_data in
  let? entities := py_iter existing_entities in
  let? entities :=
    map_result
      (fun entity =>
         let? ename := py_getitem entity "name" in
         let? eid := py_getitem entity "id" in
         let? efields := py_getitem entity "fields" in
         Ok (ename, eid, efields))
      entities in
  Ok (EntityMatchingPrompt name detected_fields sample_data composite_fields
        entities).

(** What the short-circuit stores as the match results. *)
Definition skipped_match_results : value :=
  VDict [("best_match", VNone);
         ("should_create_new", VBool true);
         ("reason", VStr "No existing canonical entities in the system")].

(** What the parser falls back to. *)
Definition default_match_results : value :=
  VDict [("best_match", VNone); ("candidates", VList [])].

(** Lines 85 to 98: store the parsed results, decide the action, record
    the stage in the history.  The logging call that follows reads
    [best_match] only through accesses that have already succeeded. *)
Definition decide_action (match_results : value) : M unit :=
  state_set "entity_match_results" match_results ;;;
  best_match <- lift (py_get match_results "best_match" VNone) ;;
  maps <- (if truthy best_match
           then best_match <- lift (py_getitem match_results "best_match") ;;
                score <- lift (py_get best_match "similarity_score" (VInt 0)) ;;
                lift (py_ge_int score 75)
           else ret false) ;;
  (if maps : bool
   then state_set "action" (VStr "map_to_existing") ;;;
        best_match <- lift (py_getitem match_results "best_match") ;;
        entity_id <- lift (py_getitem best_match "entity_id") ;;
        state_set "entity_id" entity_id ;;;
        best_match <- lift (py_getitem match_results "best_match") ;;
        similarity_score <- lift (py_getitem best_match "similarity_score") ;;
        state_set "similarity_score" similarity_score
   else state_set "action" (VStr "create_new") ;;;
        state_set "entity_id" VNone ;;;
        state_set "similarity_score" VNone) ;;;
  state_append "processing_history" (VStr "entity_matching_completed").

(** The [except] block of [match_entities]. *)
Definition match_entities_except (e : exn) : M unit :=
  state_set "error" (VStr ("Entity matching failed: " ++ str_exn e)) ;;;
  state_set "action" (VStr "create_new") ;;;
  state_set "entity_id" VNone ;;;
  state_set "similarity_score" VNone ;;;
  state_append "processing_history" (VStr "entity_matching_failed").

(** ** Schema normalizer: the prompt builders *)

Fixpoint find_entity_loop (entities : list value) (entity_id : value)
  : result value :=
  match entities with
  | [] => Ok (VDict [])
  | entity :: rest =>
      let? id := py_getitem entity "id" in
      if py_eq id entity_id then Ok entity
      else find_entity_loop rest entity_id
  end.

Definition _find_entity_by_id (entities entity_id : value) : result value :=
  let? entities := py_iter entities in
  find_entity_loop entities entity_id.

Definition _build_mapping_normalization_prompt
  (incoming_schema target_entity field_analysis : value) : result prompt :=
  let? name := py_getitem incoming_schema "name" in
  let? detected_fields := py_getitem incoming_schema "detected_fields" in
  let? sample_data := py_get incoming_schema "sample_data" (VList []) in
  let? sample_data := py_slice_to 2 sample_data in
  let? target_name := py_get target_entity "name" (VStr "Unknown") in
  let? target_fields := py_get target_entity "fields" (VList []) in
  Ok (MappingNormalizationPrompt name detected_fields sample_data
        field_analysis target_name target_fields).

Definition _build_new_entity_normalization_prompt
  (incoming_schema field_analysis match_results : value) : result prompt :=
  let? name := py_getitem incoming_schema "name" in
  let? detected_fields := py_getitem incoming_schema "detected_fields" in
  let? sample_data := py_get incoming_schema "sample_data" (VList []) in
  let? sample_data := py_slice_to 2 sample_data in
  let? reason :=
    py_get match_results "reason" (VStr "No matching existing entity found") in
  Ok (NewEntityNormalizationPrompt name detected_fields sample_data
        field_analysis reason).

(** Lines 29 to 47 of [normalize_schema]: the branch on [action]. *)
Definition normalization_prompt : M prompt :=
  action <- state_get "action" VNone ;;
  if py_eq action (VStr "map_to_existing")
  then existing_entities <- state_getitem "existing_entities" ;;
       entity_id <- state_get "entity_id" VNone ;;
       target_entity <- lift (_find_entity_by_id existing_entities entity_id) ;;
       incoming_schema <- state_getitem "incoming_schema" ;;
       field_analysis <- state_get "field_analysis" (VDict []) ;;
       lift (_build_mapping_normalization_prompt
               incoming_schema target_entity field_analysis)
  else incoming_schema <- state_getitem "incoming_schema" ;;
       field_analysis <- state_get "field_analysis" (VDict []) ;;
       match_results <- state_get "entity_match_results" (VDict []) ;;
       lift (_build_new_entity_normalization_prompt
               incoming_schema field_analysis match_results).

(** Lines 71 to 85: record the parsed reply in the state.  The logging
    call at the end measures the canonical field list. *)
Definition record_normalization (normalization_result : value) : M unit :=
  state_set "normalization_suggestions" normalization_result ;;;
  entity_name <- lift (py_getitem normalization_result "entity_name") ;;
  state_set "entity_name" entity_name ;;;
  source_schema_name <-
    lift (py_getitem normalization_result "source_schema_name") ;;
  state_set "source_schema_name" source_schema_name ;;;
  canonical_schema <- lift (py_getitem normalization_result "canonical_schema") ;;
  state_set "canonical_schema" canonical_schema ;;;
  reasoning <- lift (py_get normalization_result "reasoning" (VStr "")) ;;
  state_set "reasoning" reasoning ;;;
  state_append "processing_history" (VStr "normalization_completed") ;;;
  _ <- state_getitem "entity_name" ;;
  canonical_schema <- lift (py_getitem normalization_result "canonical_schema") ;;
  fields <- lift (py_getitem canonical_schema "fields") ;;
  _ <- lift (py_len fields) ;;
  ret tt.

Definition normalize_schema_except (e : exn) : M unit :=
  state_set "error" (VStr ("Schema normalization failed: " ++ str_exn e)).

Section Stages.

(** The client handle, its factory (temperature, max_tokens), the chat
    call (returning the text of the reply), [json.loads], and
    [re.search] of the first brace-delimited span. *)
Variable llm : Type.
Variable get_bedrock_llm : Q -> Z -> result llm.
Variable ainvoke : llm -> system_message -> prompt -> result string.
Variable json_loads : string -> result value.
Variable re_search_object : string -> option string.

(** Lines 65 to 83: parse the reply, or the brace-delimited span in it,
    or fall back to the default. *)
Definition parse_match_results (content : string) : result value :=
  match json_loads content with
  | Ok match_results => Ok match_results
  | Raise (JSONDecodeError _) =>
      match re_search_object content with
      | Some span =>
          match json_loads span with
          | Ok match_results => Ok match_results
          | Raise _ => Ok default_match_results
          end
      | None => Ok default_match_results
      end
  | Raise e => Raise e
  end.

(** The [try] block of [match_entities]. *)
Definition match_entities_try (client : llm) (p : prompt) : M unit :=
  content <- lift (ainvoke client EntityMatcherSystem p) ;;
  match_results <- lift (parse_match_results content) ;;
  decide_action match_results.

Definition match_entities_body : M unit :=
  incoming_schema <- state_getitem "incoming_schema" ;;
  _ <- lift (py_getitem incoming_schema "hash") ;;
  existing_entities <- state_getitem "existing_entities" ;;
  _ <- lift (py_len existing_entities) ;;
  if negb (truthy existing_entities)
  then state_set "entity_match_results" skipped_match_results ;;;
       state_append "processing_history" (VStr "entity_matching_skipped")
  else client <- lift (get_bedrock_llm float_0_1 4096) ;;
       field_analysis <- state_get "field_analysis" (VDict []) ;;
       p <- lift (_build_entity_matching_prompt
                    incoming_schema existing_entities field_analysis) ;;
       try_except (match_entities_try client p) match_entities_except.

Definition match_entities (state : dict) : result dict :=
  run_stage match_entities_body state.

(** The [try] block of [normalize_schema]: no repair of a malformed
    reply here. *)
Definition normalize_schema_try (client : llm) (p : prompt) : M unit :=
  content <- lift (ainvoke client SchemaNormalizerSystem p) ;;
  normalization_result <- lift (json_loads content) ;;
  record_normalization normalization_result.

Definition normalize_schema_body : M unit :=
  incoming_schema <- state_getitem "incoming_schema" ;;
  _ <- lift (py_getitem incoming_schema "hash") ;;
  client <- lift (get_bedrock_llm float_0_1 4096) ;;
  p <- normalization_prompt ;;
  try_except (normalize_schema_try client p) normalize_schema_except.

Definition normalize_schema (state : dict) : result dict :=
  run_stage normalize_schema_body state.

End Stages.

(** ** Mapping generator: validation and fallback *)

Definition VALID_TRANSFORMATIONS : list string :=
  ["direct"; "formula"; "split"; "combine"; "format_conversion"; "constant"].

Definition TRANSFORMATION_MAPPING : list (string * string) :=
  [("extract", "formula");
   ("uppercase", "formula");
   ("lowercase", "formula");
   ("trim", "formula");
   ("unix_to_datetime", "format_conversion");
   ("date_format", "format_conversion");
   ("parse", "formula");
   ("concat", "combine");
   ("concatenate", "combine");
   ("merge", "combine");
   ("join", "combine")].

Definition string_mem (s : string) (l : list string) : bool :=
  existsb (String.eqb s) l.

Fixpoint table_get (k default : string) (table : list (string * string))
  : string :=
  match table with
  | [] => default
  | (k', v) :: rest => if String.eqb k k' then v else table_get k default rest
  end.

(** Lines 289 and 290: a tag outside the valid set goes through the table. *)
Definition normalize_transformation (transformation : string) : string :=
  if string_mem transformation VALID_TRANSFORMATIONS then transformation
  else table_get transformation "formula" TRANSFORMATION_MAPPING.

(** [v.lower()] *)
Definition py_lower (v : value) : result string :=
  match v with
  | VStr s => Ok (lower s)
  | _ => Raise (AttributeError (type_name v) "lower")
  end.

(** The two-character text of an empty quoted string. *)
Definition empty_constant : string :=
  String "034"%char (String "034"%char EmptyString).

(** Lines 295 to 309: the in-place repairs of a mapping that is kept. *)
Definition repair_mapping (transformation : string) (mapping : dict) : dict :=
  let mapping := dict_set "transformation" (VStr transformation) mapping in
  let mapping :=
    if dict_mem "confidence" mapping then mapping
    else dict_set "confidence" (VFloat float_0_8) mapping in
  let mapping :=
    if negb (dict_mem "jsonata_formula" mapping)
       || negb (truthy (dict_get_default "jsonata_formula" VNone mapping))
    then
      if py_eq (dict_get_default "transformation" VNone mapping) (VStr "direct")
         && truthy (dict_get_default "source_field" VNone mapping)
      then dict_set "jsonata_formula"
             (dict_get_default "source_field" VNone mapping) mapping
      else if py_eq (dict_get_default "transformation" VNone mapping)
                (VStr "constant")
      then dict_set "jsonata_formula" (VStr empty_constant) mapping
      else mapping
    else mapping in
  if dict_mem "source_field" mapping then mapping
  else dict_set "source_field" (VStr "") mapping.

(** The body of the loop of [_validate_mappings]: [None] when the entry
    is skipped. *)
Definition validate_mapping (mapping : value) : result (option value) :=
  let? target_field := py_get mapping "target_field" VNone in
  if negb (truthy target_field) then Ok None
  else
    let? transformation := py_get mapping "transformation" (VStr "direct") in
    let? transformation := py_lower transformation in
    let transformation := normalize_transformation transformation in
    match mapping with
    | VDict d => Ok (Some (VDict (repair_mapping transformation d)))
    | _ => Raise (AttributeError (type_name mapping) "get")
    end.

Fixpoint validate_loop (mappings : list value) : result (list value) :=
  match mappings with
  | [] => Ok []
  | mapping :: rest =>
      let? kept := validate_mapping mapping in
      let? validated := validate_loop rest in
      Ok (match kept with Some m => m :: validated | None => validated end)
  end.

Definition _validate_mappings (mappings : value) : result value :=
  let? mappings := py_iter mappings in
  let? validated := validate_loop mappings in
  Ok (VList validated).

(** A key of a dict or an operand of [in]: lists and dicts have no hash. *)
Definition py_hashable (v : value) : result value :=
  match v with
  | VList _ | VDict _ =>
      Raise (TypeError ("unhashable type: '" ++ type_name v ++ "'"))
  | _ => Ok v
  end.

(** [k in source_map], the map being known by its keys. *)
Definition key_mem (k : value) (keys : list value) : result bool :=
  let? k := py_hashable k in
  Ok (existsb (py_eq k) keys).

(** [v.replace("_", "")] *)
Definition py_remove_underscores (v : value) : result string :=
  match v with
  | VStr s => Ok (remove_underscores s)
  | _ => Raise (AttributeError (type_name v) "replace")
  end.

Definition make_mapping
  (source_field target_field : value) (transformation : string)
  (jsonata_formula : value) (confidence : Q) (explanation : string) : value :=
  VDict [("source_field", source_field);
         ("target_field", target_field);
         ("transformation", VStr transformation);
         ("jsonata_formula", jsonata_formula);
         ("confidence", VFloat confidence);
         ("explanation", VStr explanation)].

(** The body of the loop of [_generate_fallback_mappings]. *)
Definition fallback_mapping (source_keys : list value) (target_field : value)
  : result value :=
  let? target_name := py_getitem target_field "name" in
  let? exact := key_mem target_name source_keys in
  if exact
  then Ok (make_mapping target_name target_name "direct" target_name
             float_0_9 "Direct field name match")
  else
    let? stripped := py_remove_underscores target_name in
    let? variation := key_mem (VStr stripped) source_keys in
    if variation
    then Ok (make_mapping (VStr stripped) target_name "direct" (VStr stripped)
               float_0_7 "Field name match with underscore variation")
    else Ok (make_mapping (VStr "") target_name "constant" (VStr "null")
               float_0_5 "No matching source field found").

(** The map of source fields by name is only ever asked for membership:
    it is kept as the list of its keys. *)
Definition _generate_fallback_mappings (source_fields target_fields : value)
  : result value :=
  let? source_fields := py_iter source_fields in
  let? source_keys :=
    map_result
      (fun f => let? name := py_getitem f "name" in py_hashable name)
      source_fields in
  let? target_fields := py_iter target_fields in
  let? mappings := map_result (fallback_mapping source_keys) target_fields in
  Ok (VList mappings).

(** ** Response assembly *)

(** The comprehension of lines 114 to 121: one field definition per
    detected field. *)
Definition field_definition (field : value) : result value :=
  let? name := py_getitem field "name" in
  let? type := py_getitem field "type" in
  let? required := py_get field "required" (VBool false) in
  Ok (VDict [("name", name); ("type", type); ("required", required)]).

Definition is_list (v : value) : bool :=
  match v with VList _ => true | _ => false end.

(** Lines 131 to 141: an entry that is a dict with a true [target_field]
    is rebuilt from its six attributes; any other entry is dropped. *)
Definition rebuild_mapping (mapping : value) : option value :=
  match mapping with
  | VDict d =>
      if truthy (dict_get_default "target_field" VNone d)
      then Some (VDict
             [("source_field", dict_get_default "source_field" (VStr "") d);
              ("target_field", dict_get_default "target_field" VNone d);
              ("transformation",
                dict_get_default "transformation" (VStr "direct") d);
              ("jsonata_formula",
                dict_get_default "jsonata_formula" (VStr "") d);
              ("confidence", dict_get_default "confidence" (VFloat float_0_8) d);
              ("explanation", dict_get_default "explanation" (VStr "") d)])
      else None
  | _ => None
  end.

Fixpoint rebuild_mappings (mappings : list value) : list value :=
  match mappings with
  | [] => []
  | mapping :: rest =>
      match rebuild_mapping mapping with
      | Some m => m :: rebuild_mappings rest
      | None => rebuild_mappings rest
      end
  end.

(** Line 107: the candidate has no canonical schema, or one without
    fields. *)
Definition canonical_schema_missing (response : dict) : result bool :=
  if negb (truthy (dict_get_default "canonical_schema" VNone response))
  then Ok true
  else
    let? canonical_schema := dict_getitem "canonical_schema" response in
    let? fields := py_get canonical_schema "fields" VNone in
    Ok (negb (truthy fields)).

(** Lines 109 to 122: the schema put in its place, the one the
    normalizer suggested or else one definition per detected field. *)
Definition replacement_schema (state : dict) : result value :=
  let? suggested :=
    py_get (dict_get_default "normalization_suggestions" (VDict []) state)
      "canonical_schema" VNone in
  if truthy suggested
  then
    let? suggestions := dict_getitem "normalization_suggestions" state in
    py_getitem suggestions "canonical_schema"
  else
    let? incoming_schema := dict_getitem "incoming_schema" state in
    let? detected_fields := py_getitem incoming_schema "detected_fields" in
    let? detected_fields := py_iter detected_fields in
    let? fields := map_result field_definition detected_fields in
    Ok (VDict [("fields", VList fields)]).

Section Assembly.

(** [str(v)] for a value that is not text. *)
Variable py_repr : value -> string.

(** A value interpolated in a formatted text. *)
Definition format_value (v : value) : string :=
  match v with
  | VStr s => s
  | _ => py_repr v
  end.

(** Lines 107 to 122. *)
Definition ensure_canonical_schema (response state : dict) : result dict :=
  let? missing := canonical_schema_missing response in
  if missing : bool
  then
    let? canonical_schema := replacement_schema state in
    Ok (dict_set "canonical_schema" canonical_schema response)
  else Ok response.

(** Lines 124 to 143. *)
Definition ensure_field_mappings (response : dict) : result dict :=
  let response :=
    if is_list (dict_get_default "field_mappings" VNone response)
    then response
    else dict_set "field_mappings" (VList []) response in
  let? mappings := dict_getitem "field_mappings" response in
  let? mappings := py_iter mappings in
  Ok (dict_set "field_mappings" (VList (rebuild_mappings mappings)) response).

(** Lines 145 to 153. *)
Definition ensure_text_defaults (response state : dict) : result dict :=
  let? response :=
    if negb (truthy (dict_get_default "source_schema_name" VNone response))
    then
      let? incoming_schema := dict_getitem "incoming_schema" state in
      let? hash := py_getitem incoming_schema "hash" in
      let? prefix := py_slice_to 8 hash in
      Ok (dict_set "source_schema_name"
            (VStr ("source_" ++ format_value prefix)) response)
    else Ok response in
  let response :=
    if negb (truthy (dict_get_default "entity_name" VNone response))
    then dict_set "entity_name" (VStr "DataEntity") response
    else response in
  let response :=
    if negb (truthy (dict_get_default "reasoning" VNone response))
    then dict_set "reasoning"
           (VStr "Schema analyzed through multi-step agent pipeline") response
    else response in
  Ok response.

Definition _validate_response (response state : dict) : result dict :=
  let? response := ensure_canonical_schema response state in
  let? response := ensure_field_mappings response in
  ensure_text_defaults response state.

(** The loop of [_create_error_response] over one detected field. *)
Definition error_field (field : value) : result (value * value) :=
  let? name := py_getitem field "name" in
  let? type := py_getitem field "type" in
  let? required := py_get field "required" (VBool false) in
  let? name' := py_getitem field "name" in
  Ok (VDict [("name", name); ("type", type); ("required", required)],
      make_mapping name' name' "direct" name' float_0_5
        "Fallback direct mapping due to processing error").

Definition _create_error_response (state : dict) (error : string)
  : result dict :=
  let? incoming_schema := dict_getitem "incoming_schema" state in
  let? detected_fields := py_getitem incoming_schema "detected_fields" in
  let? detected_fields := py_iter detected_fields in
  let? pairs := map_result error_field detected_fields in
  let? incoming_schema := dict_getitem "incoming_schema" state in
  let? name := py_getitem incoming_schema "name" in
  Ok [("action", VStr "create_new");
      ("entity_id", VNone);
      ("entity_name", VStr "DataEntity");
      ("source_schema_name", name);
      ("similarity_score", VNone);
      ("reasoning", VStr ("Fallback response due to error: " ++ error));
      ("canonical_schema", VDict [("fields", VList (map fst pairs))]);
      ("field_mappings", VList (map snd pairs))].

(** The [try] block of [prepare_response]. *)
Definition prepare_response_try : M unit :=
  action <- state_get "action" (VStr "create_new") ;;
  entity_id <- state_get "entity_id" VNone ;;
  entity_name <- state_get "entity_name" (VStr "UnknownEntity") ;;
  incoming_schema <- state_getitem "incoming_schema" ;;
  name <- lift (py_getitem incoming_schema "name") ;;
  source_schema_name <- state_get "source_schema_name" name ;;
  similarity_score <- state_get "similarity_score" VNone ;;
  reasoning <- state_get "reasoning" (VStr "") ;;
  canonical_schema <-
    state_get "canonical_schema" (VDict [("fields", VList [])]) ;;
  field_mappings <- state_get "field_mappings" (VList []) ;;
  response <-
    (fun state : dict =>
       (_validate_response
          [("action", action);
           ("entity_id", entity_id);
           ("entity_name", entity_name);
           ("source_schema_name", source_schema_name);
           ("similarity_score", similarity_score);
           ("reasoning", reasoning);
           ("canonical_schema", canonical_schema);
           ("field_mappings", field_mappings)]
          state, state)) ;;
  state_set "final_response" (VDict response) ;;;
  state_append "processing_history" (VStr "response_prepared").

(** The [except] block of [prepare_response]. *)
Definition prepare_response_except (e : exn) : M unit :=
  response <- (fun state : dict =>
                 (_create_error_response state (str_exn e), state)) ;;
  state_set "final_response" (VDict response).

Definition prepare_response_body : M unit :=
  incoming_schema <- state_getitem "incoming_schema" ;;
  _ <- lift (py_getitem incoming_schema "hash") ;;
  try_except prepare_response_try prepare_response_except.

Definition prepare_response (state : dict) : result dict :=
  run_stage prepare_response_body state.

End Assembly.



(** * The other stages and the entry point *)

(** ** Field analyzer *)

Inductive field_analysis_prompt : Type :=
| FieldAnalysisPrompt (fields sample_data : value).

Definition float_0_2 : Q := 3602879701896397 # 18014398509481984.

Definition _build_field_analysis_prompt (fields sample_data : value)
  : result field_analysis_prompt :=
  let? sample_data := py_slice_to 5 sample_data in
  Ok (FieldAnalysisPrompt fields sample_data).

(** Lines 48 to 56 of [analyze_fields]: store the parsed reply, record
    the stage, then log how many composite fields it found. *)
Definition record_field_analysis (field_analysis : value) : M unit :=
  state_set "field_analysis" field_analysis ;;;
  state_append "processing_history" (VStr "field_analysis_completed") ;;;
  composite_fields <-
    lift (py_get field_analysis "composite_fields" (VList [])) ;;
  _ <- lift (py_len composite_fields) ;;
  ret tt.

Definition analyze_fields_except (e : exn) : M unit :=
  state_set "error" (VStr ("Field analysis failed: " ++ str_exn e)).

Section FieldAnalyzer.

Variable llm : Type.
Variable get_bedrock_llm : Q -> Z -> result llm.
Variable ainvoke : llm -> field_analysis_prompt -> result string.
Variable json_loads : string -> result value.

(** The [try] block of [analyze_fields]. *)
Definition analyze_fields_try (client : llm) (p : field_analysis_prompt)
  : M unit :=
  content <- lift (ainvoke client p) ;;
  field_analysis <- lift (json_loads content) ;;
  record_field_analysis field_analysis.

Definition analyze_fields_body : M unit :=
  incoming_schema <- state_getitem "incoming_schema" ;;
  _ <- lift (py_getitem incoming_schema "hash") ;;
  client <- lift (get_bedrock_llm float_0_2 4096) ;;
  incoming_schema <- state_getitem "incoming_schema" ;;
  detected_fields <- lift (py_getitem incoming_schema "detected_fields") ;;
  incoming_schema <- state_getitem "incoming_schema" ;;
  sample_data <- lift (py_get incoming_schema "sample_data" (VList [])) ;;
  p <- lift (_build_field_analysis_prompt detected_fields sample_data) ;;
  try_except (analyze_fields_try client p) analyze_fields_except.

Definition analyze_fields (state : dict) : result dict :=
  run_stage analyze_fields_body state.

End FieldAnalyzer.

(** ** Mapping generator: the stage *)

Inductive mapping_prompt : Type :=
| MappingPrompt
    (detected_fields sample_data target_fields transformations
       composite_fields : value).

Definition _build_mapping_prompt
  (incoming_schema canonical_schema normalization_suggestions
     field_analysis : value) : result mapping_prompt :=
  let? transformations :=
    py_get normalization_suggestions "field_transformations" (VList []) in
  let? detected_fields := py_getitem incoming_schema "detected_fields" in
  let? sample_data := py_get incoming_schema "sample_data" (VList []) in
  let? sample_data := py_slice_to 3 sample_data in
  let? target_fields := py_get canonical_schema "fields" (VList []) in
  let? composite_fields :=
    py_get field_analysis "composite_fields" (VList []) in
  Ok (MappingPrompt detected_fields sample_data target_fields transformations
        composite_fields).

Fixpoint is_substring (needle s : string) : bool :=
  String.prefix needle s
  || match s with
     | EmptyString => false
     | String _ rest => is_substring needle rest
     end.

(** [needle in v] for a text [needle]: a key of a dict, an element of a
    list, a part of a text. *)
Definition py_contains (needle : string) (v : value) : result bool :=
  match v with
  | VDict d => Ok (dict_mem needle d)
  | VList l => Ok (existsb (fun x => py_eq x (VStr needle)) l)
  | VStr s => Ok (is_substring needle s)
  | _ => Raise (TypeError ("argument of type '" ++ type_name v
                           ++ "' is not iterable"))
  end.

(** What the parser of the mapping generator falls back to. *)
Definition default_mappings_result : value :=
  VDict [("field_mappings", VList [])].

(** The [except] block of [generate_mappings]. *)
Definition generate_mappings_except (e : exn) : M unit :=
  state_set "error" (VStr ("Mapping generation failed: " ++ str_exn e)) ;;;
  incoming_schema <- state_getitem "incoming_schema" ;;
  detected_fields <- lift (py_getitem incoming_schema "detected_fields") ;;
  canonical_schema <- state_get "canonical_schema" (VDict []) ;;
  target_fields <- lift (py_get canonical_schema "fields" (VList [])) ;;
  field_mappings <-
    lift (_generate_fallback_mappings detected_fields target_fields) ;;
  state_set "field_mappings" field_mappings.

(** Lines 92 to 104: validate the candidates, store them, record the
    stage.  The logging call that follows only measures the list and
    reads the records in it. *)
Definition record_mappings (mappings_result : value) : M unit :=
  candidates <- lift (py_get mappings_result "field_mappings" (VList [])) ;;
  field_mappings <- lift (_validate_mappings candidates) ;;
  state_set "field_mappings" field_mappings ;;;
  state_append "processing_history" (VStr "mapping_generation_completed").

Section MappingGenerator.

(** The client, the chat call, [json.loads], and [re.findall] of the
    brace-delimited spans. *)
Variable llm : Type.
Variable get_bedrock_llm : Q -> Z -> result llm.
Variable ainvoke : llm -> mapping_prompt -> result string.
Variable json_loads : string -> result value.
Variable re_findall_objects : string -> list string.

(** Lines 78 to 85: the first span that parses to something holding
    "field_mappings"; [None] when there is none. *)
Fixpoint find_mappings_result (spans : list string) : value :=
  match spans with
  | [] => VNone
  | span :: rest =>
      match json_loads span with
      | Ok potential_json =>
          match py_contains "field_mappings" potential_json with
          | Ok true => potential_json
          | _ => find_mappings_result rest
          end
      | Raise _ => find_mappings_result rest
      end
  end.

(** Lines 65 to 90. *)
Definition parse_mappings_result (content : string) : result value :=
  match json_loads content with
  | Ok mappings_result => Ok mappings_result
  | Raise (JSONDecodeError _) =>
      let mappings_result :=
        find_mappings_result (re_findall_objects content) in
      if negb (truthy mappings_result) then Ok default_mappings_result
      else Ok mappings_result
  | Raise e => Raise e
  end.

(** The [try] block of [generate_mappings]. *)
Definition generate_mappings_try (client : llm) (p : mapping_prompt)
  : M unit :=
  content <- lift (ainvoke client p) ;;
  mappings_result <- lift (parse_mappings_result content) ;;
  record_mappings mappings_result.

Definition generate_mappings_body : M unit :=
  incoming_schema <- state_getitem "incoming_schema" ;;
  _ <- lift (py_getitem incoming_schema "hash") ;;
  client <- lift (get_bedrock_llm float_0_1 8192) ;;
  incoming_schema <- state_getitem "incoming_schema" ;;
  canonical_schema <- state_get "canonical_schema" (VDict []) ;;
  normalization_suggestions <-
    state_get "normalization_suggestions" (VDict []) ;;
  field_analysis <- state_get "field_analysis" (VDict []) ;;
  p <- lift (_build_mapping_prompt incoming_schema canonical_schema
               normalization_suggestions field_analysis) ;;
  try_except (generate_mappings_try client p) generate_mappings_except.

Definition generate_mappings (state : dict) : result dict :=
  run_stage generate_mappings_body state.

End MappingGenerator.

(** ** The entry point *)

(** Lines 217 to 234 of [analyze_schema]. *)
Definition initial_state (request : dict) : result dict :=
  let? incoming_schema := dict_getitem "incoming_schema" request in
  Ok [("incoming_schema", incoming_schema);
      ("existing_entities",
        dict_get_default "existing_entities" (VList []) request);
      ("current_step", VStr "starting");
      ("processing_history", VList []);
      ("field_analysis", VNone);
      ("normalization_suggestions", VNone);
      ("entity_match_results", VNone);
      ("action", VNone);
      ("entity_id", VNone);
      ("entity_name", VNone);
      ("source_schema_name", VNone);
      ("similarity_score", VNone);
      ("reasoning", VNone);
      ("canonical_schema", VNone);
      ("field_mappings", VNone);
      ("error", VNone)].

Section EntryPoint.

(** [str] on a value that is not text; the compiled workflow, its
    construction, and its run on an initial state under a thread
    identifier. *)
Variable py_repr : value -> string.
Variable graph : Type.
Variable create_schema_analyzer_graph : result graph.
Variable graph_ainvoke : graph -> dict -> value -> result dict.

(** Lines 242 to 260: the response taken from the final state. *)
Definition response_of_final_state (final_state : dict) : result value :=
  if dict_mem "final_response" final_state
  then dict_getitem "final_response" final_state
  else
    let final_state :=
      if negb (truthy (dict_get_default "action" VNone final_state))
      then dict_set "action" (VStr "create_new") final_state
      else final_state in
    let action := dict_get_default "action" (VStr "create_new") final_state in
    let entity_id := dict_get_default "entity_id" VNone final_state in
    let? incoming_schema := dict_getitem "incoming_schema" final_state in
    let? hash := py_getitem incoming_schema "hash" in
    let? prefix := py_slice_to 8 hash in
    let entity_name :=
      dict_get_default "entity_name"
        (VStr ("Entity_" ++ format_value py_repr prefix)) final_state in
    let? incoming_schema := dict_getitem "incoming_schema" final_state in
    let? name := py_get incoming_schema "name" (VStr "unknown") in
    let source_schema_name :=
      dict_get_default "source_schema_name" name final_state in
    let similarity_score :=
      dict_get_default "similarity_score" VNone final_state in
    let reasoning :=
      dict_get_default "reasoning" (VStr "Schema analyzed") final_state in
    let canonical_schema :=
      dict_get_default "canonical_schema" (VDict [("fields", VList [])])
        final_state in
    let field_mappings :=
      dict_get_default "field_mappings" (VList []) final_state in
    let? response :=
      _validate_response py_repr
        [("action", action);
         ("entity_id", entity_id);
         ("entity_name", entity_name);
         ("source_schema_name", source_schema_name);
         ("similarity_score", similarity_score);
         ("reasoning", reasoning);
         ("canonical_schema", canonical_schema);
         ("field_mappings", field_mappings)]
        final_state in
    Ok (VDict response).

(** The [try] block of [analyze_schema]. *)
Definition analyze_schema_try (workflow : graph) (request initial : dict)
  : result value :=
  let? incoming_schema := dict_getitem "incoming_schema" request in
  let? hash := py_getitem incoming_schema "hash" in
  let? final_state := graph_ainvoke workflow initial hash in
  response_of_final_state final_state.

Definition analyze_schema (request : dict) : result value :=
  let? incoming_schema := dict_getitem "incoming_schema" request in
  let? _ := py_getitem incoming_schema "hash" in
  let? _ := py_len (dict_get_default "existing_entities" (VList []) request) in
  let? workflow := create_schema_analyzer_graph in
  let? initial := initial_state request in
  match analyze_schema_try workflow request initial with
  | Ok response => Ok response
  | Raise e =>
      let? incoming_schema := dict_getitem "incoming_schema" request in
      let? response :=
        _create_error_response [("incoming_schema", incoming_schema)]
          (str_exn e) in
      Ok (VDict response)
  end.

End EntryPoint.

(** * The specification's conditions *)

(** The score is a number, and that number is at least [n]. *)
Definition score_at_least (n : Z) (score : value) : Prop :=
  match as_number score with
  | Some q => (inject_Z n <= q)%Q
  | None => False
  end.

(** The condition of the decision rule in the words of the
    specification: the results carry a [best_match] record whose
    [similarity_score] is at least 75. *)
Definition best_match_qualifies (match_results best_match : value) : Prop :=
  exists (results bm : dict) (score : value),
    match_results = VDict results /\
    dict_get "best_match" results = Some best_match /\
    best_match = VDict bm /\
    dict_get "similarity_score" bm = Some score /\
    score_at_least 75 score.

(** The stage gets past the catalogue check, obtains its client and
    builds its prompt: it is about to enter its guarded block. *)
Definition enters_guarded_block {llm : Type}
  (get_bedrock_llm : Q -> Z -> result llm)
  (state : dict) (client : llm) (p : prompt) : Prop :=
  exists (incoming_schema hash existing_entities : value) (n : Z),
    dict_get "incoming_schema" state = Some incoming_schema /\
    py_getitem incoming_schema "hash" = Ok hash /\
    dict_get "existing_entities" state = Some existing_entities /\
    py_len existing_entities = Ok n /\
    truthy existing_entities = true /\
    get_bedrock_llm float_0_1 4096 = Ok client /\
    _build_entity_matching_prompt incoming_schema existing_entities
      (dict_get_default "field_analysis" (VDict []) state) = Ok p.

(** ** Which keys a computation leaves alone *)

(** [m] never changes what the state holds under [k]. *)
Definition keeps {A : Type} (k : string) (m : M A) : Prop :=
  forall s r s', m s = (r, s') -> dict_get k s' = dict_get k s.

(** [m] has not changed what the state holds under [k] when it raises. *)
Definition raise_keeps {A : Type} (k : string) (m : M A) : Prop :=
  forall s e s', m s = (Raise e, s') -> dict_get k s' = dict_get k s.


(** ** Sample data *)

Module Sample.

Definition text_field (name : string) : value :=
  VDict [("name", VStr name); ("type", VStr "string")].

Definition incoming_schema : value :=
  VDict [("id", VInt 12);
         ("hash", VStr "9f86d081884c7d65");
         ("name", VStr "contacts_import");
         ("tenant_id", VInt 3);
         ("detected_fields",
           VList [text_field "full_name"; text_field "email"]);
         ("sample_data",
           VList [VDict [("full_name", VStr "John Smith");
                         ("email", VStr "john@x.com")]])].

Definition customer : value :=
  VDict [("id", VInt 1);
         ("name", VStr "Customer");
         ("fields",
           VList [text_field "first_name"; text_field "last_name";
                  text_field "email"])].

(** The state [analyze_schema] starts the workflow from. *)
Definition initial_state (existing_entities : list value) : dict :=
  [("incoming_schema", incoming_schema);
   ("existing_entities", VList existing_entities);
   ("current_step", VStr "starting");
   ("processing_history", VList []);
   ("field_analysis", VNone);
   ("normalization_suggestions", VNone);
   ("entity_match_results", VNone);
   ("action", VNone);
   ("entity_id", VNone);
   ("entity_name", VNone);
   ("source_schema_name", VNone);
   ("similarity_score", VNone);
   ("reasoning", VNone);
   ("canonical_schema", VNone);
   ("field_mappings", VNone);
   ("error", VNone)].

(** A reply of the model that parses to [best_match] with the given
    score, next to the given [should_create_new] flag. *)
Definition match_results (score : Z) (should_create_new : bool) : value :=
  VDict [("best_match",
           VDict [("entity_id", VInt 1);
                  ("entity_name", VStr "Customer");
                  ("similarity_score", VInt score)]);
         ("should_create_new", VBool should_create_new);
         ("reason", VStr "compared with Customer")].

Definition get_llm (temperature : Q) (max_tokens : Z) : result unit := Ok tt.

Definition replies (client : unit) (s : system_message) (p : prompt)
  : result string := Ok "reply".

Definition times_out (client : unit) (s : system_message) (p : prompt)
  : result string := Raise (OtherError "Read timeout on endpoint").

Definition parses_to (v : value) (content : string) : result value := Ok v.

Definition no_span (content : string) : option string := None.

Definition matching_prompt : prompt :=
  EntityMatchingPrompt
    (VStr "contacts_import")
    (VList [text_field "full_name"; text_field "email"])
    (VList [VDict [("full_name", VStr "John Smith");
                   ("email", VStr "john@x.com")]])
    (VList [])
    [(VStr "Customer", VInt 1,
      VList [text_field "first_name"; text_field "last_name";
             text_field "email"])].

(** A stand-in for [str] on values that are not text. *)
Definition repr (v : value) : string := "<" ++ type_name v ++ ">".

(** A candidate response with a stray attribute, a stray entry and an
    entry without target among its field mappings. *)
Definition candidate_response : dict :=
  [("action", VStr "create_new");
   ("entity_id", VNone);
   ("entity_name", VStr "Contact");
   ("source_schema_name", VNone);
   ("similarity_score", VNone);
   ("reasoning", VStr "");
   ("canonical_schema",
     VDict [("fields", VList [text_field "first_name"; text_field "email"])]);
   ("field_mappings",
     VList [VDict [("source_field", VStr "full_name");
                   ("target_field", VStr "first_name");
                   ("transformation", VStr "split");
                   ("note", VStr "first token")];
            VStr "email";
            VDict [("source_field", VStr "legacy_code")];
            VDict [("target_field", VStr "email");
                   ("source_field", VStr "email");
                   ("jsonata_formula", VStr "email");
                   ("confidence", VInt 1)]])].

(** A reply of the normalizer that designs a schema without fields. *)
Definition empty_design : value :=
  VDict [("entity_name", VStr "Contact");
         ("source_schema_name", VStr "contacts_import");
         ("canonical_schema", VDict [("fields", VList [])]);
         ("reasoning", VStr "No atomic field could be derived")].


End Sample.

(** * The rules of the mapping generator, in the specification's words *)

(** The field is a record whose name is the text [name]. *)
Definition field_named (field : value) (name : string) : Prop :=
  exists d, field = VDict d /\ dict_get "name" d = Some (VStr name).

(** The three tiers of the fallback generator for one target field. *)
Inductive fallback_rule (source_names : list string) (target : string)
  : value -> Prop :=
| fallback_exact :
    In target source_names ->
    fallback_rule source_names target
      (VDict [("source_field", VStr target);
              ("target_field", VStr target);
              ("transformation", VStr "direct");
              ("jsonata_formula", VStr target);
              ("confidence", VFloat float_0_9);
              ("explanation", VStr "Direct field name match")])
| fallback_variation :
    ~ In target source_names ->
    In (remove_underscores target) source_names ->
    fallback_rule source_names target
      (VDict [("source_field", VStr (remove_underscores target));
              ("target_field", VStr target);
              ("transformation", VStr "direct");
              ("jsonata_formula", VStr (remove_underscores target));
              ("confidence", VFloat float_0_7);
              ("explanation",
                VStr "Field name match with underscore variation")])
| fallback_constant :
    ~ In target source_names ->
    ~ In (remove_underscores target) source_names ->
    fallback_rule source_names target
      (VDict [("source_field", VStr "");
              ("target_field", VStr target);
              ("transformation", VStr "constant");
              ("jsonata_formula", VStr "null");
              ("confidence", VFloat float_0_5);
              ("explanation", VStr "No matching source field found")]).

(** The synonym table as the specification groups it: a tag outside the
    six valid ones becomes "formula", "format_conversion" or "combine". *)
Definition remapped_tag (tag : string) : string :=
  if string_mem tag ["direct"; "formula"; "split"; "combine";
                     "format_conversion"; "constant"]
  then tag
  else if string_mem tag ["extract"; "uppercase"; "lowercase"; "trim"; "parse"]
  then "formula"
  else if string_mem tag ["unix_to_datetime"; "date_format"]
  then "format_conversion"
  else if string_mem tag ["concat"; "concatenate"; "merge"; "join"]
  then "combine"
  else "formula".

(** The entry is a record with a non-empty [target_field]. *)
Definition has_target_field (v : value) : bool :=
  match v with
  | VDict d =>
      match dict_get "target_field" d with
      | Some target => truthy target
      | None => false
      end
  | _ => false
  end.

(** A candidate mapping is a record; when it has a non-empty
    [target_field], its transformation is text or absent. *)
Definition candidate_mapping (v : value) : Prop :=
  exists d, v = VDict d /\
            (has_target_field v = true ->
             dict_get "transformation" d = None \/
             exists tag, dict_get "transformation" d = Some (VStr tag)).

(** The transformation a candidate declares; "direct" when it has none. *)
Definition declared_transformation (d : dict) : string :=
  match dict_get "transformation" d with
  | Some (VStr tag) => tag
  | _ => "direct"
  end.

(** The attribute is absent or empty. *)
Definition absent_or_empty (k : string) (d : dict) : bool :=
  match dict_get k d with
  | Some v => negb (truthy v)
  | None => true
  end.

(** What the validation pass of the mapping generator makes of a
    candidate [m] that it keeps. *)
Definition validated_from (m m' : value) : Prop :=
  exists d d' : dict,
    m = VDict d /\ m' = VDict d' /\
    let tag := remapped_tag (lower (declared_transformation d)) in
    dict_get "transformation" d' = Some (VStr tag) /\
    In tag ["direct"; "formula"; "split"; "combine"; "format_conversion";
            "constant"] /\
    dict_get "confidence" d' =
      Some (match dict_get "confidence" d with
            | Some confidence => confidence
            | None => VFloat float_0_8
            end) /\
    dict_get "jsonata_formula" d' =
      (if absent_or_empty "jsonata_formula" d
       then if String.eqb tag "direct"
               && negb (absent_or_empty "source_field" d)
            then dict_get "source_field" d
            else if String.eqb tag "constant"
            then Some (VStr empty_constant)
            else dict_get "jsonata_formula" d
       else dict_get "jsonata_formula" d) /\
    dict_get "source_field" d' =
      Some (match dict_get "source_field" d with
            | Some source => source
            | None => VStr ""
            end) /\
    (forall k, k <> "transformation" -> k <> "confidence" ->
               k <> "jsonata_formula" -> k <> "source_field" ->
               dict_get k d' = dict_get k d) /\
    (forall k, In k (dict_keys d) -> In k (dict_keys d')).

(** * The rules of response assembly, in the specification's words *)

(** The field mappings a candidate response offers; what is not a list
    offers none. *)
Definition candidate_mappings (response : dict) : list value :=
  match dict_get "field_mappings" response with
  | Some (VList mappings) => mappings
  | _ => []
  end.

(** The six declared attributes of a field mapping. *)
Definition mapping_attributes : list string :=
  ["source_field"; "target_field"; "transformation"; "jsonata_formula";
   "confidence"; "explanation"].

(** What response assembly makes of a candidate mapping [m] that it
    keeps: the target as it is, every other attribute as it is or else
    its default. *)
Definition rebuilt_from (m m' : value) : Prop :=
  exists d d' : dict,
    m = VDict d /\ m' = VDict d' /\
    dict_get "target_field" d' = dict_get "target_field" d /\
    dict_get "source_field" d' =
      Some (dict_get_default "source_field" (VStr "") d) /\
    dict_get "transformation" d' =
      Some (dict_get_default "transformation" (VStr "direct") d) /\
    dict_get "jsonata_formula" d' =
      Some (dict_get_default "jsonata_formula" (VStr "") d) /\
    dict_get "confidence" d' =
      Some (dict_get_default "confidence" (VFloat float_0_8) d) /\
    dict_get "explanation" d' =
      Some (dict_get_default "explanation" (VStr "") d).

(** The mapping is a record with the six declared attributes and no
    other. *)
Definition only_declared_attributes (m : value) : Prop :=
  exists d, m = VDict d /\ dict_keys d = mapping_attributes.

(** Every attribute of the record [m] is an attribute of [m']. *)
Definition keeps_attributes (m m' : value) : Prop :=
  exists d d' : dict,
    m = VDict d /\ m' = VDict d' /\
    forall k, In k (dict_keys d) -> In k (dict_keys d').

(** A detected field is a record with a name and a type. *)
Definition detected_field (field : value) : Prop :=
  exists d name type,
    field = VDict d /\
    dict_get "name" d = Some name /\ dict_get "type" d = Some type.

(** The definition synthesized for a detected field: its name, its type,
    and its [required] flag or else [False]. *)
Definition synthesized_from (field definition : value) : Prop :=
  exists d name type,
    field = VDict d /\
    dict_get "name" d = Some name /\ dict_get "type" d = Some type /\
    definition =
      VDict [("name", name);
             ("type", type);
             ("required", dict_get_default "required" (VBool false) d)].

(** ** States that differ on one key *)

(** The two states hold the same under every key but [k]. *)
Definition agree_except (k : string) (s1 s2 : dict) : Prop :=
  forall k', k' <> k -> dict_get k' s1 = dict_get k' s2.

(** The two runs of a stage raise the same exception, or return states
    that hold the same under every key but [k]. *)
Definition same_outcome (k : string) (r1 r2 : result dict) : Prop :=
  match r1, r2 with
  | Ok s1, Ok s2 => agree_except k s1 s2
  | Raise e1, Raise e2 => e1 = e2
  | _, _ => False
  end.

(** What [m] computes does not depend on what the state holds under
    [k]. *)
Definition ignores {A : Type} (k : string) (m : M A) : Prop :=
  forall s1 s2,
    agree_except k s1 s2 ->
    fst (m s1) = fst (m s2) /\ agree_except k (snd (m s1)) (snd (m s2)).


(** * Conditions used by the further properties *)

(** The tags the entity matcher records in the history. *)
Definition entity_matching_tags : list string :=
  ["entity_matching_skipped"; "entity_matching_completed";
   "entity_matching_failed"].

(** The entity is a record whose [id] equals [entity_id]. *)
Definition has_id (entity_id entity : value) : Prop :=
  exists d id,
    entity = VDict d /\ dict_get "id" d = Some id /\
    py_eq id entity_id = true.

(** The entity is a record with an [id]. *)
Definition identified (entity : value) : Prop :=
  exists d id, entity = VDict d /\ dict_get "id" d = Some id.

(** The incoming schema has a hash, a name, and detected fields that
    are records with a name and a type. *)
Definition well_formed_schema (incoming_schema : value) : Prop :=
  exists d hash name detected_fields,
    incoming_schema = VDict d /\
    dict_get "hash" d = Some hash /\
    dict_get "name" d = Some name /\
    dict_get "detected_fields" d = Some (VList detected_fields) /\
    Forall detected_field detected_fields.

(** The direct mapping of a detected field onto itself that the error
    response carries. *)
Definition self_mapped (field mapping : value) : Prop :=
  exists d name,
    field = VDict d /\ dict_get "name" d = Some name /\
    mapping =
      VDict [("source_field", name);
             ("target_field", name);
             ("transformation", VStr "direct");
             ("jsonata_formula", name);
             ("confidence", VFloat float_0_5);
             ("explanation",
               VStr "Fallback direct mapping due to processing error")].

(** ** Further sample data *)

Module Scenario.

(** A parser that rejects every text. *)
Definition rejects (content : string) : result value :=
  Raise (JSONDecodeError "Expecting value: line 1 column 1 (char 0)").

(** Match results whose best match scores 90 but names no entity. *)
Definition anonymous_match : value :=
  VDict [("best_match",
           VDict [("entity_name", VStr "Customer");
                  ("similarity_score", VInt 90)]);
         ("should_create_new", VBool false)].

(** The state the entity matcher leaves when the catalogue is empty. *)
Definition skipped_state : dict :=
  dict_set "processing_history" (VList [VStr "entity_matching_skipped"])
    (dict_set "entity_match_results" skipped_match_results
       (Sample.initial_state [])).

(** The prompt the normalizer builds from it. *)
Definition new_entity_prompt : prompt :=
  NewEntityNormalizationPrompt
    (VStr "contacts_import")
    (VList [Sample.text_field "full_name"; Sample.text_field "email"])
    (VList [VDict [("full_name", VStr "John Smith");
                   ("email", VStr "john@x.com")]])
    VNone
    (VStr "No existing canonical entities in the system").

(** A reply of the normalizer that names no entity. *)
Definition unnamed_design : value :=
  VDict [("canonical_schema",
           VDict [("fields", VList [Sample.text_field "email"])]);
         ("reasoning", VStr "Only the e-mail address is atomic")].

(** A complete reply of the normalizer. *)
Definition contact_design : value :=
  VDict [("entity_name", VStr "Contact");
         ("source_schema_name", VStr "contacts_import");
         ("canonical_schema",
           VDict [("fields",
                    VList [Sample.text_field "first_name";
                           Sample.text_field "last_name";
                           Sample.text_field "email"])]);
         ("field_transformations", VList []);
         ("reasoning", VStr "The full name is split")].

(** The state the entity matcher leaves when the model cannot be
    reached. *)
Definition unmatched_state : dict :=
  match match_entities unit Sample.get_llm Sample.times_out
          (Sample.parses_to VNone) Sample.no_span
          (Sample.initial_state [Sample.customer]) with
  | Ok state => state
  | Raise _ => []
  end.

End Scenario.

(** The normalizer gets its client and builds its prompt: it is about
    to enter its guarded block. *)
Definition normalizer_enters {llm : Type}
  (get_bedrock_llm : Q -> Z -> result llm)
  (state : dict) (client : llm) (p : prompt) : Prop :=
  exists incoming_schema hash : value,
    dict_get "incoming_schema" state = Some incoming_schema /\
    py_getitem incoming_schema "hash" = Ok hash /\
    get_bedrock_llm float_0_1 4096 = Ok client /\
    normalization_prompt state = (Ok p, state).

(** The mapping is a record with a source, a target and a confidence,
    whose transformation is one of the six valid tags. *)
Definition settled_mapping (mapping : value) : Prop :=
  exists d tag,
    mapping = VDict d /\
    dict_get "transformation" d = Some (VStr tag) /\
    In tag VALID_TRANSFORMATIONS /\
    dict_mem "source_field" d = true /\
    dict_mem "target_field" d = true /\
    dict_mem "confidence" d = true.

(** The mapping generator gets its client and builds its prompt: it is
    about to enter its guarded block. *)
Definition mapping_generator_enters {llm : Type}
  (get_bedrock_llm : Q -> Z -> result llm) (state : dict)
  (client : llm) (p : mapping_prompt) : Prop :=
  exists incoming_schema hash,
    dict_get "incoming_schema" state = Some incoming_schema /\
    py_getitem incoming_schema "hash" = Ok hash /\
    get_bedrock_llm float_0_1 8192 = Ok client /\
    _build_mapping_prompt incoming_schema
      (dict_get_default "canonical_schema" (VDict []) state)
      (dict_get_default "normalization_suggestions" (VDict []) state)
      (dict_get_default "field_analysis" (VDict []) state) = Ok p.

(** The slot of the state is unfilled, or holds a record. *)
Definition none_or_record (v : value) : Prop :=
  match v with
  | VNone | VDict _ => True
  | _ => False
  end.

(** The slots of the state the prompt of the mapping generator reads. *)
Definition mapping_prompt_slots : list string :=
  ["canonical_schema"; "normalization_suggestions"; "field_analysis"].

(** The mappings the validation pass makes of a parsed reply. *)
Definition validated_reply (mappings_result : value) : result value :=
  let? candidates := py_get mappings_result "field_mappings" (VList []) in
  _validate_mappings candidates.

Module MappingSample.

Definition field_analysis : value :=
  VDict [("composite_fields", VList [VStr "full_name"])].

(** The state the normalizer leaves after a complete reply, the field
    analysis being there. *)
Definition normalized_state : dict :=
  match normalize_schema unit Sample.get_llm Sample.replies
          (Sample.parses_to Scenario.contact_design)
          (dict_set "field_analysis" field_analysis Scenario.skipped_state)
  with
  | Ok state => state
  | Raise _ => []
  end.

(** The state the normalizer leaves when the model cannot be reached. *)
Definition failed_state : dict :=
  match normalize_schema unit Sample.get_llm Sample.times_out
          (Sample.parses_to Scenario.contact_design)
          (dict_set "field_analysis" field_analysis Scenario.skipped_state)
  with
  | Ok state => state
  | Raise _ => []
  end.

Definition mapping_request : mapping_prompt :=
  MappingPrompt
    (VList [Sample.text_field "full_name"; Sample.text_field "email"])
    (VList [VDict [("full_name", VStr "John Smith");
                   ("email", VStr "john@x.com")]])
    (VList [Sample.text_field "first_name"; Sample.text_field "last_name";
            Sample.text_field "email"])
    (VList [])
    (VList [VStr "full_name"]).

Definition replies (client : unit) (p : mapping_prompt) : result string :=
  Ok "reply".

Definition times_out (client : unit) (p : mapping_prompt) : result string :=
  Raise (OtherError "Read timeout on endpoint").

Definition no_spans (content : string) : list string := [].

(** A reply with a capitalised tag, an entry that relies on the
    defaults and an entry without target. *)
Definition generated : value :=
  VDict [("field_mappings",
           VList [VDict [("source_field", VStr "full_name");
                         ("target_field", VStr "first_name");
                         ("transformation", VStr "Split");
                         ("jsonata_formula",
                           VStr "$split(full_name, ' ')[0]")];
                  VDict [("target_field", VStr "email");
                         ("source_field", VStr "email")];
                  VDict [("source_field", VStr "legacy_code")]])].

End MappingSample.

(** The field analyzer gets its client and builds its prompt: it is
    about to enter its guarded block. *)
Definition field_analyzer_enters {llm : Type}
  (get_bedrock_llm : Q -> Z -> result llm) (state : dict)
  (client : llm) (p : field_analysis_prompt) : Prop :=
  exists incoming_schema hash detected_fields sample_data,
    dict_get "incoming_schema" state = Some incoming_schema /\
    py_getitem incoming_schema "hash" = Ok hash /\
    get_bedrock_llm float_0_2 4096 = Ok client /\
    py_getitem incoming_schema "detected_fields" = Ok detected_fields /\
    py_get incoming_schema "sample_data" (VList []) = Ok sample_data /\
    _build_field_analysis_prompt detected_fields sample_data = Ok p.

Module FieldSample.

Definition analysis_request : field_analysis_prompt :=
  FieldAnalysisPrompt
    (VList [Sample.text_field "full_name"; Sample.text_field "email"])
    (VList [VDict [("full_name", VStr "John Smith");
                   ("email", VStr "john@x.com")]]).

Definition replies (client : unit) (p : field_analysis_prompt)
  : result string := Ok "reply".

(** A reply that lists its findings instead of naming them. *)
Definition listed_analysis : value :=
  VList [VDict [("field", VStr "full_name"); ("composite", VBool true)]].

End FieldSample.

(** The attributes of a response. *)
Definition response_keys : list string :=
  ["action"; "entity_id"; "entity_name"; "source_schema_name";
   "similarity_score"; "reasoning"; "canonical_schema"; "field_mappings"].

(** The response that answers a failure: a new entity with one field
    definition and one direct mapping for each detected field. *)
Definition error_response_for (detected_fields : list value) (name : value)
  (error : string) (response : dict) : Prop :=
  exists fields mappings : list value,
    response =
      [("action", VStr "create_new");
       ("entity_id", VNone);
       ("entity_name", VStr "DataEntity");
       ("source_schema_name", name);
       ("similarity_score", VNone);
       ("reasoning", VStr ("Fallback response due to error: " ++ error));
       ("canonical_schema", VDict [("fields", VList fields)]);
       ("field_mappings", VList mappings)] /\
    Forall2 synthesized_from detected_fields fields /\
    Forall2 self_mapped detected_fields mappings.

Module EntrySample.

Definition request : dict :=
  [("incoming_schema", Sample.incoming_schema);
   ("existing_entities", VList [])].

Definition create_graph : result unit := Ok tt.

(** A workflow that fails. *)
Definition breaks (workflow : unit) (initial : dict) (thread_id : value)
  : result dict :=
  Raise (AttributeError "NoneType" "get").

(** A workflow that stops after the normalizer, before any response is
    prepared. *)
Definition stops_early (workflow : unit) (initial : dict) (thread_id : value)
  : result dict :=
  Ok MappingSample.normalized_state.

End EntrySample.
(** * Properties *)

(** ** Dictionaries *)

Lemma dict_get_set (k k' : string) (v : value) (d : dict) :
  dict_get k (dict_set k' v d) =
  if String.eqb k k' then Some v else dict_get k d.
Proof.
  induction d as [|[k0 v0] rest IH]; simpl.
  - reflexivity.
  - destruct (String.eqb_spec k' k0) as [->|Hk0]; simpl.
    + destruct (String.eqb k k0); reflexivity.
    + rewrite IH.
      destruct (String.eqb_spec k k0) as [->|Hk]; [|reflexivity].
      destruct (String.eqb_spec k0 k') as [<-|_]; [contradiction|reflexivity].
Qed.

Lemma dict_get_set_same (k : string) (v : value) (d : dict) :
  dict_get k (dict_set k v d) = Some v.
Proof. rewrite dict_get_set, String.eqb_refl. reflexivity. Qed.

Lemma dict_get_set_other (k k' : string) (v : value) (d : dict) :
  k <> k' -> dict_get k (dict_set k' v d) = dict_get k d.
Proof.
  intros Hk. rewrite dict_get_set.
  destruct (String.eqb_spec k k'); [contradiction|reflexivity].
Qed.

Lemma dict_get_default_set (k k' : string) (default v : value) (d : dict) :
  dict_get_default k default (dict_set k' v d) =
  if String.eqb k k' then v else dict_get_default k default d.
Proof.
  unfold dict_get_default. rewrite dict_get_set.
  destruct (String.eqb k k'); reflexivity.
Qed.

Lemma dict_mem_set (k k' : string) (v : value) (d : dict) :
  dict_mem k (dict_set k' v d) = String.eqb k k' || dict_mem k d.
Proof.
  unfold dict_mem. rewrite dict_get_set.
  destruct (String.eqb k k'); reflexivity.
Qed.

(** Assignment never loses a key. *)
Lemma dict_set_keeps_keys (k k' : string) (v : value) (d : dict) :
  In k (dict_keys d) -> In k (dict_keys (dict_set k' v d)).
Proof.
  unfold dict_keys. induction d as [|[k0 v0] rest IH]; simpl.
  - intros [].
  - destruct (String.eqb k' k0); simpl; intuition.
Qed.

Lemma truthy_dict_get_default (k : string) (d : dict) :
  truthy (dict_get_default k VNone d) = true ->
  exists v, dict_get k d = Some v /\ truthy v = true.
Proof.
  unfold dict_get_default. destruct (dict_get k d) as [v|]; simpl.
  - intros H. exists v. split; [reflexivity|exact H].
  - discriminate.
Qed.

(** Rewrite lookups through assignments, deciding the key tests. *)
Ltac dict_simpl :=
  repeat (rewrite ?dict_get_set, ?dict_get_default_set, ?dict_mem_set;
          cbn [String.eqb Ascii.eqb Bool.eqb orb andb negb]).

(** ** Entity matcher *)

(** C2. When the catalogue of existing entities is the empty list,
    [match_entities] returns the same state whatever the client factory,
    the model, the parser and the pattern search are: the match results
    are exactly the skipped record, "entity_matching_skipped" is appended
    to the history, and every other key, [action] among them, is left as
    it was. *)
Theorem match_entities_empty_catalogue :
  forall (state : dict) (incoming_schema hash : value) (history : list value),
    dict_get "incoming_schema" state = Some incoming_schema ->
    py_getitem incoming_schema "hash" = Ok hash ->
    dict_get "existing_entities" state = Some (VList []) ->
    dict_get "processing_history" state = Some (VList history) ->
    exists state' : dict,
      (forall (llm : Type) get_bedrock_llm ainvoke json_loads re_search_object,
          @match_entities llm get_bedrock_llm ainvoke json_loads
            re_search_object state = Ok state') /\
      dict_get "entity_match_results" state' =
        Some (VDict [("best_match", VNone);
                     ("should_create_new", VBool true);
                     ("reason",
                       VStr "No existing canonical entities in the system")]) /\
      dict_get "processing_history" state' =
        Some (VList (history ++ [VStr "entity_matching_skipped"])) /\
      dict_get "action" state' = dict_get "action" state /\
      (forall k, k <> "entity_match_results" -> k <> "processing_history" ->
                 dict_get k state' = dict_get k state).
Proof.
  intros state incoming_schema hash history Hinc Hhash Hent Hhist.
  exists (dict_set "processing_history"
            (VList (history ++ [VStr "entity_matching_skipped"]))
            (dict_set "entity_match_results" skipped_match_results state)).
  split; [|split; [|split; [|split]]].
  - intros. unfold match_entities, run_stage, match_entities_body.
    unfold bind, state_getitem, dict_getitem, lift.
    rewrite Hinc, Hhash, Hent. simpl.
    unfold bind, state_set, state_append.
    rewrite dict_get_set_other by discriminate.
    rewrite Hhist. reflexivity.
  - dict_simpl. reflexivity.
  - dict_simpl. reflexivity.
  - dict_simpl. reflexivity.
  - intros k Hk1 Hk2.
    rewrite !dict_get_set_other by assumption. reflexivity.
Qed.

Lemma py_ge_int_true (score : value) (n : Z) :
  py_ge_int score n = Ok true <-> score_at_least n score.
Proof.
  unfold score_at_least.
  destruct score; simpl; try (split; [discriminate|intros []]).
  - rewrite <- Zle_Qle. split.
    + intros H. injection H as H. apply Z.leb_le. exact H.
    + intros H. apply Z.leb_le in H. rewrite H. reflexivity.
  - rewrite <- Zle_Qle. split.
    + intros H. injection H as H. apply Z.leb_le. exact H.
    + intros H. apply Z.leb_le in H. rewrite H. reflexivity.
  - rewrite <- Qle_bool_iff. split.
    + intros H. injection H as H. exact H.
    + intros H. rewrite H. reflexivity.
Qed.

Lemma state_append_ok (k : string) (v : value) (s s' : dict) :
  state_append k v s = (Ok tt, s') ->
  exists l, dict_get k s = Some (VList l) /\
            s' = dict_set k (VList (l ++ [v])) s.
Proof.
  unfold state_append.
  destruct (dict_get k s) as [[| | | | |l|]|]; try discriminate.
  intros H. injection H as <-. exists l. split; reflexivity.
Qed.

Lemma qualifies_inv (results bm : dict) (best_match : value) :
  dict_get "best_match" results = Some (VDict bm) ->
  best_match_qualifies (VDict results) best_match ->
  best_match = VDict bm /\
  py_ge_int (dict_get_default "similarity_score" (VInt 0) bm) 75 = Ok true.
Proof.
  intros Hget (results' & bm' & score & Hres & Hbest & Hbm & Hscore & Hge).
  injection Hres as <-. rewrite Hget in Hbest. injection Hbest as <-.
  injection Hbm as <-. split; [reflexivity|].
  unfold dict_get_default. rewrite Hscore.
  apply py_ge_int_true. exact Hge.
Qed.

Lemma decide_action_ok (match_results : value) (state state' : dict) :
  decide_action match_results state = (Ok tt, state') ->
  exists history : list value,
    dict_get "processing_history" state = Some (VList history) /\
    dict_get "entity_match_results" state' = Some match_results /\
    dict_get "processing_history" state' =
      Some (VList (history ++ [VStr "entity_matching_completed"])) /\
    ((exists best_match entity_id similarity_score,
         best_match_qualifies match_results best_match /\
         py_getitem best_match "entity_id" = Ok entity_id /\
         py_getitem best_match "similarity_score" = Ok similarity_score /\
         dict_get "action" state' = Some (VStr "map_to_existing") /\
         dict_get "entity_id" state' = Some entity_id /\
         dict_get "similarity_score" state' = Some similarity_score)
     \/
     ((forall best_match, ~ best_match_qualifies match_results best_match) /\
      dict_get "action" state' = Some (VStr "create_new") /\
      dict_get "entity_id" state' = Some VNone /\
      dict_get "similarity_score" state' = Some VNone)).
Proof.
  unfold decide_action, bind, lift, state_set, ret.
  destruct match_results as [| | | | | |results]; simpl; try discriminate.
  destruct (truthy (dict_get_default "best_match" VNone results)) eqn:Hbm.
  - apply truthy_dict_get_default in Hbm as (best_match & Hget & Htrue).
    unfold dict_getitem at 1. rewrite Hget.
    destruct best_match as [| | | | | |bm]; simpl; try discriminate.
    destruct (py_ge_int (dict_get_default "similarity_score" (VInt 0) bm) 75)
      as [[|]|] eqn:Hge; try discriminate.
    + unfold dict_getitem at 1. rewrite Hget. simpl.
      destruct (dict_getitem "entity_id" bm) as [entity_id|] eqn:Hid;
        try discriminate.
      unfold dict_getitem at 1. rewrite Hget. simpl.
      destruct (dict_getitem "similarity_score" bm) as [score|] eqn:Hscore;
        try discriminate.
      intros H. apply state_append_ok in H as (history & Hhist & ->).
      rewrite !dict_get_set_other in Hhist by discriminate.
      exists history. dict_simpl. repeat split; try assumption.
      left. exists (VDict bm), entity_id, score. repeat split; try assumption.
      exists results, bm, score. repeat split; try assumption.
      * unfold dict_getitem in Hscore.
        destruct (dict_get "similarity_score" bm); congruence.
      * apply py_ge_int_true. unfold dict_getitem in Hscore.
        unfold dict_get_default in Hge.
        destruct (dict_get "similarity_score" bm); congruence.
    + intros H. apply state_append_ok in H as (history & Hhist & ->).
      rewrite !dict_get_set_other in Hhist by discriminate.
      exists history. dict_simpl. repeat split; try assumption.
      right. repeat split.
      intros best_match Hq.
      destruct (qualifies_inv _ _ _ Hget Hq) as [_ Hge'].
      congruence.
  - intros H. apply state_append_ok in H as (history & Hhist & ->).
    rewrite !dict_get_set_other in Hhist by discriminate.
    exists history. dict_simpl. repeat split; try assumption.
    right. repeat split.
    intros best_match (results' & bm' & score & Hres & Hbest & Hb & Hscore & _).
    injection Hres as <-. unfold dict_get_default in Hbm.
    rewrite Hbest, Hb in Hbm. destruct bm'; [discriminate Hscore|discriminate Hbm].
Qed.

(** ** Which keys a computation leaves alone *)

Lemma keeps_ret {A : Type} (k : string) (a : A) : keeps k (ret a).
Proof. intros s r s' H. injection H as _ <-. reflexivity. Qed.

Lemma keeps_lift {A : Type} (k : string) (r : result A) : keeps k (lift r).
Proof. intros s r' s' H. injection H as _ <-. reflexivity. Qed.

Lemma keeps_state_set (k k' : string) (v : value) :
  k <> k' -> keeps k (state_set k' v).
Proof.
  intros Hk s r s' H. injection H as _ <-.
  apply dict_get_set_other. exact Hk.
Qed.

Lemma keeps_bind {A B : Type} (k : string) (m : M A) (f : A -> M B) :
  keeps k m -> (forall a, keeps k (f a)) -> keeps k (bind m f).
Proof.
  intros Hm Hf s r s'. unfold bind.
  destruct (m s) as [[a|e] s1] eqn:Hms.
  - intros H. rewrite (Hf a _ _ _ H). exact (Hm _ _ _ Hms).
  - intros H. injection H as _ <-. exact (Hm _ _ _ Hms).
Qed.

Lemma keeps_if {A : Type} (k : string) (b : bool) (m1 m2 : M A) :
  keeps k m1 -> keeps k m2 -> keeps k (if b then m1 else m2).
Proof. destruct b; auto. Qed.

Lemma raise_keeps_bind {A B : Type} (k : string) (m : M A) (f : A -> M B) :
  keeps k m -> (forall a, raise_keeps k (f a)) -> raise_keeps k (bind m f).
Proof.
  intros Hm Hf s e s'. unfold bind.
  destruct (m s) as [[a|e1] s1] eqn:Hms.
  - intros H. rewrite (Hf a _ _ _ H). exact (Hm _ _ _ Hms).
  - intros H. injection H as _ <-. exact (Hm _ _ _ Hms).
Qed.

Lemma raise_keeps_state_append (k k' : string) (v : value) :
  raise_keeps k (state_append k' v).
Proof.
  intros s e s'. unfold state_append.
  destruct (dict_get k' s) as [[| | | | |l|]|]; try discriminate;
    intros H; injection H as _ <-; reflexivity.
Qed.

Ltac keeps_tac :=
  repeat first
    [ apply keeps_bind
    | apply keeps_if
    | apply keeps_ret
    | apply keeps_lift
    | apply keeps_state_set; discriminate
    | intro ].

(** ** Entity matcher, continued *)

Lemma decide_action_raise (match_results : value) (state state1 : dict)
  (e : exn) :
  decide_action match_results state = (Raise e, state1) ->
  dict_get "processing_history" state1 = dict_get "processing_history" state.
Proof.
  revert state e state1.
  change (raise_keeps "processing_history" (decide_action match_results)).
  unfold decide_action.
  apply raise_keeps_bind; [keeps_tac|intros _].
  apply raise_keeps_bind; [keeps_tac|intros best_match].
  apply raise_keeps_bind; [keeps_tac|intros maps].
  apply raise_keeps_bind; [keeps_tac|intros _].
  apply raise_keeps_state_append.
Qed.

Section EntityMatcherProperties.

Variable llm : Type.
Variable get_bedrock_llm : Q -> Z -> result llm.
Variable ainvoke : llm -> system_message -> prompt -> result string.
Variable json_loads : string -> result value.
Variable re_search_object : string -> option string.

Let stage :=
  match_entities llm get_bedrock_llm ainvoke json_loads re_search_object.
Let try_block :=
  match_entities_try llm ainvoke json_loads re_search_object.
Let parse :=
  parse_match_results json_loads re_search_object.

Lemma match_entities_guarded (state : dict) (client : llm) (p : prompt) :
  enters_guarded_block get_bedrock_llm state client p ->
  stage state =
  run_stage (try_except (try_block client p) match_entities_except)
    state.
Proof.
  intros (incoming_schema & hash & existing & n
          & Hinc & Hhash & Hent & Hlen & Htrue & Hllm & Hprompt).
  unfold stage, match_entities, run_stage, match_entities_body,
    try_block.
  unfold bind, state_getitem, dict_getitem, lift, state_get.
  rewrite Hinc, Hhash, Hent, Hlen, Htrue. cbn [negb].
  rewrite Hllm, Hprompt. reflexivity.
Qed.

Lemma match_entities_try_raise (client : llm) (p : prompt)
  (state state1 : dict) (e : exn) :
  try_block client p state = (Raise e, state1) ->
  dict_get "processing_history" state1 =
  dict_get "processing_history" state.
Proof.
  unfold try_block, match_entities_try, bind, lift.
  destruct (ainvoke client EntityMatcherSystem p) as [content|e1].
  - destruct (parse_match_results _ _ content) as [results|e2].
    + apply decide_action_raise.
    + intros H. injection H as _ <-. reflexivity.
  - intros H. injection H as _ <-. reflexivity.
Qed.

(** C1. On the path of [match_entities] on which the guarded block
    completes without an exception, the stage returns the state with the
    parsed results stored and "entity_matching_completed" appended to the
    history, and it has chosen "map_to_existing", with the identifier and
    the score of [best_match], exactly when [best_match] is a record
    whose [similarity_score] is at least 75; in every other case it has
    chosen "create_new" with [entity_id] and [similarity_score] set to
    [None].  The condition never reads [should_create_new]. *)
Theorem match_entities_decision :
  forall (state state' : dict) (client : llm) (p : prompt),
    enters_guarded_block get_bedrock_llm state client p ->
    try_block client p state = (Ok tt, state') ->
    stage state = Ok state' /\
    exists (match_results : value) (history : list value),
      (exists content,
          ainvoke client EntityMatcherSystem p = Ok content /\
          parse content = Ok match_results) /\
      dict_get "processing_history" state = Some (VList history) /\
      dict_get "entity_match_results" state' = Some match_results /\
      dict_get "processing_history" state' =
        Some (VList (history ++ [VStr "entity_matching_completed"])) /\
      ((exists best_match entity_id similarity_score,
           best_match_qualifies match_results best_match /\
           py_getitem best_match "entity_id" = Ok entity_id /\
           py_getitem best_match "similarity_score" = Ok similarity_score /\
           dict_get "action" state' = Some (VStr "map_to_existing") /\
           dict_get "entity_id" state' = Some entity_id /\
           dict_get "similarity_score" state' = Some similarity_score)
       \/
       ((forall best_match,
            ~ best_match_qualifies match_results best_match) /\
        dict_get "action" state' = Some (VStr "create_new") /\
        dict_get "entity_id" state' = Some VNone /\
        dict_get "similarity_score" state' = Some VNone)).
Proof.
  intros state state' client p Henter Htry. split.
  - rewrite (match_entities_guarded _ _ _ Henter).
    unfold run_stage, try_except. rewrite Htry. reflexivity.
  - unfold try_block, match_entities_try, bind, lift in Htry.
    destruct (ainvoke client EntityMatcherSystem p) as [content|]
      eqn:Hcontent; [|discriminate].
    destruct (parse_match_results _ _ content)
      as [match_results|] eqn:Hparse; [|discriminate].
    apply decide_action_ok in Htry
      as (history & Hhist & Hstored & Hhist' & Hdecision).
    exists match_results, history.
    split; [exists content; split; [reflexivity|exact Hparse]|].
    repeat split; assumption.
Qed.

(** C8, as amended.  When the guarded block of [match_entities] (the
    call of the model, the parsing of its reply, the decision) raises an
    exception, the stage still returns a state: its [error] is
    "Entity matching failed: " followed by the text of the exception, its
    [action] is "create_new", [entity_id] and [similarity_score] are
    [None], and "entity_matching_failed" is appended to the history. *)
Theorem match_entities_failure :
  forall (state state1 : dict) (client : llm) (p : prompt) (e : exn)
         (history : list value),
    enters_guarded_block get_bedrock_llm state client p ->
    dict_get "processing_history" state = Some (VList history) ->
    try_block client p state = (Raise e, state1) ->
    exists state' : dict,
      stage state = Ok state' /\
      dict_get "error" state' =
        Some (VStr ("Entity matching failed: " ++ str_exn e)) /\
      dict_get "action" state' = Some (VStr "create_new") /\
      dict_get "entity_id" state' = Some VNone /\
      dict_get "similarity_score" state' = Some VNone /\
      dict_get "processing_history" state' =
        Some (VList (history ++ [VStr "entity_matching_failed"])).
Proof.
  intros state state1 client p e history Henter Hhist Htry.
  pose proof (match_entities_try_raise _ _ _ _ _ Htry) as Hsame.
  rewrite Hhist in Hsame.
  eexists. split.
  - rewrite (match_entities_guarded _ _ _ Henter).
    unfold run_stage, try_except. rewrite Htry.
    unfold match_entities_except, bind, state_set, state_append.
    rewrite !dict_get_set_other by discriminate.
    rewrite Hsame. reflexivity.
  - dict_simpl. repeat split; reflexivity.
Qed.

End EntityMatcherProperties.

Lemma sample_enters_guarded_block :
  enters_guarded_block Sample.get_llm
    (Sample.initial_state [Sample.customer]) tt Sample.matching_prompt.
Proof.
  exists Sample.incoming_schema, (VStr "9f86d081884c7d65"),
    (VList [Sample.customer]), 1.
  repeat split; reflexivity.
Defined.

(** The parsed results do not matter through [should_create_new]. *)
Lemma best_match_qualifies_ignores_flag (results : dict) (flag best : value) :
  best_match_qualifies (VDict (dict_set "should_create_new" flag results)) best
  <-> best_match_qualifies (VDict results) best.
Proof.
  split.
  - intros (r & bm & score & Hr & Hbest & Hbm & Hscore & Hge).
    injection Hr as <-.
    rewrite dict_get_set_other in Hbest by discriminate.
    exists results, bm, score. repeat split; assumption.
  - intros (r & bm & score & Hr & Hbest & Hbm & Hscore & Hge).
    injection Hr as <-.
    exists (dict_set "should_create_new" flag results), bm, score.
    rewrite dict_get_set_other by discriminate.
    repeat split; assumption.
Qed.

(** The boundary: a score of 75 maps although the model asked for a new
    entity, a score of 74 creates although it did not. *)
Example match_entities_score_75 :
  exists state',
    match_entities unit Sample.get_llm Sample.replies
      (Sample.parses_to (Sample.match_results 75 true)) Sample.no_span
      (Sample.initial_state [Sample.customer]) = Ok state' /\
    dict_get "action" state' = Some (VStr "map_to_existing") /\
    dict_get "entity_id" state' = Some (VInt 1) /\
    dict_get "similarity_score" state' = Some (VInt 75) /\
    dict_get "processing_history" state' =
      Some (VList [VStr "entity_matching_completed"]).
Proof. eexists. split; [vm_compute; reflexivity|]. repeat split. Qed.

Example match_entities_score_74 :
  exists state',
    match_entities unit Sample.get_llm Sample.replies
      (Sample.parses_to (Sample.match_results 74 false)) Sample.no_span
      (Sample.initial_state [Sample.customer]) = Ok state' /\
    dict_get "action" state' = Some (VStr "create_new") /\
    dict_get "entity_id" state' = Some VNone /\
    dict_get "similarity_score" state' = Some VNone /\
    dict_get "processing_history" state' =
      Some (VList [VStr "entity_matching_completed"]).
Proof. eexists. split; [vm_compute; reflexivity|]. repeat split. Qed.

Lemma match_entities_empty_catalogue_witness :
  dict_get "incoming_schema" (Sample.initial_state []) =
    Some Sample.incoming_schema /\
  py_getitem Sample.incoming_schema "hash" = Ok (VStr "9f86d081884c7d65") /\
  dict_get "existing_entities" (Sample.initial_state []) = Some (VList []) /\
  dict_get "processing_history" (Sample.initial_state []) = Some (VList []) /\
  exists state' : dict,
    (forall (llm : Type) get_bedrock_llm ainvoke json_loads re_search_object,
        match_entities llm get_bedrock_llm ainvoke json_loads
          re_search_object (Sample.initial_state []) = Ok state') /\
    dict_get "processing_history" state' =
      Some (VList [VStr "entity_matching_skipped"]) /\
    dict_get "action" state' = Some VNone.
Proof.
  repeat (split; [reflexivity|]).
  destruct (match_entities_empty_catalogue (Sample.initial_state [])
              Sample.incoming_schema (VStr "9f86d081884c7d65") []
              eq_refl eq_refl eq_refl eq_refl)
    as (state' & Hrun & _ & Hhist & Haction & _).
  exists state'. repeat split; assumption.
Defined.

Lemma match_entities_decision_witness :
  let state := Sample.initial_state [Sample.customer] in
  let try_block :=
    match_entities_try unit Sample.replies
      (Sample.parses_to (Sample.match_results 75 true)) Sample.no_span
      tt Sample.matching_prompt in
  enters_guarded_block Sample.get_llm state tt Sample.matching_prompt /\
  try_block state = (Ok tt, snd (try_block state)) /\
  match_entities unit Sample.get_llm Sample.replies
    (Sample.parses_to (Sample.match_results 75 true)) Sample.no_span state =
  Ok (snd (try_block state)).
Proof.
  intros state try_block.
  split; [exact sample_enters_guarded_block|].
  split; [reflexivity|].
  exact (proj1 (match_entities_decision unit Sample.get_llm Sample.replies
                  (Sample.parses_to (Sample.match_results 75 true))
                  Sample.no_span state (snd (try_block state)) tt
                  Sample.matching_prompt sample_enters_guarded_block
                  eq_refl)).
Defined.

Lemma match_entities_failure_witness :
  let state := Sample.initial_state [Sample.customer] in
  enters_guarded_block Sample.get_llm state tt Sample.matching_prompt /\
  dict_get "processing_history" state = Some (VList []) /\
  match_entities_try unit Sample.times_out
    (Sample.parses_to VNone) Sample.no_span tt Sample.matching_prompt state =
    (Raise (OtherError "Read timeout on endpoint"), state) /\
  exists state' : dict,
    match_entities unit Sample.get_llm Sample.times_out
      (Sample.parses_to VNone) Sample.no_span state = Ok state' /\
    dict_get "error" state' =
      Some (VStr "Entity matching failed: Read timeout on endpoint") /\
    dict_get "action" state' = Some (VStr "create_new").
Proof.
  intros state.
  split; [exact sample_enters_guarded_block|].
  split; [reflexivity|]. split; [reflexivity|].
  destruct (match_entities_failure unit Sample.get_llm Sample.times_out
              (Sample.parses_to VNone) Sample.no_span state state tt
              Sample.matching_prompt (OtherError "Read timeout on endpoint")
              [] sample_enters_guarded_block eq_refl eq_refl)
    as (state' & Hrun & Herror & Haction & _).
  exists state'. repeat split; assumption.
Defined.

(** C8, as stated, fails.  The client is obtained and the prompt is built
    after the catalogue check and before the guarded block.  When the
    field analysis left in the state is a list, building the prompt
    raises, and the exception leaves [match_entities]: no state is
    returned. *)
Lemma match_entities_exception_escapes :
  let state :=
    dict_set "field_analysis" (VList [VStr "full_name"])
      (Sample.initial_state [Sample.customer]) in
  truthy (dict_get_default "existing_entities" VNone state) = true /\
  match_entities unit Sample.get_llm Sample.replies
    (Sample.parses_to (Sample.match_results 90 false)) Sample.no_span state =
  Raise (AttributeError "list" "get").
Proof. split; reflexivity. Qed.

(** ** Schema normalizer *)

(** ** States that differ on one key *)

Lemma agree_except_set (k k' : string) (v : value) (s1 s2 : dict) :
  agree_except k s1 s2 ->
  agree_except k (dict_set k' v s1) (dict_set k' v s2).
Proof.
  intros H k0 Hk0. rewrite !dict_get_set.
  destruct (String.eqb k0 k'); [reflexivity|exact (H k0 Hk0)].
Qed.

Lemma ignores_ret {A : Type} (k : string) (a : A) : ignores k (ret a).
Proof. intros s1 s2 H. split; [reflexivity|exact H]. Qed.

Lemma ignores_lift {A : Type} (k : string) (r : result A) :
  ignores k (lift r).
Proof. intros s1 s2 H. split; [reflexivity|exact H]. Qed.

Lemma ignores_state_set (k k' : string) (v : value) :
  ignores k (state_set k' v).
Proof.
  intros s1 s2 H. split; [reflexivity|].
  apply agree_except_set. exact H.
Qed.

Lemma ignores_state_getitem (k k' : string) :
  k' <> k -> ignores k (state_getitem k').
Proof.
  intros Hk s1 s2 H. unfold state_getitem, dict_getitem. cbn [fst snd].
  rewrite (H k' Hk). split; [reflexivity|exact H].
Qed.

Lemma ignores_state_append (k k' : string) (v : value) :
  k' <> k -> ignores k (state_append k' v).
Proof.
  intros Hk s1 s2 H. unfold state_append. rewrite (H k' Hk).
  destruct (dict_get k' s2) as [[| | | | |l|]|]; cbn [fst snd];
    (split; [reflexivity|]); try exact H.
  apply agree_except_set. exact H.
Qed.

Lemma ignores_bind {A B : Type} (k : string) (m : M A) (f : A -> M B) :
  ignores k m -> (forall a, ignores k (f a)) -> ignores k (bind m f).
Proof.
  intros Hm Hf s1 s2 H. unfold bind.
  destruct (Hm s1 s2 H) as [Hr Hs].
  destruct (m s1) as [r1 s1'], (m s2) as [r2 s2']. cbn [fst snd] in Hr, Hs.
  subst r2. destruct r1 as [a|e].
  - exact (Hf a s1' s2' Hs).
  - split; [reflexivity|exact Hs].
Qed.

Lemma ignores_try_except {A : Type} (k : string) (body : M A)
  (handler : exn -> M A) :
  ignores k body -> (forall e, ignores k (handler e)) ->
  ignores k (try_except body handler).
Proof.
  intros Hbody Hhandler s1 s2 H. unfold try_except.
  destruct (Hbody s1 s2 H) as [Hr Hs].
  destruct (body s1) as [r1 s1'], (body s2) as [r2 s2'].
  cbn [fst snd] in Hr, Hs. subst r2. destruct r1 as [a|e].
  - split; [reflexivity|exact Hs].
  - exact (Hhandler e s1' s2' Hs).
Qed.

Ltac ignores_tac :=
  repeat first
    [ apply ignores_bind
    | apply ignores_ret
    | apply ignores_lift
    | apply ignores_state_set
    | apply ignores_state_getitem; discriminate
    | apply ignores_state_append; discriminate
    | intro ].

Lemma record_normalization_ignores_action (normalization_result : value) :
  ignores "action" (record_normalization normalization_result).
Proof. unfold record_normalization. ignores_tac. Qed.

(** Any action but "map_to_existing" leads to the prompt for a new
    entity. *)
Lemma normalization_prompt_new_entity (state : dict) :
  py_eq (dict_get_default "action" VNone state) (VStr "map_to_existing")
    = false ->
  normalization_prompt state =
  ((let? incoming_schema := dict_getitem "incoming_schema" state in
    _build_new_entity_normalization_prompt incoming_schema
      (dict_get_default "field_analysis" (VDict []) state)
      (dict_get_default "entity_match_results" (VDict []) state)),
   state).
Proof.
  intros Haction.
  unfold normalization_prompt, bind, state_get, state_getitem, lift.
  rewrite Haction.
  destruct (dict_getitem "incoming_schema" state); reflexivity.
Qed.

Section NormalizerProperties.

Variable llm : Type.
Variable get_bedrock_llm : Q -> Z -> result llm.
Variable ainvoke : llm -> system_message -> prompt -> result string.
Variable json_loads : string -> result value.

Let stage := normalize_schema llm get_bedrock_llm ainvoke json_loads.

Lemma normalize_schema_try_ignores_action (client : llm) (p : prompt) :
  ignores "action"
    (try_except (normalize_schema_try llm ainvoke json_loads client p)
       normalize_schema_except).
Proof.
  apply ignores_try_except.
  - unfold normalize_schema_try. ignores_tac.
  - intros e. unfold normalize_schema_except. ignores_tac.
Qed.

Lemma normalize_schema_same_outcome (s1 s2 : dict) :
  py_eq (dict_get_default "action" VNone s1) (VStr "map_to_existing")
    = false ->
  py_eq (dict_get_default "action" VNone s2) (VStr "map_to_existing")
    = false ->
  agree_except "action" s1 s2 ->
  same_outcome "action" (stage s1) (stage s2).
Proof.
  intros H1 H2 Hagree.
  unfold stage, normalize_schema, run_stage, normalize_schema_body.
  unfold bind at 1 5. unfold state_getitem, dict_getitem.
  rewrite <- (Hagree "incoming_schema") by discriminate.
  destruct (dict_get "incoming_schema" s1) as [incoming|]; [|reflexivity].
  unfold bind at 1 4. unfold lift at 1 3.
  destruct (py_getitem incoming "hash") as [hash|]; [|reflexivity].
  unfold bind at 1 3. unfold lift at 1 2.
  destruct (get_bedrock_llm float_0_1 4096) as [client|]; [|reflexivity].
  unfold bind.
  rewrite (normalization_prompt_new_entity s1 H1),
    (normalization_prompt_new_entity s2 H2).
  unfold dict_getitem, dict_get_default.
  rewrite <- (Hagree "incoming_schema") by discriminate.
  rewrite <- (Hagree "field_analysis") by discriminate.
  rewrite <- (Hagree "entity_match_results") by discriminate.
  destruct (dict_get "incoming_schema" s1) as [incoming'|]; [|reflexivity].
  cbn [rbind].
  destruct (_build_new_entity_normalization_prompt _ _ _) as [p|];
    [|reflexivity].
  destruct (normalize_schema_try_ignores_action client p s1 s2 Hagree)
    as [Hr Hs].
  destruct (try_except _ _ s1) as [r1 s1'], (try_except _ _ s2) as [r2 s2'].
  cbn [fst snd] in Hr, Hs. subst r2.
  destruct r1; [exact Hs|reflexivity].
Qed.

(** C9. When [action] is absent from the state, or present as [None],
    the branch of [normalize_schema] builds the prompt for a new entity,
    never the one for mapping onto an existing entity, and that prompt
    is the one the stage works with: once the hash is read and the
    client is there, the stage raises when the prompt cannot be built,
    and is otherwise its guarded block run on this prompt.  A state that
    differs only in having [action] set to "create_new" gets the same
    prompt, and the stage ends the same way on both: with the same
    exception, or with states that differ only in [action]. *)
Theorem normalize_schema_absent_action :
  forall state : dict,
    dict_get "action" state = None \/ dict_get "action" state = Some VNone ->
    let new_entity :=
      let? incoming_schema := dict_getitem "incoming_schema" state in
      _build_new_entity_normalization_prompt incoming_schema
        (dict_get_default "field_analysis" (VDict []) state)
        (dict_get_default "entity_match_results" (VDict []) state) in
    normalization_prompt state = (new_entity, state) /\
    (forall p, new_entity = Ok p ->
               exists name fields sample analysis reason,
                 p = NewEntityNormalizationPrompt
                       name fields sample analysis reason) /\
    (forall (incoming_schema hash : value) (client : llm),
        dict_get "incoming_schema" state = Some incoming_schema ->
        py_getitem incoming_schema "hash" = Ok hash ->
        get_bedrock_llm float_0_1 4096 = Ok client ->
        stage state =
          match new_entity with
          | Ok p =>
              run_stage
                (try_except
                   (normalize_schema_try llm ainvoke json_loads client p)
                   normalize_schema_except)
                state
          | Raise e => Raise e
          end) /\
    (forall state' : dict,
        dict_get "action" state' = Some (VStr "create_new") ->
        agree_except "action" state state' ->
        normalization_prompt state' = (new_entity, state') /\
        same_outcome "action" (stage state) (stage state')).
Proof.
  intros state Haction new_entity. subst new_entity.
  assert (Hget : py_eq (dict_get_default "action" VNone state)
                   (VStr "map_to_existing") = false).
  { unfold dict_get_default. destruct Haction as [-> | ->]; reflexivity. }
  split; [|split; [|split]].
  - apply normalization_prompt_new_entity. exact Hget.
  - intros p.
    destruct (dict_getitem "incoming_schema" state) as [incoming|];
      [|discriminate].
    unfold _build_new_entity_normalization_prompt. cbn [rbind].
    destruct (py_getitem incoming "name"); [|discriminate]. cbn [rbind].
    destruct (py_getitem incoming "detected_fields"); [|discriminate].
    cbn [rbind].
    destruct (py_get incoming "sample_data" (VList [])) as [sample|];
      [|discriminate].
    cbn [rbind].
    destruct (py_slice_to 2 sample); [|discriminate]. cbn [rbind].
    destruct (py_get _ "reason" _); [|discriminate]. cbn [rbind].
    intros H. injection H as <-. do 5 eexists. reflexivity.
  - intros incoming hash client Hincoming Hhash Hclient.
    unfold stage, normalize_schema, run_stage, normalize_schema_body.
    unfold bind, state_getitem, lift, dict_getitem.
    rewrite Hincoming, Hhash, Hclient.
    rewrite (normalization_prompt_new_entity state Hget).
    unfold dict_getitem. rewrite Hincoming. cbn [rbind].
    destruct (_build_new_entity_normalization_prompt _ _ _); reflexivity.
  - intros state' Hcreate Hagree.
    assert (Hget' : py_eq (dict_get_default "action" VNone state')
                      (VStr "map_to_existing") = false).
    { unfold dict_get_default. rewrite Hcreate. reflexivity. }
    split.
    + rewrite (normalization_prompt_new_entity state' Hget').
      unfold dict_getitem, dict_get_default.
      rewrite <- (Hagree "incoming_schema") by discriminate.
      rewrite <- (Hagree "field_analysis") by discriminate.
      rewrite <- (Hagree "entity_match_results") by discriminate.
      reflexivity.
    + apply normalize_schema_same_outcome; assumption.
Qed.

End NormalizerProperties.

Lemma normalize_schema_absent_action_witness :
  let state := dict_set "entity_match_results" skipped_match_results
                 (Sample.initial_state []) in
  let p :=
    NewEntityNormalizationPrompt
      (VStr "contacts_import")
      (VList [Sample.text_field "full_name"; Sample.text_field "email"])
      (VList [VDict [("full_name", VStr "John Smith");
                     ("email", VStr "john@x.com")]])
      VNone
      (VStr "No existing canonical entities in the system") in
  dict_get "action" state = Some VNone /\
  normalization_prompt state = (Ok p, state) /\
  normalize_schema unit Sample.get_llm Sample.replies
    (Sample.parses_to Sample.empty_design) state =
  run_stage
    (try_except
       (normalize_schema_try unit Sample.replies
          (Sample.parses_to Sample.empty_design) tt p)
       normalize_schema_except)
    state.
Proof.
  intros state p. split; [reflexivity|].
  destruct (normalize_schema_absent_action unit Sample.get_llm
              Sample.replies (Sample.parses_to Sample.empty_design)
              state (or_intror eq_refl))
    as (Hprompt & _ & Hstage & _).
  split; [exact Hprompt|].
  exact (Hstage Sample.incoming_schema (VStr "9f86d081884c7d65") tt
           eq_refl eq_refl eq_refl).
Defined.

(** ** Mapping generator: the fallback *)

Lemma py_eq_text (s t : string) : py_eq (VStr s) (VStr t) = String.eqb s t.
Proof. reflexivity. Qed.

Lemma text_key_mem (name : string) (names : list string) :
  key_mem (VStr name) (map VStr names) = Ok (string_mem name names).
Proof.
  unfold key_mem, string_mem. simpl. f_equal.
  induction names as [|n rest IH]; simpl; [reflexivity|].
  rewrite IH. reflexivity.
Qed.

Lemma string_mem_In (name : string) (names : list string) :
  string_mem name names = true <-> In name names.
Proof.
  unfold string_mem. rewrite existsb_exists. split.
  - intros (x & Hin & Heq). apply String.eqb_eq in Heq. subst. exact Hin.
  - intros Hin. exists name. split; [exact Hin|apply String.eqb_refl].
Qed.

Lemma string_mem_not_In (name : string) (names : list string) :
  string_mem name names = false <-> ~ In name names.
Proof.
  rewrite <- string_mem_In. destruct (string_mem name names); split;
    congruence.
Qed.

Lemma source_keys_of_named (fields : list value) (names : list string) :
  Forall2 field_named fields names ->
  map_result (fun f => let? name := py_getitem f "name" in py_hashable name)
    fields = Ok (map VStr names).
Proof.
  induction 1 as [|f n fields names (d & -> & Hname) _ IH]; simpl.
  - reflexivity.
  - unfold dict_getitem. rewrite Hname. simpl. rewrite IH. reflexivity.
Qed.

Lemma fallback_mapping_rule (source_names : list string) (field : value)
  (target : string) :
  field_named field target ->
  exists mapping,
    fallback_mapping (map VStr source_names) field = Ok mapping /\
    fallback_rule source_names target mapping.
Proof.
  intros (d & -> & Hname). unfold fallback_mapping.
  cbn [py_getitem]. unfold dict_getitem. rewrite Hname. cbn [rbind].
  rewrite text_key_mem. cbn [rbind].
  destruct (string_mem target source_names) eqn:Hexact.
  - eexists. split; [reflexivity|].
    apply fallback_exact. apply string_mem_In. exact Hexact.
  - cbn [py_remove_underscores rbind].
    rewrite text_key_mem. cbn [rbind].
    apply string_mem_not_In in Hexact.
    destruct (string_mem (remove_underscores target) source_names)
      eqn:Hvariation.
    + eexists. split; [reflexivity|].
      apply fallback_variation; [exact Hexact|].
      apply string_mem_In. exact Hvariation.
    + eexists. split; [reflexivity|].
      apply fallback_constant; [exact Hexact|].
      apply string_mem_not_In. exact Hvariation.
Qed.

(** C3. Given source fields and target fields that are records with a
    text name, [_generate_fallback_mappings] returns one mapping per
    target field, in the order of the target fields, each chosen by the
    three-tier rule: the source field of the same name (direct, 0.9),
    else the source field named like the target without its underscores
    (direct, 0.7), else the constant [null] (0.5, "No matching source
    field found"). *)
Theorem fallback_mappings_three_tier :
  forall (source_fields target_fields : list value)
         (source_names target_names : list string),
    Forall2 field_named source_fields source_names ->
    Forall2 field_named target_fields target_names ->
    exists mappings : list value,
      _generate_fallback_mappings (VList source_fields) (VList target_fields)
        = Ok (VList mappings) /\
      Forall2 (fallback_rule source_names) target_names mappings.
Proof.
  intros source_fields target_fields source_names target_names Hsrc Htgt.
  unfold _generate_fallback_mappings. cbn [py_iter rbind].
  rewrite (source_keys_of_named _ _ Hsrc). cbn [rbind].
  assert (Hloop : exists mappings,
             map_result (fallback_mapping (map VStr source_names))
               target_fields = Ok mappings /\
             Forall2 (fallback_rule source_names) target_names mappings).
  { clear Hsrc. induction Htgt as [|f t fields names Hf _ IH]; simpl.
    - exists []. split; [reflexivity|constructor].
    - destruct (fallback_mapping_rule source_names f t Hf) as (m & Hm & Hrule).
      destruct IH as (ms & Hms & Hrules).
      exists (m :: ms). rewrite Hm, Hms. split; [reflexivity|].
      constructor; assumption. }
  destruct Hloop as (mappings & Hmap & Hrules).
  exists mappings. rewrite Hmap. split; [reflexivity|exact Hrules].
Qed.

Lemma fallback_mappings_three_tier_witness :
  let source := [Sample.text_field "full_name"; Sample.text_field "phonenumber"] in
  let target := [Sample.text_field "full_name"; Sample.text_field "phone_number";
                 Sample.text_field "first_name"] in
  Forall2 field_named source ["full_name"; "phonenumber"] /\
  Forall2 field_named target ["full_name"; "phone_number"; "first_name"] /\
  exists mappings : list value,
    _generate_fallback_mappings (VList source) (VList target)
      = Ok (VList mappings) /\
    Forall2 (fallback_rule ["full_name"; "phonenumber"])
      ["full_name"; "phone_number"; "first_name"] mappings.
Proof.
  intros source target.
  assert (Hnamed : forall n, field_named (Sample.text_field n) n).
  { intros n. eexists. split; reflexivity. }
  assert (Hsrc : Forall2 field_named source ["full_name"; "phonenumber"]).
  { repeat constructor; apply Hnamed. }
  assert (Htgt : Forall2 field_named target
                   ["full_name"; "phone_number"; "first_name"]).
  { repeat constructor; apply Hnamed. }
  split; [exact Hsrc|]. split; [exact Htgt|].
  exact (fallback_mappings_three_tier source target _ _ Hsrc Htgt).
Defined.

(** The two scenarios the specification spells out. *)
Example fallback_phone_number :
  _generate_fallback_mappings
    (VList [Sample.text_field "phonenumber"])
    (VList [Sample.text_field "phone_number"]) =
  Ok (VList [VDict [("source_field", VStr "phonenumber");
                    ("target_field", VStr "phone_number");
                    ("transformation", VStr "direct");
                    ("jsonata_formula", VStr "phonenumber");
                    ("confidence", VFloat float_0_7);
                    ("explanation",
                      VStr "Field name match with underscore variation")]]).
Proof. reflexivity. Qed.

Example fallback_full_name :
  exists m1 m2 m3,
    _generate_fallback_mappings
      (VList [Sample.text_field "full_name"])
      (VList [Sample.text_field "full_name"; Sample.text_field "first_name";
              Sample.text_field "unknown_field"]) = Ok (VList [m1; m2; m3]) /\
    py_getitem m1 "transformation" = Ok (VStr "direct") /\
    py_getitem m1 "confidence" = Ok (VFloat float_0_9) /\
    py_getitem m2 "transformation" = Ok (VStr "constant") /\
    py_getitem m2 "jsonata_formula" = Ok (VStr "null") /\
    py_getitem m3 "transformation" = Ok (VStr "constant") /\
    py_getitem m3 "confidence" = Ok (VFloat float_0_5).
Proof. do 3 eexists. repeat split. Qed.

(** ** Mapping generator: validation *)

Lemma normalize_transformation_spec (tag : string) :
  normalize_transformation tag = remapped_tag tag.
Proof.
  unfold normalize_transformation, remapped_tag, string_mem,
    VALID_TRANSFORMATIONS, TRANSFORMATION_MAPPING.
  cbn [existsb table_get].
  repeat match goal with
         | |- context [String.eqb tag ?c] =>
             destruct (String.eqb_spec tag c) as [->|?]; [reflexivity|]
         end.
  reflexivity.
Qed.

Lemma remapped_tag_valid (tag : string) :
  In (remapped_tag tag)
    ["direct"; "formula"; "split"; "combine"; "format_conversion"; "constant"].
Proof.
  unfold remapped_tag.
  destruct (string_mem tag _) eqn:Hvalid.
  - apply string_mem_In. exact Hvalid.
  - repeat match goal with
           | |- context [if ?b then _ else _] => destruct b
           end; simpl; tauto.
Qed.

Lemma repair_mapping_keeps_keys (tag : string) (d : dict) (k : string) :
  In k (dict_keys d) -> In k (dict_keys (repair_mapping tag d)).
Proof.
  intros Hk. unfold repair_mapping.
  repeat match goal with
         | |- context [if ?b then _ else _] => destruct b
         end;
    repeat apply dict_set_keeps_keys; exact Hk.
Qed.

Lemma repair_mapping_validated (d : dict) :
  candidate_mapping (VDict d) ->
  validated_from (VDict d)
    (VDict (repair_mapping
              (normalize_transformation (lower (declared_transformation d)))
              d)).
Proof.
  intros _. exists d. eexists. split; [reflexivity|]. split; [reflexivity|].
  rewrite normalize_transformation_spec.
  set (tag := remapped_tag (lower (declared_transformation d))).
  cbv zeta.
  assert (Hget : forall k,
             dict_get k (repair_mapping tag d) =
             if String.eqb k "source_field"
             then Some (match dict_get "source_field" d with
                        | Some source => source
                        | None => VStr ""
                        end)
             else if String.eqb k "jsonata_formula"
             then (if absent_or_empty "jsonata_formula" d
                   then if String.eqb tag "direct"
                           && negb (absent_or_empty "source_field" d)
                        then dict_get "source_field" d
                        else if String.eqb tag "constant"
                        then Some (VStr empty_constant)
                        else dict_get "jsonata_formula" d
                   else dict_get "jsonata_formula" d)
             else if String.eqb k "confidence"
             then Some (match dict_get "confidence" d with
                        | Some confidence => confidence
                        | None => VFloat float_0_8
                        end)
             else if String.eqb k "transformation"
             then Some (VStr tag)
             else dict_get k d).
  { intros k. unfold repair_mapping, absent_or_empty, dict_mem,
      dict_get_default.
    dict_simpl.
    destruct (dict_get "confidence" d) as [confidence|] eqn:Hconf;
    destruct (dict_get "jsonata_formula" d) as [formula|] eqn:Hformula;
    destruct (dict_get "source_field" d) as [source|] eqn:Hsource;
    repeat first
      [ rewrite py_eq_text
      | progress dict_simpl
      | progress rewrite ?Hconf, ?Hformula, ?Hsource
      | progress cbn [negb orb andb truthy]
      | match goal with
        | |- context [truthy ?v] => destruct (truthy v)
        | |- context [String.eqb tag ?c] => destruct (String.eqb tag c)
        | |- context [String.eqb k ?c] =>
            destruct (String.eqb_spec k c) as [->|?]
        end ];
    try reflexivity.
}
  repeat split.
  - rewrite Hget. reflexivity.
  - apply remapped_tag_valid.
  - rewrite Hget. reflexivity.
  - rewrite Hget. reflexivity.
  - rewrite Hget. reflexivity.
  - intros k H1 H2 H3 H4. rewrite Hget.
    repeat match goal with
           | |- context [String.eqb k ?c] =>
               destruct (String.eqb_spec k c); [contradiction|]
           end.
    reflexivity.
  - intros k. apply repair_mapping_keeps_keys.
Qed.

Lemma validate_mapping_kept (d : dict) :
  candidate_mapping (VDict d) ->
  has_target_field (VDict d) = true ->
  validate_mapping (VDict d) =
  Ok (Some (VDict (repair_mapping
                     (normalize_transformation
                        (lower (declared_transformation d)))
                     d))).
Proof.
  intros (d0 & Hd & Htag) Htarget. injection Hd as <-.
  specialize (Htag Htarget).
  unfold validate_mapping, has_target_field in *.
  cbn [py_get rbind]. unfold dict_get_default, declared_transformation.
  destruct (dict_get "target_field" d) as [target|]; [|discriminate].
  rewrite Htarget. cbn [negb].
  destruct Htag as [-> | (tag & ->)]; reflexivity.
Qed.

Lemma validate_mapping_dropped (d : dict) :
  has_target_field (VDict d) = false ->
  validate_mapping (VDict d) = Ok None.
Proof.
  unfold validate_mapping, has_target_field.
  cbn [py_get rbind]. unfold dict_get_default.
  destruct (dict_get "target_field" d) as [target|].
  - intros ->. reflexivity.
  - reflexivity.
Qed.

(** C4. Given candidate mappings (records; the transformation of one
    that has a non-empty [target_field] is text when it is present),
    [_validate_mappings] returns, in order, one
    repaired mapping for each candidate with a non-empty [target_field]
    and nothing for the others.  In a repaired mapping the transformation
    is the lower-cased tag, remapped through the synonym table when it is
    not one of the six valid tags, so that it always is one of the six;
    [confidence] is 0.8 when it was absent; an absent or empty
    [jsonata_formula] becomes the source field when the transformation is
    "direct" and the source field is non-empty, the quoted empty text when
    it is "constant", and is left as it was otherwise; [source_field] is
    the empty text when it was absent; every other attribute is kept. *)
Theorem validate_mappings_repairs :
  forall mappings : list value,
    Forall candidate_mapping mappings ->
    exists validated : list value,
      _validate_mappings (VList mappings) = Ok (VList validated) /\
      Forall2 validated_from (filter has_target_field mappings) validated.
Proof.
  intros mappings Hcandidates.
  unfold _validate_mappings. cbn [py_iter rbind].
  assert (Hloop : exists validated,
             validate_loop mappings = Ok validated /\
             Forall2 validated_from (filter has_target_field mappings)
               validated).
  { induction Hcandidates as [|m rest Hm _ IH].
    - exists []. split; [reflexivity|constructor].
    - destruct IH as (validated & Hrest & Hall).
      pose proof Hm as (d & -> & _).
      cbn [validate_loop filter].
      destruct (has_target_field (VDict d)) eqn:Htarget.
      + rewrite (validate_mapping_kept d Hm Htarget). cbn [rbind].
        rewrite Hrest. cbn [rbind].
        eexists. split; [reflexivity|].
        constructor; [|exact Hall].
        apply repair_mapping_validated. exact Hm.
      + rewrite (validate_mapping_dropped d Htarget). cbn [rbind].
        rewrite Hrest. cbn [rbind].
        exists validated. split; [reflexivity|exact Hall]. }
  destruct Hloop as (validated & Hloop & Hall).
  exists validated. rewrite Hloop. split; [reflexivity|exact Hall].
Qed.

Lemma validate_mappings_repairs_witness :
  let mappings :=
    [VDict [("source_field", VStr "full_name");
            ("target_field", VStr "first_name");
            ("transformation", VStr "Extract");
            ("jsonata_formula", VStr "$split(full_name, ' ')[0]")];
     VDict [("source_field", VStr "legacy_code")];
     VDict [("source_field", VStr "email"); ("target_field", VStr "email")];
     VDict [("target_field", VStr "source_system");
            ("transformation", VStr "constant");
            ("confidence", VInt 1)]] in
  Forall candidate_mapping mappings /\
  exists validated : list value,
    _validate_mappings (VList mappings) = Ok (VList validated) /\
    Forall2 validated_from (filter has_target_field mappings) validated.
Proof.
  intros mappings.
  assert (Hcandidates : Forall candidate_mapping mappings).
  { repeat constructor.
    - eexists. split; [reflexivity|]. right. eexists. reflexivity.
    - eexists. split; [reflexivity|]. discriminate.
    - eexists. split; [reflexivity|]. left. reflexivity.
    - eexists. split; [reflexivity|]. right. eexists. reflexivity. }
  split; [exact Hcandidates|].
  exact (validate_mappings_repairs mappings Hcandidates).
Defined.

(** The remappings the specification lists, and the run of the sample. *)
Example normalize_transformation_samples :
  normalize_transformation (lower "concat") = "combine" /\
  normalize_transformation (lower "TRIM") = "formula" /\
  normalize_transformation (lower "unix_to_datetime") = "format_conversion" /\
  normalize_transformation (lower "Split") = "split" /\
  normalize_transformation (lower "lookup") = "formula".
Proof. repeat split. Qed.

Example validate_mappings_sample :
  _validate_mappings
    (VList [VDict [("source_field", VStr "legacy_code")];
            VDict [("source_field", VStr "email");
                   ("target_field", VStr "email")];
            VDict [("target_field", VStr "source_system");
                   ("transformation", VStr "constant");
                   ("confidence", VInt 1)]]) =
  Ok (VList [VDict [("source_field", VStr "email");
                    ("target_field", VStr "email");
                    ("transformation", VStr "direct");
                    ("confidence", VFloat float_0_8);
                    ("jsonata_formula", VStr "email")];
             VDict [("target_field", VStr "source_system");
                    ("transformation", VStr "constant");
                    ("confidence", VInt 1);
                    ("jsonata_formula", VStr empty_constant);
                    ("source_field", VStr "")]]).
Proof. reflexivity. Qed.

(** ** Response assembly *)

Lemma dict_set_same_value (k : string) (v : value) (d : dict) :
  dict_get k d = Some v -> dict_set k v d = d.
Proof.
  induction d as [|[k0 v0] rest IH]; simpl.
  - discriminate.
  - destruct (String.eqb k k0).
    + intros H. injection H as ->. reflexivity.
    + intros H. rewrite (IH H). reflexivity.
Qed.

Lemma rebuild_mapping_kept (m : value) :
  has_target_field m = true ->
  exists m', rebuild_mapping m = Some m' /\
             rebuilt_from m m' /\ only_declared_attributes m'.
Proof.
  destruct m as [| | | | | |d]; try discriminate.
  unfold has_target_field, rebuild_mapping, dict_get_default. intros Htarget.
  destruct (dict_get "target_field" d) as [target|] eqn:Hget; [|discriminate].
  rewrite Htarget. eexists. split; [reflexivity|]. split.
  - exists d. eexists. split; [reflexivity|]. split; [reflexivity|].
    cbn [dict_get String.eqb Ascii.eqb Bool.eqb]. rewrite Hget.
    repeat split; reflexivity.
  - eexists. split; reflexivity.
Qed.

Lemma rebuild_mapping_dropped (m : value) :
  has_target_field m = false -> rebuild_mapping m = None.
Proof.
  destruct m as [| | | | | |d]; try reflexivity.
  unfold has_target_field, rebuild_mapping, dict_get_default.
  destruct (dict_get "target_field" d) as [target|].
  - intros ->. reflexivity.
  - reflexivity.
Qed.

Lemma rebuild_mappings_spec (mappings : list value) :
  Forall2 rebuilt_from (filter has_target_field mappings)
    (rebuild_mappings mappings) /\
  Forall only_declared_attributes (rebuild_mappings mappings).
Proof.
  induction mappings as [|m rest [IH1 IH2]]; simpl.
  - split; constructor.
  - destruct (has_target_field m) eqn:Htarget.
    + destruct (rebuild_mapping_kept m Htarget) as (m' & -> & Hfrom & Hkeys).
      split; constructor; assumption.
    + rewrite (rebuild_mapping_dropped m Htarget). split; assumption.
Qed.

(** A rebuilt mapping is rebuilt into itself. *)
Lemma rebuild_mapping_fixed (m m' : value) :
  rebuild_mapping m = Some m' -> rebuild_mapping m' = Some m'.
Proof.
  destruct m as [| | | | | |d]; try discriminate.
  unfold rebuild_mapping at 1.
  destruct (truthy (dict_get_default "target_field" VNone d)) eqn:Htarget;
    [|discriminate].
  intros H. injection H as <-.
  unfold rebuild_mapping, dict_get_default.
  cbn [dict_get String.eqb Ascii.eqb Bool.eqb].
  unfold dict_get_default in Htarget. rewrite Htarget. reflexivity.
Qed.

Lemma rebuild_mappings_idempotent (mappings : list value) :
  rebuild_mappings (rebuild_mappings mappings) = rebuild_mappings mappings.
Proof.
  induction mappings as [|m rest IH]; simpl; [reflexivity|].
  destruct (rebuild_mapping m) as [m'|] eqn:Hm; [|exact IH].
  simpl. rewrite (rebuild_mapping_fixed m m' Hm), IH. reflexivity.
Qed.

Lemma canonical_schema_missing_ext (r r' : dict) :
  dict_get "canonical_schema" r' = dict_get "canonical_schema" r ->
  canonical_schema_missing r' = canonical_schema_missing r.
Proof.
  intros H. unfold canonical_schema_missing, dict_get_default, dict_getitem.
  rewrite H. reflexivity.
Qed.

Lemma ensure_canonical_schema_other (r s ra : dict) (k : string) :
  ensure_canonical_schema r s = Ok ra ->
  k <> "canonical_schema" ->
  dict_get k ra = dict_get k r.
Proof.
  unfold ensure_canonical_schema. intros H Hk.
  destruct (canonical_schema_missing r) as [[|]|]; simpl in H;
    try discriminate.
  - destruct (replacement_schema s) as [schema|]; simpl in H;
      [|discriminate].
    injection H as <-. apply dict_get_set_other. exact Hk.
  - injection H as <-. reflexivity.
Qed.

Lemma ensure_field_mappings_ok (r : dict) :
  exists rb,
    ensure_field_mappings r = Ok rb /\
    dict_get "field_mappings" rb =
      Some (VList (rebuild_mappings (candidate_mappings r))) /\
    (forall k, k <> "field_mappings" -> dict_get k rb = dict_get k r).
Proof.
  unfold ensure_field_mappings, candidate_mappings, dict_get_default,
    dict_getitem.
  destruct (dict_get "field_mappings" r) as [[| | | | |l|]|] eqn:Hget;
    cbn [is_list]; rewrite ?dict_get_set_same, ?Hget; cbn [rbind py_iter];
    eexists; (split; [reflexivity|]); split;
    rewrite ?dict_get_set_same; try reflexivity;
    intros k Hk; rewrite !dict_get_set_other by exact Hk; reflexivity.
Qed.

Section AssemblyProperties.

Variable py_repr : value -> string.

Lemma ensure_text_defaults_other (r s rc : dict) (k : string) :
  ensure_text_defaults py_repr r s = Ok rc ->
  k <> "source_schema_name" -> k <> "entity_name" -> k <> "reasoning" ->
  dict_get k rc = dict_get k r.
Proof.
  unfold ensure_text_defaults. intros H H1 H2 H3.
  destruct (negb (truthy (dict_get_default "source_schema_name" VNone r))).
  - destruct (dict_getitem "incoming_schema" s) as [incoming|];
      [|discriminate].
    cbn [rbind] in H.
    destruct (py_getitem incoming "hash") as [hash|]; [|discriminate].
    cbn [rbind] in H.
    destruct (py_slice_to 8 hash) as [prefix|]; [|discriminate].
    cbn [rbind] in H. injection H as <-.
    repeat match goal with
           | |- context [if ?b then _ else _] => destruct b
           end;
      rewrite !dict_get_set_other by assumption; reflexivity.
  - cbn [rbind] in H. injection H as <-.
    repeat match goal with
           | |- context [if ?b then _ else _] => destruct b
           end;
      rewrite ?dict_get_set_other by assumption; reflexivity.
Qed.

Lemma validate_response_inv (r s r' : dict) :
  _validate_response py_repr r s = Ok r' ->
  exists ra rb,
    ensure_canonical_schema r s = Ok ra /\
    ensure_field_mappings ra = Ok rb /\
    ensure_text_defaults py_repr rb s = Ok r'.
Proof.
  unfold _validate_response. intros H.
  destruct (ensure_canonical_schema r s) as [ra|] eqn:Ha; [|discriminate].
  cbn [rbind] in H.
  destruct (ensure_field_mappings ra) as [rb|] eqn:Hb; [|discriminate].
  cbn [rbind] in H.
  exists ra, rb. split; [reflexivity|]. split; [exact Hb|exact H].
Qed.

Lemma validate_response_field_mappings_shape (r s r' : dict) :
  _validate_response py_repr r s = Ok r' ->
  dict_get "field_mappings" r' =
    Some (VList (rebuild_mappings (candidate_mappings r))).
Proof.
  intros H.
  apply validate_response_inv in H as (ra & rb & Ha & Hb & Hc).
  rewrite (ensure_text_defaults_other _ _ _ "field_mappings" Hc)
    by discriminate.
  destruct (ensure_field_mappings_ok ra) as (rb' & Hb' & Hget & _).
  rewrite Hb in Hb'. injection Hb' as <-.
  rewrite Hget. unfold candidate_mappings.
  rewrite (ensure_canonical_schema_other _ _ _ "field_mappings" Ha)
    by discriminate.
  reflexivity.
Qed.

(** The pass returns whenever the candidate has a canonical schema with
    fields and the hash of the incoming schema is text. *)
Lemma validate_response_returns (response state schema : dict)
  (fields incoming_schema : value) (hash : string) :
  dict_get "canonical_schema" response = Some (VDict schema) ->
  dict_get "fields" schema = Some fields ->
  truthy fields = true ->
  dict_get "incoming_schema" state = Some incoming_schema ->
  py_getitem incoming_schema "hash" = Ok (VStr hash) ->
  exists response', _validate_response py_repr response state = Ok response'.
Proof.
  intros Hschema Hfields Htrue Hincoming Hhash.
  unfold _validate_response, ensure_canonical_schema,
    canonical_schema_missing, dict_get_default, dict_getitem.
  rewrite Hschema. cbn [py_get rbind].
  assert (Hnonempty : truthy (VDict schema) = true).
  { destruct schema; [discriminate Hfields|reflexivity]. }
  rewrite Hnonempty. cbn [negb]. cbv beta iota. cbn [rbind].
  unfold dict_get_default. rewrite Hfields, Htrue.
  cbn [negb rbind]. cbv beta iota.
  destruct (ensure_field_mappings_ok response) as (rb & -> & _ & _).
  cbn [rbind]. unfold ensure_text_defaults, dict_getitem.
  rewrite Hincoming. cbn [rbind]. rewrite Hhash. cbn [rbind py_slice_to].
  destruct (negb (truthy (dict_get_default "source_schema_name" VNone rb)));
    cbn [rbind]; eexists; reflexivity.
Qed.

(** C6. The response that [_validate_response] returns holds, under
    [field_mappings], one rebuilt mapping for each candidate entry that
    is a record with a non-empty [target_field], in the order of the
    candidates, and nothing for the other entries.  A rebuilt mapping
    has the target of its candidate and, for each other attribute, the
    candidate's value or else the default: empty text for
    [source_field], "direct" for [transformation], empty text for
    [jsonata_formula], 0.8 for [confidence], empty text for
    [explanation]. *)
Theorem validate_response_field_mappings :
  forall response state response' : dict,
    _validate_response py_repr response state = Ok response' ->
    exists kept : list value,
      dict_get "field_mappings" response' = Some (VList kept) /\
      Forall2 rebuilt_from
        (filter has_target_field (candidate_mappings response)) kept.
Proof.
  intros response state response' H.
  exists (rebuild_mappings (candidate_mappings response)). split.
  - exact (validate_response_field_mappings_shape _ _ _ H).
  - apply rebuild_mappings_spec.
Qed.

Lemma ensure_text_defaults_settled (r s rc : dict) :
  ensure_text_defaults py_repr r s = Ok rc ->
  truthy (dict_get_default "source_schema_name" VNone rc) = true /\
  truthy (dict_get_default "entity_name" VNone rc) = true /\
  truthy (dict_get_default "reasoning" VNone rc) = true.
Proof.
  unfold ensure_text_defaults. intros H.
  destruct (truthy (dict_get_default "source_schema_name" VNone r))
    eqn:Hname; cbn [negb] in H.
  - cbn [rbind] in H. injection H as <-.
    destruct (truthy (dict_get_default "entity_name" VNone r)) eqn:Hentity;
      destruct (truthy (dict_get_default "reasoning" VNone r)) eqn:Hreason;
      repeat first
        [ progress dict_simpl
        | progress cbn [negb]
        | progress cbv beta iota
        | progress rewrite ?Hname, ?Hentity, ?Hreason ];
      repeat split; reflexivity.
  - destruct (dict_getitem "incoming_schema" s) as [incoming|];
      [|discriminate].
    cbn [rbind] in H.
    destruct (py_getitem incoming "hash") as [hash|]; [|discriminate].
    cbn [rbind] in H.
    destruct (py_slice_to 8 hash) as [prefix|]; [|discriminate].
    cbn [rbind] in H. injection H as <-.
    dict_simpl.
    destruct (truthy (dict_get_default "entity_name" VNone r)) eqn:Hentity;
      destruct (truthy (dict_get_default "reasoning" VNone r)) eqn:Hreason;
      repeat first
        [ progress dict_simpl
        | progress cbn [negb]
        | progress cbv beta iota
        | progress rewrite ?Hname, ?Hentity, ?Hreason ];
      repeat split; reflexivity.
Qed.

Lemma ensure_text_defaults_fixed (r s : dict) :
  truthy (dict_get_default "source_schema_name" VNone r) = true ->
  truthy (dict_get_default "entity_name" VNone r) = true ->
  truthy (dict_get_default "reasoning" VNone r) = true ->
  ensure_text_defaults py_repr r s = Ok r.
Proof.
  intros H1 H2 H3. unfold ensure_text_defaults.
  rewrite H1. cbn [negb]. cbv beta iota zeta. cbn [rbind].
  rewrite H2. cbn [negb]. cbv beta iota zeta.
  rewrite H3. reflexivity.
Qed.

Lemma ensure_canonical_schema_fixed (r s ra r1 : dict) (schema : dict) :
  ensure_canonical_schema r s = Ok ra ->
  dict_get "canonical_schema" r1 = dict_get "canonical_schema" ra ->
  dict_get "canonical_schema" r1 = Some (VDict schema) ->
  ensure_canonical_schema r1 s = Ok r1.
Proof.
  unfold ensure_canonical_schema. intros Ha Hsame Hschema.
  destruct (canonical_schema_missing r) as [[|]|] eqn:Hmissing;
    cbn [rbind] in Ha; try discriminate.
  - destruct (replacement_schema s) as [v|] eqn:Hreplacement;
      cbn [rbind] in Ha; [|discriminate].
    injection Ha as <-. rewrite dict_get_set_same in Hsame.
    assert (Hv : v = VDict schema) by congruence. subst v.
    assert (Hok : exists b, canonical_schema_missing r1 = Ok b).
    { unfold canonical_schema_missing, dict_get_default, dict_getitem.
      rewrite Hschema. cbn [py_get rbind].
      destruct (negb (truthy (VDict schema))); eexists; reflexivity. }
    destruct Hok as ([|] & ->); cbn [rbind]; cbv beta iota;
      [|reflexivity].
    rewrite (dict_set_same_value _ _ _ Hschema). reflexivity.
  - injection Ha as <-.
    rewrite (canonical_schema_missing_ext r r1 Hsame), Hmissing.
    reflexivity.
Qed.

Lemma ensure_field_mappings_fixed (r : dict) (mappings : list value) :
  dict_get "field_mappings" r = Some (VList (rebuild_mappings mappings)) ->
  ensure_field_mappings r = Ok r.
Proof.
  intros H. unfold ensure_field_mappings, dict_get_default, dict_getitem.
  rewrite H. cbn [is_list]. rewrite H. cbn [rbind py_iter].
  rewrite rebuild_mappings_idempotent.
  rewrite (dict_set_same_value _ _ _ H). reflexivity.
Qed.

(** Where C7 does hold.  When [_validate_response] returns a response
    whose canonical schema is a record, validating that response again,
    with the same state, returns it unchanged. *)
Theorem validate_response_idempotent :
  forall (response state response' : dict) (schema : dict),
    _validate_response py_repr response state = Ok response' ->
    dict_get "canonical_schema" response' = Some (VDict schema) ->
    _validate_response py_repr response' state = Ok response'.
Proof.
  intros response state response' schema H Hschema.
  pose proof (validate_response_field_mappings_shape _ _ _ H) as Hmappings.
  apply validate_response_inv in H as (ra & rb & Ha & Hb & Hc).
  destruct (ensure_text_defaults_settled _ _ _ Hc) as (H1 & H2 & H3).
  assert (Hsame : dict_get "canonical_schema" response' =
                  dict_get "canonical_schema" ra).
  { rewrite (ensure_text_defaults_other _ _ _ "canonical_schema" Hc)
      by discriminate.
    destruct (ensure_field_mappings_ok ra) as (rb' & Hb' & _ & Hother).
    rewrite Hb in Hb'. injection Hb' as <-.
    apply Hother. discriminate. }
  unfold _validate_response.
  rewrite (ensure_canonical_schema_fixed _ _ _ _ _ Ha Hsame Hschema).
  cbn [rbind].
  rewrite (ensure_field_mappings_fixed _ _ Hmappings). cbn [rbind].
  apply ensure_text_defaults_fixed; assumption.
Qed.

Lemma validate_mapping_inv (m : value) (kept : option value) :
  validate_mapping m = Ok kept ->
  (has_target_field m = false /\ kept = None) \/
  (has_target_field m = true /\
   exists d tag, m = VDict d /\ kept = Some (VDict (repair_mapping tag d))).
Proof.
  destruct m as [| | | | | |d]; try discriminate.
  unfold validate_mapping, has_target_field. cbn [py_get rbind].
  unfold dict_get_default at 1.
  destruct (dict_get "target_field" d) as [target|].
  - destruct (truthy target); cbn [negb]; cbv beta iota.
    + destruct (py_lower _) as [tag|]; cbn [rbind]; [|discriminate].
      intros H. injection H as <-. right. split; [reflexivity|].
      do 2 eexists. split; reflexivity.
    + intros H. injection H as <-. left. split; reflexivity.
  - cbn [truthy negb]. intros H. injection H as <-.
    left. split; reflexivity.
Qed.

Lemma validate_loop_keeps_attributes (mappings validated : list value) :
  validate_loop mappings = Ok validated ->
  Forall2 keeps_attributes (filter has_target_field mappings) validated.
Proof.
  revert validated.
  induction mappings as [|m rest IH]; intros validated; cbn [validate_loop].
  - intros H. injection H as <-. constructor.
  - destruct (validate_mapping m) as [kept|] eqn:Hm; cbn [rbind];
      [|discriminate].
    destruct (validate_loop rest) as [tail|]; cbn [rbind]; [|discriminate].
    intros H. injection H as <-. specialize (IH tail eq_refl).
    apply validate_mapping_inv in Hm
      as [[Hdrop ->] | (Hkeep & d & tag & -> & ->)]; cbn [filter].
    + rewrite Hdrop. exact IH.
    + rewrite Hkeep. constructor; [|exact IH].
      exists d, (repair_mapping tag d).
      split; [reflexivity|]. split; [reflexivity|].
      intros k. apply repair_mapping_keeps_keys.
Qed.

(** C10. Every field mapping in the response that [_validate_response]
    returns is a record with exactly the six declared attributes,
    whatever else its candidate carried; the validation pass of the
    mapping generator, on the contrary, keeps every attribute of the
    candidates it retains. *)
Theorem assembled_mappings_only_declared_attributes :
  (forall response state response' : dict,
      _validate_response py_repr response state = Ok response' ->
      exists mappings : list value,
        dict_get "field_mappings" response' = Some (VList mappings) /\
        Forall only_declared_attributes mappings) /\
  (forall mappings validated : list value,
      _validate_mappings (VList mappings) = Ok (VList validated) ->
      Forall2 keeps_attributes (filter has_target_field mappings)
        validated).
Proof.
  split.
  - intros response state response' H.
    exists (rebuild_mappings (candidate_mappings response)). split.
    + exact (validate_response_field_mappings_shape _ _ _ H).
    + apply rebuild_mappings_spec.
  - intros mappings validated. unfold _validate_mappings.
    cbn [py_iter rbind].
    destruct (validate_loop mappings) as [out|] eqn:Hloop; cbn [rbind];
      [|discriminate].
    intros H. injection H as <-.
    exact (validate_loop_keeps_attributes _ _ Hloop).
Qed.

End AssemblyProperties.

Lemma validate_response_field_mappings_witness :
  let state := Sample.initial_state [] in
  let validated :=
    match _validate_response Sample.repr Sample.candidate_response state with
    | Ok response' => response'
    | Raise _ => []
    end in
  _validate_response Sample.repr Sample.candidate_response state
    = Ok validated /\
  exists kept : list value,
    dict_get "field_mappings" validated = Some (VList kept) /\
    Forall2 rebuilt_from
      (filter has_target_field (candidate_mappings Sample.candidate_response))
      kept.
Proof.
  intros state validated.
  split; [reflexivity|].
  exact (validate_response_field_mappings Sample.repr
           Sample.candidate_response state validated eq_refl).
Defined.

Example validate_response_sample :
  exists response',
    _validate_response Sample.repr Sample.candidate_response
      (Sample.initial_state []) = Ok response' /\
    dict_get "source_schema_name" response' = Some (VStr "source_9f86d081") /\
    dict_get "reasoning" response' =
      Some (VStr "Schema analyzed through multi-step agent pipeline") /\
    dict_get "field_mappings" response' =
      Some (VList [VDict [("source_field", VStr "full_name");
                          ("target_field", VStr "first_name");
                          ("transformation", VStr "split");
                          ("jsonata_formula", VStr "");
                          ("confidence", VFloat float_0_8);
                          ("explanation", VStr "")];
                   VDict [("source_field", VStr "email");
                          ("target_field", VStr "email");
                          ("transformation", VStr "direct");
                          ("jsonata_formula", VStr "email");
                          ("confidence", VInt 1);
                          ("explanation", VStr "")]]).
Proof. eexists. split; [reflexivity|]. repeat split. Qed.

Lemma assembled_mappings_only_declared_attributes_witness :
  let state := Sample.initial_state [] in
  let validated :=
    match _validate_response Sample.repr Sample.candidate_response state with
    | Ok response' => response'
    | Raise _ => []
    end in
  let noted :=
    VDict [("source_field", VStr "full_name");
           ("target_field", VStr "first_name");
           ("note", VStr "first token")] in
  let repaired :=
    VDict [("source_field", VStr "full_name");
           ("target_field", VStr "first_name");
           ("note", VStr "first token");
           ("transformation", VStr "direct");
           ("confidence", VFloat float_0_8);
           ("jsonata_formula", VStr "full_name")] in
  _validate_response Sample.repr Sample.candidate_response state
    = Ok validated /\
  _validate_mappings (VList [noted]) = Ok (VList [repaired]) /\
  (exists mappings : list value,
      dict_get "field_mappings" validated = Some (VList mappings) /\
      Forall only_declared_attributes mappings) /\
  Forall2 keeps_attributes (filter has_target_field [noted]) [repaired].
Proof.
  intros state validated noted repaired.
  split; [reflexivity|]. split; [reflexivity|].
  destruct (assembled_mappings_only_declared_attributes Sample.repr)
    as [Hresponse Hgenerator].
  split.
  - exact (Hresponse Sample.candidate_response state validated eq_refl).
  - exact (Hgenerator [noted] [repaired] eq_refl).
Defined.

Lemma validate_response_idempotent_witness :
  let state := Sample.initial_state [] in
  let validated :=
    match _validate_response Sample.repr Sample.candidate_response state with
    | Ok response' => response'
    | Raise _ => []
    end in
  _validate_response Sample.repr Sample.candidate_response state
    = Ok validated /\
  dict_get "canonical_schema" validated =
    Some (VDict [("fields", VList [Sample.text_field "first_name";
                                   Sample.text_field "email"])]) /\
  _validate_response Sample.repr validated state = Ok validated.
Proof.
  intros state validated.
  split; [reflexivity|]. split; [reflexivity|].
  exact (validate_response_idempotent Sample.repr Sample.candidate_response
           state validated _ eq_refl eq_refl).
Defined.


(** C5 fails on the code.  The normalizer's reply is stored both as the
    canonical schema and as the suggestions; when it designs a schema
    without fields, response assembly replaces the schema by the
    suggested one, which is the same, and the response goes out with no
    canonical field although the incoming schema has two detected
    fields.  (The mapping generator, which runs between the normalizer
    and response assembly, changes neither of the two.) *)
Theorem prepare_response_empty_canonical_schema :
  exists matched normalized prepared response : dict,
    match_entities unit Sample.get_llm Sample.replies
      (Sample.parses_to Sample.empty_design) Sample.no_span
      (Sample.initial_state []) = Ok matched /\
    normalize_schema unit Sample.get_llm Sample.replies
      (Sample.parses_to Sample.empty_design) matched = Ok normalized /\
    dict_get "canonical_schema" normalized =
      Some (VDict [("fields", VList [])]) /\
    dict_get "normalization_suggestions" normalized =
      Some Sample.empty_design /\
    py_getitem Sample.incoming_schema "detected_fields" =
      Ok (VList [Sample.text_field "full_name"; Sample.text_field "email"]) /\
    prepare_response Sample.repr normalized = Ok prepared /\
    dict_get "final_response" prepared = Some (VDict response) /\
    dict_get "canonical_schema" response = Some (VDict [("fields", VList [])]) /\
    dict_get "error" prepared = Some VNone.
Proof.
  do 4 eexists.
  repeat (split; [vm_compute; reflexivity|]).
  vm_compute; reflexivity.
Qed.

(** Where the repair of C5 does work: with nothing suggested, the schema
    is synthesized, one definition per detected field. *)
Lemma field_definition_synthesized (field : value) :
  detected_field field ->
  exists definition,
    field_definition field = Ok definition /\
    synthesized_from field definition.
Proof.
  intros (d & name & type & -> & Hname & Htype).
  unfold field_definition. cbn [py_getitem py_get].
  unfold dict_getitem. rewrite Hname, Htype. cbn [rbind].
  eexists. split; [reflexivity|].
  exists d, name, type. repeat split; assumption.
Qed.

Lemma replacement_schema_synthesized (state : dict)
  (incoming_schema : value) (detected_fields : list value) :
  dict_get "normalization_suggestions" state = None ->
  dict_get "incoming_schema" state = Some incoming_schema ->
  py_getitem incoming_schema "detected_fields" = Ok (VList detected_fields) ->
  Forall detected_field detected_fields ->
  exists fields : list value,
    replacement_schema state = Ok (VDict [("fields", VList fields)]) /\
    Forall2 synthesized_from detected_fields fields.
Proof.
  intros Hnone Hincoming Hdetected Hfields.
  unfold replacement_schema, dict_get_default, dict_getitem.
  rewrite Hnone, Hincoming. cbn [py_get dict_get rbind truthy].
  cbv beta iota. rewrite Hdetected. cbn [rbind py_iter].
  assert (Hloop : exists fields,
             map_result field_definition detected_fields = Ok fields /\
             Forall2 synthesized_from detected_fields fields).
  { clear Hdetected. induction Hfields as [|f rest Hf _ IH].
    - exists []. split; [reflexivity|constructor].
    - destruct (field_definition_synthesized f Hf) as (fd & Hfd & Hfrom).
      destruct IH as (fds & Hfds & Hall).
      exists (fd :: fds). cbn [map_result]. rewrite Hfd, Hfds.
      split; [reflexivity|]. constructor; assumption. }
  destruct Hloop as (fields & Hloop & Hall).
  exists fields. rewrite Hloop. split; [reflexivity|exact Hall].
Qed.

(** With the suggestions present as [None], as the initial state has
    them, the repair raises instead, and [prepare_response] answers with
    the error response, whose schema is again one definition per
    detected field. *)
Example prepare_response_without_suggestions :
  exists prepared response : dict,
    prepare_response Sample.repr (Sample.initial_state []) = Ok prepared /\
    dict_get "final_response" prepared = Some (VDict response) /\
    dict_get "reasoning" response =
      Some (VStr ("Fallback response due to error: "
                  ++ "'NoneType' object has no attribute 'get'")) /\
    dict_get "canonical_schema" response =
      Some (VDict [("fields",
                     VList [VDict [("name", VStr "full_name");
                                   ("type", VStr "string");
                                   ("required", VBool false)];
                            VDict [("name", VStr "email");
                                   ("type", VStr "string");
                                   ("required", VBool false)]])]).
Proof. do 2 eexists. split; [vm_compute; reflexivity|]. repeat split. Qed.


(** * Further properties *)

(** ** More on the keys a computation leaves alone *)

Lemma keeps_state_getitem (k k' : string) : keeps k (state_getitem k').
Proof. intros s r s' H. injection H as _ <-. reflexivity. Qed.

Lemma keeps_state_get (k k' : string) (default : value) :
  keeps k (state_get k' default).
Proof. intros s r s' H. injection H as _ <-. reflexivity. Qed.

Lemma keeps_state_append (k k' : string) (v : value) :
  k <> k' -> keeps k (state_append k' v).
Proof.
  intros Hk s r s'. unfold state_append.
  destruct (dict_get k' s) as [[| | | | |l|]|];
    intros H; injection H as _ <-; try reflexivity.
  apply dict_get_set_other. exact Hk.
Qed.

Lemma keeps_try_except {A : Type} (k : string) (body : M A)
  (handler : exn -> M A) :
  keeps k body -> (forall e, keeps k (handler e)) ->
  keeps k (try_except body handler).
Proof.
  intros Hbody Hhandler s r s'. unfold try_except.
  destruct (body s) as [[a|e] s1] eqn:Hs.
  - intros H. injection H as _ <-. exact (Hbody _ _ _ Hs).
  - intros H. rewrite (Hhandler e _ _ _ H). exact (Hbody _ _ _ Hs).
Qed.

Lemma keeps_run_stage (k : string) (body : M unit) (state state' : dict) :
  keeps k body -> run_stage body state = Ok state' ->
  dict_get k state' = dict_get k state.
Proof.
  intros Hkeeps. unfold run_stage.
  destruct (body state) as [[u|e] s1] eqn:Hs; [|discriminate].
  intros H. injection H as <-. exact (Hkeeps _ _ _ Hs).
Qed.

(** Like [keeps_tac], for every operation of the monad. *)
Ltac frame_tac :=
  repeat first
    [ apply keeps_bind
    | apply keeps_try_except
    | apply keeps_if
    | apply keeps_ret
    | apply keeps_lift
    | apply keeps_state_getitem
    | apply keeps_state_get
    | apply keeps_state_set; assumption
    | apply keeps_state_append; assumption
    | intro ].

(** ** Entity matcher: what every run keeps and adds *)

Lemma match_entities_except_ok (e : exn) (s s' : dict) :
  match_entities_except e s = (Ok tt, s') ->
  exists history,
    dict_get "processing_history" s = Some (VList history) /\
    dict_get "processing_history" s' =
      Some (VList (history ++ [VStr "entity_matching_failed"])) /\
    dict_get "error" s' =
      Some (VStr ("Entity matching failed: " ++ str_exn e)) /\
    dict_get "action" s' = Some (VStr "create_new") /\
    dict_get "entity_id" s' = Some VNone /\
    dict_get "similarity_score" s' = Some VNone.
Proof.
  unfold match_entities_except, bind, state_set. intros H.
  apply state_append_ok in H as (history & Hhist & ->).
  rewrite !dict_get_set_other in Hhist by discriminate.
  exists history. dict_simpl. repeat split; try reflexivity. exact Hhist.
Qed.

Section EntityMatcherFrame.

Variable llm : Type.
Variable get_bedrock_llm : Q -> Z -> result llm.
Variable ainvoke : llm -> system_message -> prompt -> result string.
Variable json_loads : string -> result value.
Variable re_search_object : string -> option string.

Let stage :=
  match_entities llm get_bedrock_llm ainvoke json_loads re_search_object.
Let try_block :=
  match_entities_try llm ainvoke json_loads re_search_object.

(** The three ways [match_entities] returns. *)
Lemma match_entities_returns (state state' : dict) :
  stage state = Ok state' ->
  (exists history,
      dict_get "processing_history" state = Some (VList history) /\
      state' =
        dict_set "processing_history"
          (VList (history ++ [VStr "entity_matching_skipped"]))
          (dict_set "entity_match_results" skipped_match_results state)) \/
  (exists client p,
      enters_guarded_block get_bedrock_llm state client p /\
      (try_block client p state = (Ok tt, state') \/
       exists e s1,
         try_block client p state = (Raise e, s1) /\
         match_entities_except e s1 = (Ok tt, state'))).
Proof.
  unfold stage, match_entities, run_stage, match_entities_body.
  unfold bind at 1. unfold state_getitem at 1, dict_getitem.
  destruct (dict_get "incoming_schema" state) as [incoming|] eqn:Hinc;
    [|discriminate].
  unfold bind at 1. unfold lift at 1.
  destruct (py_getitem incoming "hash") as [hash|] eqn:Hhash; [|discriminate].
  unfold bind at 1. unfold state_getitem at 1, dict_getitem.
  destruct (dict_get "existing_entities" state) as [existing|] eqn:Hent;
    [|discriminate].
  unfold bind at 1. unfold lift at 1.
  destruct (py_len existing) as [n|] eqn:Hlen; [|discriminate].
  destruct (truthy existing) eqn:Htrue; cbn [negb]; cbv beta iota.
  - unfold bind at 1. unfold lift at 1.
    destruct (get_bedrock_llm float_0_1 4096) as [client|] eqn:Hllm;
      [|discriminate].
    unfold bind at 1. unfold state_get at 1.
    unfold bind at 1. unfold lift at 1.
    destruct (_build_entity_matching_prompt _ _ _) as [p|] eqn:Hprompt;
      [|discriminate].
    intros H. right. exists client, p. split.
    + exists incoming, hash, existing, n. repeat split; assumption.
    + unfold try_except in H. fold try_block in H.
      destruct (try_block client p state) as [[[]|e] s1] eqn:Htry.
      * left. injection H as <-. reflexivity.
      * right. exists e, s1. split; [reflexivity|].
        destruct (match_entities_except e s1) as [[[]|e'] s2];
          [|discriminate].
        injection H as <-. reflexivity.
  - unfold bind, state_set. intros H.
    destruct (state_append _ _ _) as [[[]|e] s1] eqn:Happend;
      [|discriminate].
    injection H as <-.
    apply state_append_ok in Happend as (history & Hhist & ->).
    rewrite dict_get_set_other in Hhist by discriminate.
    left. exists history. split; [exact Hhist|reflexivity].
Qed.

Lemma match_entities_try_frame (client : llm) (p : prompt) (k : string) :
  k <> "entity_match_results" -> k <> "action" -> k <> "entity_id" ->
  k <> "similarity_score" -> k <> "processing_history" ->
  keeps k (try_block client p).
Proof.
  intros H1 H2 H3 H4 H5.
  unfold try_block, match_entities_try, decide_action. frame_tac.
Qed.

(** X1. Whenever [match_entities] returns, it has appended exactly one
    tag to the history, one of the three tags of the stage, and it has
    left alone every key other than the match results, the three output
    slots, [error] and the history. *)
Theorem match_entities_frame :
  forall state state' : dict,
    stage state = Ok state' ->
    (exists history tag,
        dict_get "processing_history" state = Some (VList history) /\
        dict_get "processing_history" state' =
          Some (VList (history ++ [VStr tag])) /\
        In tag entity_matching_tags) /\
    (forall k,
        k <> "entity_match_results" -> k <> "action" -> k <> "entity_id" ->
        k <> "similarity_score" -> k <> "error" ->
        k <> "processing_history" ->
        dict_get k state' = dict_get k state).
Proof.
  intros state state' H.
  apply match_entities_returns in H
    as [(history & Hhist & ->)
       | (client & p & Henter & [Htry | (e & s1 & Htry & Hexcept)])].
  - split.
    + exists history, "entity_matching_skipped". dict_simpl.
      repeat split; [exact Hhist|]. simpl. tauto.
    + intros k H1 _ _ _ _ H6.
      rewrite !dict_get_set_other by assumption. reflexivity.
  - split.
    + unfold try_block, match_entities_try, bind, lift in Htry.
      destruct (ainvoke client EntityMatcherSystem p) as [content|];
        [|discriminate].
      destruct (parse_match_results _ _ content) as [results|];
        [|discriminate].
      apply decide_action_ok in Htry as (history & Hhist & _ & Hhist' & _).
      exists history, "entity_matching_completed".
      repeat split; try assumption. simpl. tauto.
    + intros k H1 H2 H3 H4 _ H6.
      exact (match_entities_try_frame client p k H1 H2 H3 H4 H6 _ _ _ Htry).
  - pose proof (match_entities_try_raise _ _ _ _ _ _ _ _ _ Htry) as Hsame.
    split.
    + apply match_entities_except_ok in Hexcept
        as (history & Hhist & Hhist' & _).
      exists history, "entity_matching_failed".
      rewrite <- Hsame. repeat split; try assumption. simpl. tauto.
    + intros k H1 H2 H3 H4 H5 H6.
      transitivity (dict_get k s1).
      * assert (Hkeeps : keeps k (match_entities_except e)).
        { unfold match_entities_except. frame_tac. }
        exact (Hkeeps _ _ _ Hexcept).
      * exact (match_entities_try_frame client p k H1 H2 H3 H4 H6 _ _ _ Htry).
Qed.

(** X2. A reply that is not JSON, with no brace-delimited span in it or
    with one that does not parse either, is not a failure of the stage:
    the default results are stored, the action is "create_new", the
    history gets "entity_matching_completed" and [error] is left as it
    was. *)
Theorem match_entities_unparseable_reply :
  forall (state : dict) (client : llm) (p : prompt) (content message : string)
         (history : list value),
    enters_guarded_block get_bedrock_llm state client p ->
    dict_get "processing_history" state = Some (VList history) ->
    ainvoke client EntityMatcherSystem p = Ok content ->
    json_loads content = Raise (JSONDecodeError message) ->
    (re_search_object content = None \/
     exists span e,
       re_search_object content = Some span /\ json_loads span = Raise e) ->
    exists state' : dict,
      stage state = Ok state' /\
      dict_get "entity_match_results" state' =
        Some (VDict [("best_match", VNone); ("candidates", VList [])]) /\
      dict_get "action" state' = Some (VStr "create_new") /\
      dict_get "entity_id" state' = Some VNone /\
      dict_get "similarity_score" state' = Some VNone /\
      dict_get "processing_history" state' =
        Some (VList (history ++ [VStr "entity_matching_completed"])) /\
      dict_get "error" state' = dict_get "error" state.
Proof.
  intros state client p content message history Henter Hhist Hreply Hjson
    Hspan.
  assert (Hparse : parse_match_results json_loads re_search_object content =
                   Ok default_match_results).
  { unfold parse_match_results. rewrite Hjson.
    destruct Hspan as [-> | (span & e & -> & ->)]; reflexivity. }
  eexists. split.
  - unfold stage.
    rewrite (match_entities_guarded _ _ _ _ _ _ _ _ Henter).
    unfold run_stage, try_except, match_entities_try, bind, lift.
    rewrite Hreply, Hparse.
    unfold decide_action, bind, lift, state_set, state_append, ret.
    cbn [default_match_results py_get dict_get_default dict_get String.eqb
           Ascii.eqb Bool.eqb truthy].
    rewrite !dict_get_set_other by discriminate.
    rewrite Hhist. reflexivity.
  - dict_simpl. repeat split; reflexivity.
Qed.

(** X3. When [best_match] qualifies for mapping but carries no
    [entity_id], the stage has already chosen "map_to_existing" when the
    lookup raises: it ends on its failure path, with the parsed results
    stored, the action back to "create_new" and the missing key as the
    recorded cause. *)
Theorem match_entities_missing_entity_id :
  forall (state : dict) (client : llm) (p : prompt) (content : string)
         (results bm : dict) (score : value) (history : list value),
    enters_guarded_block get_bedrock_llm state client p ->
    dict_get "processing_history" state = Some (VList history) ->
    ainvoke client EntityMatcherSystem p = Ok content ->
    parse_match_results json_loads re_search_object content =
      Ok (VDict results) ->
    dict_get "best_match" results = Some (VDict bm) ->
    dict_get "similarity_score" bm = Some score ->
    score_at_least 75 score ->
    dict_get "entity_id" bm = None ->
    exists state' : dict,
      stage state = Ok state' /\
      dict_get "entity_match_results" state' = Some (VDict results) /\
      dict_get "error" state' =
        Some (VStr "Entity matching failed: 'entity_id'") /\
      dict_get "action" state' = Some (VStr "create_new") /\
      dict_get "entity_id" state' = Some VNone /\
      dict_get "similarity_score" state' = Some VNone /\
      dict_get "processing_history" state' =
        Some (VList (history ++ [VStr "entity_matching_failed"])).
Proof.
  intros state client p content results bm score history Henter Hhist Hreply
    Hparse Hbest Hscore Hge Hid.
  apply py_ge_int_true in Hge.
  assert (Htrue : truthy (VDict bm) = true).
  { destruct bm; [discriminate Hscore|reflexivity]. }
  eexists. split.
  - unfold stage.
    rewrite (match_entities_guarded _ _ _ _ _ _ _ _ Henter).
    unfold run_stage, try_except, match_entities_try, bind, lift.
    rewrite Hreply, Hparse.
    unfold decide_action, bind, lift, state_set, ret.
    cbn [py_get py_getitem]. unfold dict_get_default, dict_getitem.
    rewrite Hbest, Htrue. cbn [py_get]. unfold dict_get_default.
    rewrite Hscore, Hge. cbn [py_getitem]. unfold dict_getitem.
    rewrite Hid.
    unfold match_entities_except, bind, state_set, state_append.
    rewrite !dict_get_set_other by discriminate.
    rewrite Hhist. reflexivity.
  - dict_simpl. repeat split; reflexivity.
Qed.

(** X4. With a catalogue that is not empty, a field analysis left in
    the state that is true but is not a record makes the stage raise
    while it builds its prompt, before its guarded block: nothing is
    returned. *)
Theorem match_entities_field_analysis_not_record :
  forall (state : dict) (incoming_schema hash existing_entities : value)
         (n : Z) (client : llm) (field_analysis : value),
    dict_get "incoming_schema" state = Some incoming_schema ->
    py_getitem incoming_schema "hash" = Ok hash ->
    dict_get "existing_entities" state = Some existing_entities ->
    py_len existing_entities = Ok n ->
    truthy existing_entities = true ->
    get_bedrock_llm float_0_1 4096 = Ok client ->
    dict_get "field_analysis" state = Some field_analysis ->
    truthy field_analysis = true ->
    (forall d, field_analysis <> VDict d) ->
    stage state = Raise (AttributeError (type_name field_analysis) "get").
Proof.
  intros state incoming hash existing n client fa Hinc Hhash Hent Hlen Htrue
    Hllm Hfa Hfa_true Hfa_shape.
  unfold stage, match_entities, run_stage, match_entities_body.
  unfold bind, state_getitem, dict_getitem, lift, state_get,
    dict_get_default.
  rewrite Hinc, Hhash, Hent, Hlen, Htrue. cbn [negb].
  rewrite Hllm, Hfa.
  unfold _build_entity_matching_prompt. rewrite Hfa_true.
  destruct fa; try reflexivity.
  exfalso. exact (Hfa_shape d eq_refl).
Qed.

End EntityMatcherFrame.

Lemma match_entities_frame_witness :
  let run :=
    match_entities unit Sample.get_llm Sample.replies
      (Sample.parses_to (Sample.match_results 75 true)) Sample.no_span in
  let state := Sample.initial_state [Sample.customer] in
  let state' := match run state with Ok s => s | Raise _ => [] end in
  run state = Ok state' /\
  dict_get "incoming_schema" state' = dict_get "incoming_schema" state.
Proof.
  intros run state state'.
  assert (H : run state = Ok state') by (vm_compute; reflexivity).
  split; [exact H|].
  apply (proj2 (match_entities_frame unit Sample.get_llm Sample.replies
                  (Sample.parses_to (Sample.match_results 75 true))
                  Sample.no_span state state' H));
    discriminate.
Defined.

Lemma match_entities_unparseable_reply_witness :
  let state := Sample.initial_state [Sample.customer] in
  enters_guarded_block Sample.get_llm state tt Sample.matching_prompt /\
  dict_get "processing_history" state = Some (VList []) /\
  Scenario.rejects "I could not compare the schemas." =
    Raise (JSONDecodeError "Expecting value: line 1 column 1 (char 0)") /\
  exists state' : dict,
    match_entities unit Sample.get_llm Sample.replies Scenario.rejects
      Sample.no_span state = Ok state' /\
    dict_get "action" state' = Some (VStr "create_new") /\
    dict_get "error" state' = Some VNone.
Proof.
  intros state.
  split; [exact sample_enters_guarded_block|].
  split; [reflexivity|]. split; [reflexivity|].
  destruct (match_entities_unparseable_reply unit Sample.get_llm
              Sample.replies Scenario.rejects Sample.no_span state tt
              Sample.matching_prompt "reply" _ []
              sample_enters_guarded_block eq_refl eq_refl eq_refl
              (or_introl eq_refl))
    as (state' & Hrun & _ & Haction & _ & _ & _ & Herror).
  exists state'. repeat split; assumption.
Defined.

Lemma match_entities_missing_entity_id_witness :
  let state := Sample.initial_state [Sample.customer] in
  enters_guarded_block Sample.get_llm state tt Sample.matching_prompt /\
  score_at_least 75 (VInt 90) /\
  exists state' : dict,
    match_entities unit Sample.get_llm Sample.replies
      (Sample.parses_to Scenario.anonymous_match) Sample.no_span state
      = Ok state' /\
    dict_get "error" state' =
      Some (VStr "Entity matching failed: 'entity_id'") /\
    dict_get "action" state' = Some (VStr "create_new").
Proof.
  intros state.
  assert (Hscore : score_at_least 75 (VInt 90)).
  { unfold score_at_least. cbn [as_number]. rewrite <- Zle_Qle. lia. }
  split; [exact sample_enters_guarded_block|]. split; [exact Hscore|].
  destruct (match_entities_missing_entity_id unit Sample.get_llm
              Sample.replies (Sample.parses_to Scenario.anonymous_match)
              Sample.no_span state tt Sample.matching_prompt "reply"
              _ _ (VInt 90) []
              sample_enters_guarded_block eq_refl eq_refl eq_refl
              eq_refl eq_refl Hscore eq_refl)
    as (state' & Hrun & _ & Herror & Haction & _).
  exists state'. repeat split; assumption.
Defined.

Lemma match_entities_field_analysis_not_record_witness :
  let state :=
    dict_set "field_analysis" (VList [VStr "full_name"])
      (Sample.initial_state [Sample.customer]) in
  truthy (VList [Sample.customer]) = true /\
  truthy (VList [VStr "full_name"]) = true /\
  match_entities unit Sample.get_llm Sample.replies
    (Sample.parses_to (Sample.match_results 90 false)) Sample.no_span state =
  Raise (AttributeError "list" "get").
Proof.
  intros state. split; [reflexivity|]. split; [reflexivity|].
  apply (match_entities_field_analysis_not_record unit Sample.get_llm
           Sample.replies (Sample.parses_to (Sample.match_results 90 false))
           Sample.no_span state Sample.incoming_schema
           (VStr "9f86d081884c7d65") (VList [Sample.customer]) 1 tt
           (VList [VStr "full_name"]));
    try reflexivity.
  intros d. discriminate.
Defined.

(** ** Schema normalizer: lookup of the target entity *)

Lemma find_entity_loop_first (entities : list value) (entity_id : value) :
  Forall identified entities ->
  exists found,
    find_entity_loop entities entity_id = Ok found /\
    ((found = VDict [] /\
      Forall (fun entity => ~ has_id entity_id entity) entities) \/
     (exists before after,
         entities = before ++ found :: after /\
         has_id entity_id found /\
         Forall (fun entity => ~ has_id entity_id entity) before)).
Proof.
  induction 1 as [|entity rest (d & id & -> & Hid) _ IH].
  - exists (VDict []). split; [reflexivity|]. left. split; constructor.
  - cbn [find_entity_loop py_getitem]. unfold dict_getitem. rewrite Hid.
    cbn [rbind]. destruct (py_eq id entity_id) eqn:Heq.
    + exists (VDict d). split; [reflexivity|]. right.
      exists [], rest. split; [reflexivity|]. split; [|constructor].
      exists d, id. repeat split; assumption.
    + assert (Hnot : ~ has_id entity_id (VDict d)).
      { intros (d' & id' & Hd & Hid' & Heq'). injection Hd as <-.
        rewrite Hid in Hid'. injection Hid' as <-. congruence. }
      destruct IH as (found & Hfound & [[-> Hnone] | Hsome]).
      * exists (VDict []). split; [exact Hfound|]. left.
        split; [reflexivity|]. constructor; assumption.
      * destruct Hsome as (before & after & -> & Hhas & Hbefore).
        exists found. split; [exact Hfound|]. right.
        exists (VDict d :: before), after.
        split; [reflexivity|]. split; [exact Hhas|].
        constructor; assumption.
Qed.

(** X5. Over a catalogue of records that all carry an [id],
    [_find_entity_by_id] returns the first entity whose id equals the one
    looked for, and the empty record when no entity has it. *)
Theorem find_entity_by_id_first_match :
  forall (entities : list value) (entity_id : value),
    Forall identified entities ->
    exists found : value,
      _find_entity_by_id (VList entities) entity_id = Ok found /\
      ((found = VDict [] /\
        Forall (fun entity => ~ has_id entity_id entity) entities) \/
       (exists before after,
           entities = before ++ found :: after /\
           has_id entity_id found /\
           Forall (fun entity => ~ has_id entity_id entity) before)).
Proof.
  intros entities entity_id Hids.
  unfold _find_entity_by_id. cbn [py_iter rbind].
  apply find_entity_loop_first. exact Hids.
Qed.

Lemma find_entity_by_id_first_match_witness :
  let contact :=
    VDict [("id", VInt 2); ("name", VStr "Contact"); ("fields", VList [])] in
  let shadowed :=
    VDict [("id", VFloat (2 # 1)); ("name", VStr "Lead");
           ("fields", VList [])] in
  Forall identified [Sample.customer; contact; shadowed] /\
  _find_entity_by_id (VList [Sample.customer; contact; shadowed]) (VInt 2) =
    Ok contact /\
  exists found : value,
    _find_entity_by_id (VList [Sample.customer; contact; shadowed]) (VInt 2)
      = Ok found /\
    ((found = VDict [] /\
      Forall (fun entity => ~ has_id (VInt 2) entity)
        [Sample.customer; contact; shadowed]) \/
     (exists before after,
         [Sample.customer; contact; shadowed] = before ++ found :: after /\
         has_id (VInt 2) found /\
         Forall (fun entity => ~ has_id (VInt 2) entity) before)).
Proof.
  intros contact shadowed.
  assert (Hids : Forall identified [Sample.customer; contact; shadowed]).
  { repeat constructor; do 2 eexists; split; reflexivity. }
  split; [exact Hids|]. split; [reflexivity|].
  exact (find_entity_by_id_first_match _ (VInt 2) Hids).
Defined.

(** ** Schema normalizer: the outcomes of the stage *)

Lemma record_normalization_frame (reply : value) (k : string) :
  k <> "normalization_suggestions" -> k <> "entity_name" ->
  k <> "source_schema_name" -> k <> "canonical_schema" ->
  k <> "reasoning" -> k <> "processing_history" ->
  keeps k (record_normalization reply).
Proof. intros. unfold record_normalization. frame_tac. Qed.

Lemma normalization_prompt_keeps (k : string) : keeps k normalization_prompt.
Proof. unfold normalization_prompt. frame_tac. Qed.

Section NormalizerOutcomes.

Variable llm : Type.
Variable get_bedrock_llm : Q -> Z -> result llm.
Variable ainvoke : llm -> system_message -> prompt -> result string.
Variable json_loads : string -> result value.

Let stage := normalize_schema llm get_bedrock_llm ainvoke json_loads.

Lemma normalize_schema_guarded (state : dict) (client : llm) (p : prompt) :
  normalizer_enters get_bedrock_llm state client p ->
  stage state =
  run_stage
    (try_except (normalize_schema_try llm ainvoke json_loads client p)
       normalize_schema_except)
    state.
Proof.
  intros (incoming & hash & Hinc & Hhash & Hllm & Hprompt).
  unfold stage, normalize_schema, run_stage, normalize_schema_body.
  unfold bind, state_getitem, dict_getitem, lift.
  rewrite Hinc, Hhash, Hllm, Hprompt. reflexivity.
Qed.

(** X6. A reply of the model without [entity_name] makes the stage fail
    after it has stored the reply: the state returned is the one given
    with the reply under [normalization_suggestions] and the cause under
    [error], and nothing else is changed; no tag goes to the history. *)
Theorem normalize_schema_partial_update :
  forall (state : dict) (client : llm) (p : prompt) (content : string)
         (reply : value) (e : exn),
    normalizer_enters get_bedrock_llm state client p ->
    ainvoke client SchemaNormalizerSystem p = Ok content ->
    json_loads content = Ok reply ->
    py_getitem reply "entity_name" = Raise e ->
    stage state =
    Ok (dict_set "error"
          (VStr ("Schema normalization failed: " ++ str_exn e))
          (dict_set "normalization_suggestions" reply state)).
Proof.
  intros state client p content reply e Henter Hreply Hjson Hname.
  rewrite (normalize_schema_guarded _ _ _ Henter).
  unfold run_stage, try_except, normalize_schema_try, bind, lift.
  rewrite Hreply, Hjson.
  unfold record_normalization, bind, lift, state_set.
  rewrite Hname. reflexivity.
Qed.

(** X7. A reply with its three required keys fills the five slots of
    the state and puts "normalization_completed" in the history.  The
    stage then measures the field list of the canonical schema: when
    that raises, the cause is recorded under [error] all the same, next
    to the completed tag; otherwise [error] is left as it was. *)
Theorem normalize_schema_records_reply :
  forall (state : dict) (client : llm) (p : prompt) (content : string)
         (reply entity_name source_schema_name canonical_schema : value)
         (history : list value),
    normalizer_enters get_bedrock_llm state client p ->
    dict_get "processing_history" state = Some (VList history) ->
    ainvoke client SchemaNormalizerSystem p = Ok content ->
    json_loads content = Ok reply ->
    py_getitem reply "entity_name" = Ok entity_name ->
    py_getitem reply "source_schema_name" = Ok source_schema_name ->
    py_getitem reply "canonical_schema" = Ok canonical_schema ->
    exists state' : dict,
      stage state = Ok state' /\
      dict_get "normalization_suggestions" state' = Some reply /\
      dict_get "entity_name" state' = Some entity_name /\
      dict_get "source_schema_name" state' = Some source_schema_name /\
      dict_get "canonical_schema" state' = Some canonical_schema /\
      (exists reasoning,
          py_get reply "reasoning" (VStr "") = Ok reasoning /\
          dict_get "reasoning" state' = Some reasoning) /\
      dict_get "processing_history" state' =
        Some (VList (history ++ [VStr "normalization_completed"])) /\
      dict_get "error" state' =
        match (let? fields := py_getitem canonical_schema "fields" in
               py_len fields) with
        | Ok _ => dict_get "error" state
        | Raise e =>
            Some (VStr ("Schema normalization failed: " ++ str_exn e))
        end.
Proof.
  intros state client p content reply entity_name source_schema_name
    canonical_schema history Henter Hhist Hreply Hjson Hname Hsource Hschema.
  assert (Hreasoning : exists reasoning,
             py_get reply "reasoning" (VStr "") = Ok reasoning).
  { destruct reply; try discriminate Hname. eexists. reflexivity. }
  destruct Hreasoning as (reasoning & Hreasoning).
  rewrite (normalize_schema_guarded _ _ _ Henter).
  unfold run_stage, try_except, normalize_schema_try, bind, lift.
  rewrite Hreply, Hjson.
  unfold record_normalization, bind, lift, state_set, state_append,
    state_getitem, dict_getitem, ret.
  rewrite Hname, Hsource, Hschema, Hreasoning.
  rewrite !dict_get_set_other by discriminate. rewrite Hhist.
  dict_simpl.
  destruct (py_getitem canonical_schema "fields") as [fields|e1];
    cbn [rbind].
  - destruct (py_len fields) as [n|e2].
    + eexists. split; [reflexivity|]. dict_simpl.
      repeat split; try reflexivity.
      exists reasoning. split; reflexivity.
    + unfold normalize_schema_except, state_set.
      eexists. split; [reflexivity|]. dict_simpl.
      repeat split; try reflexivity.
      exists reasoning. split; reflexivity.
  - unfold normalize_schema_except, state_set.
    eexists. split; [reflexivity|]. dict_simpl.
    repeat split; try reflexivity.
    exists reasoning. split; reflexivity.
Qed.

(** X8. When the state holds [None] under [entity_match_results], as it
    does after the entity matcher failed before it could store any, and
    the action is not "map_to_existing", the stage raises while it builds
    its prompt: nothing is returned. *)
Theorem normalize_schema_without_match_results :
  forall (state : dict) (incoming_schema hash name detected_fields sample : value)
         (client : llm),
    dict_get "incoming_schema" state = Some incoming_schema ->
    py_getitem incoming_schema "hash" = Ok hash ->
    py_getitem incoming_schema "name" = Ok name ->
    py_getitem incoming_schema "detected_fields" = Ok detected_fields ->
    (let? rows := py_get incoming_schema "sample_data" (VList []) in
     py_slice_to 2 rows) = Ok sample ->
    get_bedrock_llm float_0_1 4096 = Ok client ->
    py_eq (dict_get_default "action" VNone state) (VStr "map_to_existing")
      = false ->
    dict_get "entity_match_results" state = Some VNone ->
    stage state = Raise (AttributeError "NoneType" "get").
Proof.
  intros state incoming hash name detected sample client Hinc Hhash Hname
    Hdetected Hsample Hllm Haction Hresults.
  unfold stage, normalize_schema, run_stage, normalize_schema_body.
  unfold bind at 1. unfold state_getitem at 1, dict_getitem. rewrite Hinc.
  unfold bind at 1. unfold lift at 1. rewrite Hhash.
  unfold bind at 1. unfold lift at 1. rewrite Hllm.
  unfold bind at 1.
  rewrite (normalization_prompt_new_entity state Haction).
  unfold dict_getitem. rewrite Hinc. cbn [rbind].
  unfold _build_new_entity_normalization_prompt.
  rewrite Hname, Hdetected. cbn [rbind].
  destruct (py_get incoming "sample_data" (VList [])) as [rows|];
    cbn [rbind] in Hsample |- *; [|discriminate].
  rewrite Hsample. cbn [rbind].
  unfold dict_get_default at 1. rewrite Hresults. reflexivity.
Qed.

(** X9. Whenever [normalize_schema] returns, every key other than the
    suggestions, the four slots it fills, the history and [error] holds
    what it held: the action, the entity identifier and the similarity
    score chosen by the entity matcher are never touched. *)
Theorem normalize_schema_frame :
  forall (state state' : dict) (k : string),
    stage state = Ok state' ->
    k <> "normalization_suggestions" -> k <> "entity_name" ->
    k <> "source_schema_name" -> k <> "canonical_schema" ->
    k <> "reasoning" -> k <> "processing_history" -> k <> "error" ->
    dict_get k state' = dict_get k state.
Proof.
  intros state state' k H H1 H2 H3 H4 H5 H6 H7.
  apply (keeps_run_stage k
           (normalize_schema_body llm get_bedrock_llm ainvoke json_loads));
    [|exact H].
  unfold normalize_schema_body.
  apply keeps_bind; [apply keeps_state_getitem|intros incoming].
  apply keeps_bind; [apply keeps_lift|intros _].
  apply keeps_bind; [apply keeps_lift|intros client].
  apply keeps_bind; [apply normalization_prompt_keeps|intros p].
  apply keeps_try_except.
  - unfold normalize_schema_try.
    apply keeps_bind; [apply keeps_lift|intros content].
    apply keeps_bind; [apply keeps_lift|intros reply].
    apply record_normalization_frame; assumption.
  - intros e. unfold normalize_schema_except.
    apply keeps_state_set. assumption.
Qed.

End NormalizerOutcomes.

Lemma scenario_normalizer_enters :
  normalizer_enters Sample.get_llm Scenario.skipped_state tt
    Scenario.new_entity_prompt.
Proof.
  exists Sample.incoming_schema, (VStr "9f86d081884c7d65").
  repeat split; reflexivity.
Defined.

Lemma normalize_schema_partial_update_witness :
  normalizer_enters Sample.get_llm Scenario.skipped_state tt
    Scenario.new_entity_prompt /\
  py_getitem Scenario.unnamed_design "entity_name" =
    Raise (KeyError "entity_name") /\
  normalize_schema unit Sample.get_llm Sample.replies
    (Sample.parses_to Scenario.unnamed_design) Scenario.skipped_state =
  Ok (dict_set "error" (VStr "Schema normalization failed: 'entity_name'")
        (dict_set "normalization_suggestions" Scenario.unnamed_design
           Scenario.skipped_state)).
Proof.
  split; [exact scenario_normalizer_enters|]. split; [reflexivity|].
  exact (normalize_schema_partial_update unit Sample.get_llm Sample.replies
           (Sample.parses_to Scenario.unnamed_design) Scenario.skipped_state
           tt Scenario.new_entity_prompt "reply" Scenario.unnamed_design
           (KeyError "entity_name") scenario_normalizer_enters
           eq_refl eq_refl eq_refl).
Defined.

Lemma normalize_schema_records_reply_witness :
  normalizer_enters Sample.get_llm Scenario.skipped_state tt
    Scenario.new_entity_prompt /\
  dict_get "processing_history" Scenario.skipped_state =
    Some (VList [VStr "entity_matching_skipped"]) /\
  exists state' : dict,
    normalize_schema unit Sample.get_llm Sample.replies
      (Sample.parses_to Scenario.contact_design) Scenario.skipped_state
      = Ok state' /\
    dict_get "entity_name" state' = Some (VStr "Contact") /\
    dict_get "processing_history" state' =
      Some (VList [VStr "entity_matching_skipped";
                   VStr "normalization_completed"]) /\
    dict_get "error" state' = Some VNone.
Proof.
  split; [exact scenario_normalizer_enters|]. split; [reflexivity|].
  destruct (normalize_schema_records_reply unit Sample.get_llm
              Sample.replies (Sample.parses_to Scenario.contact_design)
              Scenario.skipped_state tt Scenario.new_entity_prompt "reply"
              Scenario.contact_design _ _ _ _
              scenario_normalizer_enters eq_refl eq_refl eq_refl
              eq_refl eq_refl eq_refl)
    as (state' & Hrun & _ & Hname & _ & _ & _ & Hhist & Herror).
  exists state'. repeat split; assumption.
Defined.

Lemma normalize_schema_without_match_results_witness :
  dict_get "entity_match_results" Scenario.unmatched_state = Some VNone /\
  dict_get "action" Scenario.unmatched_state = Some (VStr "create_new") /\
  dict_get "error" Scenario.unmatched_state =
    Some (VStr "Entity matching failed: Read timeout on endpoint") /\
  normalize_schema unit Sample.get_llm Sample.replies
    (Sample.parses_to Scenario.contact_design) Scenario.unmatched_state =
  Raise (AttributeError "NoneType" "get").
Proof.
  repeat (split; [reflexivity|]).
  exact (normalize_schema_without_match_results unit Sample.get_llm
           Sample.replies (Sample.parses_to Scenario.contact_design)
           Scenario.unmatched_state Sample.incoming_schema _ _ _ _ tt
           eq_refl eq_refl eq_refl eq_refl eq_refl eq_refl eq_refl eq_refl).
Defined.

Lemma normalize_schema_frame_witness :
  let run :=
    normalize_schema unit Sample.get_llm Sample.replies
      (Sample.parses_to Scenario.contact_design) in
  let state' :=
    match run Scenario.skipped_state with Ok s => s | Raise _ => [] end in
  run Scenario.skipped_state = Ok state' /\
  dict_get "action" state' = dict_get "action" Scenario.skipped_state.
Proof.
  intros run state'.
  assert (H : run Scenario.skipped_state = Ok state')
    by (vm_compute; reflexivity).
  split; [exact H|].
  apply (normalize_schema_frame unit Sample.get_llm Sample.replies
           (Sample.parses_to Scenario.contact_design)
           Scenario.skipped_state state' "action" H);
    discriminate.
Defined.

(** ** How a computation of the stage monad returns *)

Lemma bind_ok {A B : Type} (m : M A) (f : A -> M B) (s s' : dict) (b : B) :
  bind m f s = (Ok b, s') ->
  exists a s1, m s = (Ok a, s1) /\ f a s1 = (Ok b, s').
Proof.
  unfold bind. destruct (m s) as [[a|e] s1]; [|discriminate].
  intros H. exists a, s1. split; [reflexivity|exact H].
Qed.

Lemma lift_ok {A : Type} (r : result A) (s s' : dict) (a : A) :
  lift r s = (Ok a, s') -> r = Ok a /\ s' = s.
Proof. unfold lift. intros H. injection H as -> <-. split; reflexivity. Qed.

Lemma try_except_ok {A : Type} (body : M A) (handler : exn -> M A)
  (s s' : dict) (a : A) :
  try_except body handler s = (Ok a, s') ->
  body s = (Ok a, s') \/
  exists e s1, body s = (Raise e, s1) /\ handler e s1 = (Ok a, s').
Proof.
  unfold try_except. destruct (body s) as [[a'|e] s1].
  - intros H. left. exact H.
  - intros H. right. exists e, s1. split; [reflexivity|exact H].
Qed.

Lemma run_stage_ok (body : M unit) (state state' : dict) :
  run_stage body state = Ok state' -> body state = (Ok tt, state').
Proof.
  unfold run_stage. destruct (body state) as [[[]|e] s1]; [|discriminate].
  intros H. injection H as <-. reflexivity.
Qed.

(** ** Mapping generator: what the stage leaves under [field_mappings] *)

Lemma valid_tag_normalized (tag : string) :
  In (normalize_transformation tag) VALID_TRANSFORMATIONS.
Proof. rewrite normalize_transformation_spec. apply remapped_tag_valid. Qed.

Lemma repair_mapping_settled (tag : string) (d : dict) :
  In tag VALID_TRANSFORMATIONS ->
  dict_mem "target_field" d = true ->
  settled_mapping (VDict (repair_mapping tag d)).
Proof.
  intros Htag Htarget. exists (repair_mapping tag d), tag.
  split; [reflexivity|]. unfold repair_mapping.
  repeat match goal with
         | |- context [if ?b then _ else _] => destruct b eqn:?
         end;
    repeat match goal with
           | H : dict_mem _ (dict_set _ _ _) = _ |- _ =>
               rewrite dict_mem_set in H;
               cbn [String.eqb Ascii.eqb Bool.eqb orb] in H
           end;
    dict_simpl; rewrite ?Htarget;
    repeat split; try reflexivity; try assumption.
Qed.

Lemma validate_mapping_settled (m m' : value) :
  validate_mapping m = Ok (Some m') -> settled_mapping m'.
Proof.
  destruct m as [| | | | | |d]; try discriminate.
  unfold validate_mapping. cbn [py_get rbind]. unfold dict_get_default at 1.
  destruct (dict_get "target_field" d) as [target|] eqn:Htarget;
    [|discriminate].
  destruct (truthy target); cbn [negb]; cbv beta iota; [|discriminate].
  destruct (py_lower _) as [tag|]; cbn [rbind]; [|discriminate].
  intros H. injection H as <-.
  apply repair_mapping_settled; [apply valid_tag_normalized|].
  unfold dict_mem. rewrite Htarget. reflexivity.
Qed.

Lemma validate_loop_settled (mappings validated : list value) :
  validate_loop mappings = Ok validated -> Forall settled_mapping validated.
Proof.
  revert validated.
  induction mappings as [|m rest IH]; intros validated; cbn [validate_loop].
  - intros H. injection H as <-. constructor.
  - destruct (validate_mapping m) as [[m'|]|] eqn:Hm; cbn [rbind];
      [| |discriminate];
      (destruct (validate_loop rest) as [tail|]; cbn [rbind];
       [|discriminate]);
      intros H; injection H as <-.
    + constructor; [exact (validate_mapping_settled _ _ Hm)|].
      apply IH. reflexivity.
    + apply IH. reflexivity.
Qed.

Lemma map_result_Forall {A B : Type} (f : A -> result B) (P : B -> Prop)
  (l : list A) (l' : list B) :
  (forall a b, f a = Ok b -> P b) ->
  map_result f l = Ok l' -> Forall P l'.
Proof.
  intros Hf. revert l'.
  induction l as [|a rest IH]; intros l'; cbn [map_result].
  - intros H. injection H as <-. constructor.
  - destruct (f a) as [b|] eqn:Hb; cbn [rbind]; [|discriminate].
    destruct (map_result f rest) as [tail|]; cbn [rbind]; [|discriminate].
    intros H. injection H as <-.
    constructor; [exact (Hf _ _ Hb)|]. apply IH. reflexivity.
Qed.

Lemma fallback_mapping_settled (source_keys : list value)
  (target_field mapping : value) :
  fallback_mapping source_keys target_field = Ok mapping ->
  settled_mapping mapping.
Proof.
  unfold fallback_mapping.
  destruct (py_getitem target_field "name") as [name|]; cbn [rbind];
    [|discriminate].
  destruct (key_mem name source_keys) as [[|]|]; cbn [rbind];
    [| |discriminate].
  - intros H. injection H as <-.
    do 2 eexists. split; [reflexivity|]. split; [reflexivity|].
    cbn. tauto.
  - destruct (py_remove_underscores name) as [stripped|]; cbn [rbind];
      [|discriminate].
    destruct (key_mem (VStr stripped) source_keys) as [[|]|]; cbn [rbind];
      [| |discriminate];
      intros H; injection H as <-;
      (do 2 eexists; split; [reflexivity|]; split; [reflexivity|];
       cbn; tauto).
Qed.

Lemma fallback_mappings_settled (source_fields target_fields result : value) :
  _generate_fallback_mappings source_fields target_fields = Ok result ->
  exists mappings,
    result = VList mappings /\ Forall settled_mapping mappings.
Proof.
  unfold _generate_fallback_mappings.
  destruct (py_iter source_fields) as [sources|]; cbn [rbind];
    [|discriminate].
  destruct (map_result _ sources) as [source_keys|]; cbn [rbind];
    [|discriminate].
  destruct (py_iter target_fields) as [targets|]; cbn [rbind];
    [|discriminate].
  destruct (map_result _ targets) as [mappings|] eqn:Hmap; cbn [rbind];
    [|discriminate].
  intros H. injection H as <-. exists mappings. split; [reflexivity|].
  apply (map_result_Forall _ _ _ _ (fallback_mapping_settled source_keys)
           Hmap).
Qed.

Lemma record_mappings_ok (mappings_result : value) (s s' : dict) :
  record_mappings mappings_result s = (Ok tt, s') ->
  exists candidates validated history,
    py_get mappings_result "field_mappings" (VList []) = Ok candidates /\
    _validate_mappings candidates = Ok (VList validated) /\
    Forall settled_mapping validated /\
    dict_get "processing_history" s = Some (VList history) /\
    s' = dict_set "processing_history"
           (VList (history ++ [VStr "mapping_generation_completed"]))
           (dict_set "field_mappings" (VList validated) s).
Proof.
  unfold record_mappings. intros H.
  apply bind_ok in H as (candidates & s1 & Hcand & H).
  apply lift_ok in Hcand as [Hcand ->].
  apply bind_ok in H as (fm & s1 & Hval & H).
  apply lift_ok in Hval as [Hval ->].
  unfold bind, state_set in H.
  apply state_append_ok in H as (history & Hhist & ->).
  rewrite dict_get_set_other in Hhist by discriminate.
  assert (Hshape : exists validated,
             fm = VList validated /\ Forall settled_mapping validated).
  { unfold _validate_mappings in Hval.
    destruct (py_iter candidates) as [ms|]; cbn [rbind] in Hval;
      [|discriminate].
    destruct (validate_loop ms) as [validated|] eqn:Hloop;
      cbn [rbind] in Hval; [|discriminate].
    injection Hval as <-. exists validated. split; [reflexivity|].
    exact (validate_loop_settled _ _ Hloop). }
  destruct Hshape as (validated & -> & Hsettled).
  exists candidates, validated, history.
  repeat split; assumption.
Qed.

Lemma generate_mappings_except_ok (e : exn) (s s' : dict) :
  generate_mappings_except e s = (Ok tt, s') ->
  exists incoming_schema detected_fields target_fields mappings,
    dict_get "incoming_schema" s = Some incoming_schema /\
    py_getitem incoming_schema "detected_fields" = Ok detected_fields /\
    py_get (dict_get_default "canonical_schema" (VDict []) s) "fields"
      (VList []) = Ok target_fields /\
    _generate_fallback_mappings detected_fields target_fields =
      Ok (VList mappings) /\
    Forall settled_mapping mappings /\
    s' = dict_set "field_mappings" (VList mappings)
           (dict_set "error"
              (VStr ("Mapping generation failed: " ++ str_exn e)) s).
Proof.
  unfold generate_mappings_except. intros H.
  apply bind_ok in H as ([] & s1 & Hset & H).
  unfold state_set in Hset. injection Hset as <-.
  apply bind_ok in H as (incoming & s1 & Hinc & H).
  unfold state_getitem, dict_getitem in Hinc.
  rewrite dict_get_set_other in Hinc by discriminate.
  destruct (dict_get "incoming_schema" s) as [incoming'|] eqn:Hget;
    [|discriminate].
  injection Hinc as <- <-.
  apply bind_ok in H as (detected & s1 & Hdet & H).
  apply lift_ok in Hdet as [Hdet ->].
  apply bind_ok in H as (canonical & s1 & Hcan & H).
  unfold state_get in Hcan. injection Hcan as <- <-.
  rewrite dict_get_default_set in H. cbn [String.eqb Ascii.eqb Bool.eqb] in H.
  apply bind_ok in H as (targets & s1 & Htargets & H).
  apply lift_ok in Htargets as [Htargets ->].
  apply bind_ok in H as (fm & s1 & Hfm & H).
  apply lift_ok in Hfm as [Hfm ->].
  unfold state_set in H. injection H as <-.
  destruct (fallback_mappings_settled _ _ _ Hfm) as (mappings & -> & Hall).
  exists incoming', detected, targets, mappings.
  repeat split; assumption.
Qed.

Section MappingGeneratorOutcomes.

Variable llm : Type.
Variable get_bedrock_llm : Q -> Z -> result llm.
Variable ainvoke : llm -> mapping_prompt -> result string.
Variable json_loads : string -> result value.
Variable re_findall_objects : string -> list string.

Let stage :=
  generate_mappings llm get_bedrock_llm ainvoke json_loads re_findall_objects.
Let try_block :=
  generate_mappings_try llm ainvoke json_loads re_findall_objects.
Let parse := parse_mappings_result json_loads re_findall_objects.

(** The stage runs its guarded block, and its handler after a failure,
    once the client and the prompt are there. *)
Lemma generate_mappings_guarded (state : dict) (client : llm)
  (p : mapping_prompt) :
  mapping_generator_enters get_bedrock_llm state client p ->
  stage state =
    run_stage (try_except (try_block client p) generate_mappings_except) state.
Proof.
  intros (incoming & hash & Hinc & Hhash & Hllm & Hprompt).
  unfold stage, generate_mappings, generate_mappings_body, run_stage, bind,
    state_getitem, state_get, lift, dict_getitem.
  rewrite Hinc, Hhash, Hllm, Hprompt. reflexivity.
Qed.

(** The two ways [generate_mappings] returns. *)
Lemma generate_mappings_returns (state state' : dict) :
  stage state = Ok state' ->
  exists client p,
    mapping_generator_enters get_bedrock_llm state client p /\
    (try_block client p state = (Ok tt, state') \/
     exists e s1,
       try_block client p state = (Raise e, s1) /\
       generate_mappings_except e s1 = (Ok tt, state')).
Proof.
  unfold stage, generate_mappings. intros H. apply run_stage_ok in H.
  unfold generate_mappings_body in H.
  apply bind_ok in H as (incoming & s1 & Hinc & H).
  unfold state_getitem, dict_getitem in Hinc.
  destruct (dict_get "incoming_schema" state) as [incoming'|] eqn:Hget;
    [|discriminate].
  injection Hinc as <- <-.
  apply bind_ok in H as (hash & s1 & Hhash & H).
  apply lift_ok in Hhash as [Hhash ->].
  apply bind_ok in H as (client & s1 & Hllm & H).
  apply lift_ok in Hllm as [Hllm ->].
  apply bind_ok in H as (incoming & s1 & Hinc & H).
  unfold state_getitem, dict_getitem in Hinc. rewrite Hget in Hinc.
  injection Hinc as <- <-.
  apply bind_ok in H as (canonical & s1 & Hcan & H).
  unfold state_get in Hcan. injection Hcan as <- <-.
  apply bind_ok in H as (suggestions & s1 & Hsug & H).
  unfold state_get in Hsug. injection Hsug as <- <-.
  apply bind_ok in H as (analysis & s1 & Hfa & H).
  unfold state_get in Hfa. injection Hfa as <- <-.
  apply bind_ok in H as (p & s1 & Hprompt & H).
  apply lift_ok in Hprompt as [Hprompt ->].
  exists client, p. split.
  - exists incoming', hash. repeat split; assumption.
  - apply try_except_ok in H. exact H.
Qed.

(** X10. Whenever [generate_mappings] returns, the state holds under
    [field_mappings] a list of records, each with a source, a target and
    a confidence and with a transformation among the six valid tags:
    the validated reply of the model after "mapping_generation_completed"
    was recorded, the fallback mappings after a failure. *)
Theorem generate_mappings_settled_mappings :
  forall state state' : dict,
    stage state = Ok state' ->
    exists mappings : list value,
      dict_get "field_mappings" state' = Some (VList mappings) /\
      Forall settled_mapping mappings.
Proof.
  intros state state' H.
  apply generate_mappings_returns in H
    as (client & p & _ & [Htry | (e & s1 & _ & Hexcept)]).
  - unfold try_block, generate_mappings_try in Htry.
    apply bind_ok in Htry as (content & s1 & _ & Htry).
    apply bind_ok in Htry as (mappings_result & s2 & _ & Htry).
    apply record_mappings_ok in Htry
      as (candidates & validated & history & _ & _ & Hall & _ & ->).
    exists validated. split; [|exact Hall].
    rewrite dict_get_set_other by discriminate. apply dict_get_set_same.
  - apply generate_mappings_except_ok in Hexcept
      as (incoming & detected & targets & mappings & _ & _ & _ & _ & Hall
          & ->).
    exists mappings. split; [|exact Hall]. apply dict_get_set_same.
Qed.

(** X11. When one of the slots [canonical_schema],
    [normalization_suggestions], [field_analysis] still holds [None], as
    the entry point initialises them and as a failed earlier stage
    leaves them, [generate_mappings] raises while it builds its prompt,
    before its guarded block: no fallback mappings are produced. *)
Theorem generate_mappings_unfilled_slot :
  forall (state incoming_schema : dict) (hash detected_fields sample : value)
         (client : llm),
    dict_get "incoming_schema" state = Some (VDict incoming_schema) ->
    dict_get "hash" incoming_schema = Some hash ->
    dict_get "detected_fields" incoming_schema = Some detected_fields ->
    py_slice_to 3 (dict_get_default "sample_data" (VList []) incoming_schema)
      = Ok sample ->
    get_bedrock_llm float_0_1 8192 = Ok client ->
    (forall k, In k mapping_prompt_slots ->
               none_or_record (dict_get_default k (VDict []) state)) ->
    (exists k, In k mapping_prompt_slots /\ dict_get k state = Some VNone) ->
    stage state = Raise (AttributeError "NoneType" "get").
Proof.
  intros state incoming hash detected sample client Hinc Hhash Hdet Hsample
    Hllm Hslots (k & Hk & Hnone).
  unfold stage, generate_mappings, generate_mappings_body, run_stage, bind,
    state_getitem, state_get, lift, dict_getitem.
  rewrite Hinc. cbn [py_getitem]. unfold dict_getitem.
  rewrite Hhash, Hllm. unfold _build_mapping_prompt.
  cbn [py_getitem py_get rbind]. unfold dict_getitem.
  rewrite Hdet. cbn [rbind]. rewrite Hsample. cbn [rbind].
  pose proof (Hslots "canonical_schema" (or_introl eq_refl)) as Hcan.
  pose proof (Hslots "normalization_suggestions"
                (or_intror (or_introl eq_refl))) as Hsug.
  pose proof (Hslots "field_analysis"
                (or_intror (or_intror (or_introl eq_refl)))) as Hfa.
  assert (Hone :
            dict_get_default "canonical_schema" (VDict []) state = VNone \/
            dict_get_default "normalization_suggestions" (VDict []) state
              = VNone \/
            dict_get_default "field_analysis" (VDict []) state = VNone).
  { unfold dict_get_default.
    destruct Hk as [<-|[<-|[<-|[]]]]; rewrite Hnone; tauto. }
  destruct (dict_get_default "normalization_suggestions" (VDict []) state)
    as [| | | | | |suggestions]; try contradiction; [reflexivity|].
  cbn [py_get rbind].
  destruct (dict_get_default "canonical_schema" (VDict []) state)
    as [| | | | | |canonical]; try contradiction; [reflexivity|].
  cbn [py_get rbind].
  destruct (dict_get_default "field_analysis" (VDict []) state)
    as [| | | | | |analysis]; try contradiction; [reflexivity|].
  destruct Hone as [H|[H|H]]; discriminate H.
Qed.

(** X12. When the model call fails, or its reply parses to something
    the validation pass cannot work on, the stage records
    "Mapping generation failed: <cause>" under [error] and stores the
    fallback mappings computed from the detected fields and the target
    fields its prompt was built from; nothing is added to the history.
    When the fallback computation raises in its turn, so does the
    stage. *)
Theorem generate_mappings_failure :
  forall (state : dict) (client : llm)
         (detected_fields sample target_fields transformations
            composite_fields : value) (e : exn),
    let p := MappingPrompt detected_fields sample target_fields
               transformations composite_fields in
    mapping_generator_enters get_bedrock_llm state client p ->
    (ainvoke client p = Raise e \/
     exists content mappings_result,
       ainvoke client p = Ok content /\
       parse content = Ok mappings_result /\
       validated_reply mappings_result = Raise e) ->
    stage state =
      let? fallback :=
        _generate_fallback_mappings detected_fields target_fields in
      Ok (dict_set "field_mappings" fallback
            (dict_set "error"
               (VStr ("Mapping generation failed: " ++ str_exn e)) state)).
Proof.
  intros state client detected sample targets transformations composite e p
    Henters Hfails.
  rewrite (generate_mappings_guarded _ _ _ Henters).
  destruct Henters as (incoming & hash & Hinc & Hhash & Hllm & Hprompt).
  assert (Htry : try_block client p state = (Raise e, state)).
  { unfold try_block, generate_mappings_try, bind, lift.
    destruct Hfails as [-> | (content & r & -> & Hparse & Hval)];
      [reflexivity|].
    fold parse. rewrite Hparse.
    unfold validated_reply in Hval. unfold record_mappings, bind, lift.
    destruct (py_get r "field_mappings" (VList [])) as [candidates|e'];
      cbn [rbind] in Hval.
    - rewrite Hval. reflexivity.
    - injection Hval as ->. reflexivity. }
  unfold run_stage, try_except. rewrite Htry.
  unfold _build_mapping_prompt in Hprompt.
  destruct (py_get (dict_get_default "normalization_suggestions" _ _) _ _)
    as [tr|]; cbn [rbind] in Hprompt; [|discriminate].
  destruct (py_getitem incoming "detected_fields") as [detected'|] eqn:Hdet;
    cbn [rbind] in Hprompt; [|discriminate].
  destruct (py_get incoming "sample_data" (VList [])) as [sd|];
    cbn [rbind] in Hprompt; [|discriminate].
  destruct (py_slice_to 3 sd) as [sd'|]; cbn [rbind] in Hprompt;
    [|discriminate].
  destruct (py_get (dict_get_default "canonical_schema" _ _) _ _)
    as [targets'|] eqn:Htargets; cbn [rbind] in Hprompt; [|discriminate].
  destruct (py_get (dict_get_default "field_analysis" _ _) _ _)
    as [cf|]; cbn [rbind] in Hprompt; [|discriminate].
  injection Hprompt as -> -> -> -> ->.
  unfold generate_mappings_except, bind, state_set, state_getitem, state_get,
    lift, dict_getitem.
  rewrite dict_get_set_other by discriminate. rewrite Hinc, Hdet.
  rewrite dict_get_default_set. cbn [String.eqb Ascii.eqb Bool.eqb].
  rewrite Htargets.
  destruct (_generate_fallback_mappings detected targets); reflexivity.
Qed.

(** X13. A reply that is not JSON, none of whose brace-delimited spans
    parses to something holding "field_mappings", is not a failure of
    the stage: it stores an empty list of mappings, records
    "mapping_generation_completed" and leaves [error] as it was. *)
Theorem generate_mappings_unparseable_reply :
  forall (state : dict) (client : llm) (p : mapping_prompt)
         (content msg : string) (history : list value),
    mapping_generator_enters get_bedrock_llm state client p ->
    ainvoke client p = Ok content ->
    json_loads content = Raise (JSONDecodeError msg) ->
    (forall span v,
        In span (re_findall_objects content) ->
        json_loads span = Ok v ->
        py_contains "field_mappings" v <> Ok true) ->
    dict_get "processing_history" state = Some (VList history) ->
    stage state =
      Ok (dict_set "processing_history"
            (VList (history ++ [VStr "mapping_generation_completed"]))
            (dict_set "field_mappings" (VList []) state)).
Proof.
  intros state client p content msg history Henters Hreply Hdecode Hspans
    Hhist.
  rewrite (generate_mappings_guarded _ _ _ Henters).
  assert (Hfind :
            find_mappings_result json_loads (re_findall_objects content)
              = VNone).
  { induction (re_findall_objects content) as [|span rest IH];
      [reflexivity|].
    cbn [find_mappings_result].
    pose proof (Hspans span) as Hspan.
    destruct (json_loads span) as [v|].
    - specialize (Hspan v (or_introl eq_refl) eq_refl).
      destruct (py_contains "field_mappings" v) as [[|]|];
        [contradiction Hspan; reflexivity| |];
        apply IH; intros span' v' Hin; apply Hspans; right; exact Hin.
    - apply IH. intros span' v' Hin. apply Hspans. right. exact Hin. }
  unfold run_stage, try_except, try_block, generate_mappings_try, bind, lift.
  rewrite Hreply. unfold parse_mappings_result. rewrite Hdecode, Hfind.
  cbn [truthy negb]. cbv beta iota.
  unfold record_mappings, bind, lift, default_mappings_result.
  cbn [py_get dict_get_default dict_get String.eqb Ascii.eqb Bool.eqb].
  cbn [_validate_mappings py_iter rbind validate_loop].
  unfold state_set, state_append.
  rewrite dict_get_set_other by discriminate. rewrite Hhist. reflexivity.
Qed.

(** X14. Whenever [generate_mappings] returns, every key of the state
    other than [field_mappings], [processing_history] and [error] holds
    what it held before: the stage never touches the canonical schema,
    the action or the match results. *)
Theorem generate_mappings_frame :
  forall (state state' : dict) (k : string),
    stage state = Ok state' ->
    k <> "field_mappings" -> k <> "processing_history" -> k <> "error" ->
    dict_get k state' = dict_get k state.
Proof.
  intros state state' k H H1 H2 H3.
  apply (keeps_run_stage k _ _ _) in H; [exact H|].
  unfold generate_mappings_body, generate_mappings_try, record_mappings,
    generate_mappings_except.
  frame_tac.
Qed.

End MappingGeneratorOutcomes.

Lemma sample_mapping_generator_enters :
  mapping_generator_enters Sample.get_llm MappingSample.normalized_state tt
    MappingSample.mapping_request.
Proof.
  exists Sample.incoming_schema, (VStr "9f86d081884c7d65").
  repeat split; reflexivity.
Defined.

Lemma generate_mappings_settled_mappings_witness :
  let run :=
    generate_mappings unit Sample.get_llm MappingSample.replies
      (Sample.parses_to MappingSample.generated) MappingSample.no_spans in
  let state' :=
    match run MappingSample.normalized_state with
    | Ok s => s
    | Raise _ => []
    end in
  run MappingSample.normalized_state = Ok state' /\
  exists mappings : list value,
    dict_get "field_mappings" state' = Some (VList mappings) /\
    Forall settled_mapping mappings.
Proof.
  intros run state'.
  assert (H : run MappingSample.normalized_state = Ok state')
    by (vm_compute; reflexivity).
  split; [exact H|].
  exact (generate_mappings_settled_mappings unit Sample.get_llm
           MappingSample.replies (Sample.parses_to MappingSample.generated)
           MappingSample.no_spans MappingSample.normalized_state state' H).
Defined.

Lemma generate_mappings_unfilled_slot_witness :
  dict_get "error" MappingSample.failed_state =
    Some (VStr "Schema normalization failed: Read timeout on endpoint") /\
  dict_get "normalization_suggestions" MappingSample.failed_state =
    Some VNone /\
  generate_mappings unit Sample.get_llm MappingSample.replies
    (Sample.parses_to MappingSample.generated) MappingSample.no_spans
    MappingSample.failed_state =
  Raise (AttributeError "NoneType" "get").
Proof.
  split; [reflexivity|]. split; [reflexivity|].
  apply (generate_mappings_unfilled_slot unit Sample.get_llm
           MappingSample.replies (Sample.parses_to MappingSample.generated)
           MappingSample.no_spans MappingSample.failed_state
           _ (VStr "9f86d081884c7d65") _ _ tt
           eq_refl eq_refl eq_refl eq_refl eq_refl).
  - intros k [<-|[<-|[<-|[]]]]; exact I.
  - exists "normalization_suggestions". split; [|reflexivity].
    right. left. reflexivity.
Defined.

Lemma generate_mappings_failure_witness :
  mapping_generator_enters Sample.get_llm MappingSample.normalized_state tt
    MappingSample.mapping_request /\
  generate_mappings unit Sample.get_llm MappingSample.times_out
    (Sample.parses_to MappingSample.generated) MappingSample.no_spans
    MappingSample.normalized_state =
  Ok (dict_set "field_mappings"
        (VList [make_mapping (VStr "") (VStr "first_name") "constant"
                  (VStr "null") float_0_5 "No matching source field found";
                make_mapping (VStr "") (VStr "last_name") "constant"
                  (VStr "null") float_0_5 "No matching source field found";
                make_mapping (VStr "email") (VStr "email") "direct"
                  (VStr "email") float_0_9 "Direct field name match"])
        (dict_set "error"
           (VStr "Mapping generation failed: Read timeout on endpoint")
           MappingSample.normalized_state)).
Proof.
  split; [exact sample_mapping_generator_enters|].
  exact (generate_mappings_failure unit Sample.get_llm
           MappingSample.times_out (Sample.parses_to MappingSample.generated)
           MappingSample.no_spans MappingSample.normalized_state tt
           _ _ _ _ _ (OtherError "Read timeout on endpoint")
           sample_mapping_generator_enters (or_introl eq_refl)).
Defined.

Lemma generate_mappings_unparseable_reply_witness :
  mapping_generator_enters Sample.get_llm MappingSample.normalized_state tt
    MappingSample.mapping_request /\
  generate_mappings unit Sample.get_llm MappingSample.replies
    Scenario.rejects MappingSample.no_spans MappingSample.normalized_state =
  Ok (dict_set "processing_history"
        (VList [VStr "entity_matching_skipped";
                VStr "normalization_completed";
                VStr "mapping_generation_completed"])
        (dict_set "field_mappings" (VList [])
           MappingSample.normalized_state)).
Proof.
  split; [exact sample_mapping_generator_enters|].
  apply (generate_mappings_unparseable_reply unit Sample.get_llm
           MappingSample.replies Scenario.rejects MappingSample.no_spans
           MappingSample.normalized_state tt MappingSample.mapping_request
           "reply" "Expecting value: line 1 column 1 (char 0)"
           [VStr "entity_matching_skipped"; VStr "normalization_completed"]
           sample_mapping_generator_enters eq_refl eq_refl).
  - intros span v [].
  - reflexivity.
Defined.

Lemma generate_mappings_frame_witness :
  let run :=
    generate_mappings unit Sample.get_llm MappingSample.times_out
      (Sample.parses_to MappingSample.generated) MappingSample.no_spans in
  let state' :=
    match run MappingSample.normalized_state with
    | Ok s => s
    | Raise _ => []
    end in
  run MappingSample.normalized_state = Ok state' /\
  dict_get "canonical_schema" state' =
    dict_get "canonical_schema" MappingSample.normalized_state.
Proof.
  intros run state'.
  assert (H : run MappingSample.normalized_state = Ok state')
    by (vm_compute; reflexivity).
  split; [exact H|].
  apply (generate_mappings_frame unit Sample.get_llm MappingSample.times_out
           (Sample.parses_to MappingSample.generated) MappingSample.no_spans
           MappingSample.normalized_state state' "canonical_schema" H);
    discriminate.
Defined.

(** ** Mapping generator: validating twice *)

Ltac mem_simpl_in_all :=
  repeat match goal with
         | H : context [dict_mem _ (dict_set _ _ _)] |- _ =>
             rewrite dict_mem_set in H;
             cbn [String.eqb Ascii.eqb Bool.eqb orb andb negb] in H
         | H : context [dict_get_default _ _ (dict_set _ _ _)] |- _ =>
             rewrite dict_get_default_set in H;
             cbn [String.eqb Ascii.eqb Bool.eqb orb andb negb] in H
         end.

Lemma repair_mapping_transformation (tag : string) (d : dict) :
  dict_get "transformation" (repair_mapping tag d) = Some (VStr tag).
Proof.
  unfold repair_mapping.
  repeat match goal with
         | |- context [if ?b then _ else _] => destruct b
         end;
    dict_simpl; reflexivity.
Qed.

Lemma repair_mapping_target (tag : string) (d : dict) :
  dict_get "target_field" (repair_mapping tag d) = dict_get "target_field" d.
Proof.
  unfold repair_mapping.
  repeat match goal with
         | |- context [if ?b then _ else _] => destruct b
         end;
    dict_simpl; reflexivity.
Qed.

Lemma repair_mapping_fixed (tag : string) (d : dict) :
  repair_mapping tag (repair_mapping tag d) = repair_mapping tag d.
Proof.
  pose proof (repair_mapping_transformation tag d) as Htag.
  set (d' := repair_mapping tag d) in *.
  assert (Hconfidence : dict_mem "confidence" d' = true).
  { subst d'. unfold repair_mapping.
    repeat match goal with
           | |- context [if ?b then _ else _] => destruct b eqn:?
           end;
      mem_simpl_in_all; dict_simpl; try reflexivity; assumption. }
  assert (Hsource : dict_mem "source_field" d' = true).
  { subst d'. unfold repair_mapping.
    repeat match goal with
           | |- context [if ?b then _ else _] => destruct b eqn:?
           end;
      mem_simpl_in_all; dict_simpl; try reflexivity; assumption. }
  assert (Hformula :
            negb (dict_mem "jsonata_formula" d')
            || negb (truthy (dict_get_default "jsonata_formula" VNone d'))
            = true ->
            py_eq (VStr tag) (VStr "direct")
            && truthy (dict_get_default "source_field" VNone d') = false /\
            py_eq (VStr tag) (VStr "constant") = false).
  { subst d'. unfold repair_mapping.
    repeat match goal with
           | |- context [if ?b then _ else _] => destruct b eqn:?
           end;
      mem_simpl_in_all; dict_simpl.
    all: destruct (py_eq (VStr tag) (VStr "direct"));
      destruct (py_eq (VStr tag) (VStr "constant"));
      destruct (truthy (dict_get_default "source_field" VNone d));
      cbn in *; try discriminate; try (intros _; split; reflexivity);
      try (intros H; congruence).
  }
  unfold repair_mapping.
  rewrite (dict_set_same_value _ _ _ Htag), Hconfidence.
  replace (dict_get_default "transformation" VNone d') with (VStr tag)
    by (unfold dict_get_default; rewrite Htag; reflexivity).
  destruct (negb (dict_mem "jsonata_formula" d')
            || negb (truthy (dict_get_default "jsonata_formula" VNone d'))).
  - destruct (Hformula eq_refl) as [-> ->]. rewrite Hsource. reflexivity.
  - rewrite Hsource. reflexivity.
Qed.

Lemma lower_valid_tag (tag : string) :
  In tag VALID_TRANSFORMATIONS -> normalize_transformation (lower tag) = tag.
Proof.
  intros [<-|[<-|[<-|[<-|[<-|[<-|[]]]]]]]; reflexivity.
Qed.

Lemma validate_mapping_kept_fixed (m m' : value) :
  validate_mapping m = Ok (Some m') -> validate_mapping m' = Ok (Some m').
Proof.
  destruct m as [| | | | | |d]; try discriminate.
  unfold validate_mapping at 1. cbn [py_get rbind].
  unfold dict_get_default at 1.
  destruct (dict_get "target_field" d) as [target|] eqn:Htarget;
    [|discriminate].
  destruct (truthy target) eqn:Htrue; cbn [negb]; cbv beta iota;
    [|discriminate].
  destruct (py_lower _) as [tag|]; cbn [rbind]; [|discriminate].
  intros H. injection H as <-.
  pose proof (valid_tag_normalized tag) as Hvalid.
  set (tag' := normalize_transformation tag) in *.
  unfold validate_mapping. cbn [py_get rbind]. unfold dict_get_default.
  rewrite repair_mapping_target, Htarget, Htrue.
  cbn [negb]. cbv beta iota.
  rewrite repair_mapping_transformation. cbn [py_lower rbind].
  rewrite (lower_valid_tag _ Hvalid), repair_mapping_fixed. reflexivity.
Qed.

Lemma validate_loop_fixed (mappings validated : list value) :
  validate_loop mappings = Ok validated ->
  validate_loop validated = Ok validated.
Proof.
  revert validated.
  induction mappings as [|m rest IH]; intros validated; cbn [validate_loop].
  - intros H. injection H as <-. reflexivity.
  - destruct (validate_mapping m) as [[m'|]|] eqn:Hm; cbn [rbind];
      [| |discriminate];
      (destruct (validate_loop rest) as [tail|]; cbn [rbind];
       [|discriminate]);
      intros H; injection H as <-.
    + cbn [validate_loop].
      rewrite (validate_mapping_kept_fixed _ _ Hm), (IH tail eq_refl).
      reflexivity.
    + apply IH. reflexivity.
Qed.

(** X15. Validation settles what it returns: applied to its own result,
    [_validate_mappings] keeps every mapping and changes none. *)
Theorem validate_mappings_idempotent :
  forall mappings validated : value,
    _validate_mappings mappings = Ok validated ->
    _validate_mappings validated = Ok validated.
Proof.
  intros mappings validated. unfold _validate_mappings at 1.
  destruct (py_iter mappings) as [ms|]; cbn [rbind]; [|discriminate].
  destruct (validate_loop ms) as [vs|] eqn:Hloop; cbn [rbind];
    [|discriminate].
  intros H. injection H as <-.
  unfold _validate_mappings. cbn [py_iter rbind].
  rewrite (validate_loop_fixed _ _ Hloop). reflexivity.
Qed.

Lemma validate_mappings_idempotent_witness :
  let candidates :=
    VList [VDict [("source_field", VStr "full_name");
                  ("target_field", VStr "first_name");
                  ("transformation", VStr "Extract")];
           VDict [("target_field", VStr "email");
                  ("source_field", VStr "email")];
           VDict [("target_field", VStr "source_system");
                  ("transformation", VStr "constant")];
           VDict [("source_field", VStr "legacy_code")]] in
  let validated :=
    VList [VDict [("source_field", VStr "full_name");
                  ("target_field", VStr "first_name");
                  ("transformation", VStr "formula");
                  ("confidence", VFloat float_0_8)];
           VDict [("target_field", VStr "email");
                  ("source_field", VStr "email");
                  ("transformation", VStr "direct");
                  ("confidence", VFloat float_0_8);
                  ("jsonata_formula", VStr "email")];
           VDict [("target_field", VStr "source_system");
                  ("transformation", VStr "constant");
                  ("confidence", VFloat float_0_8);
                  ("jsonata_formula", VStr empty_constant);
                  ("source_field", VStr "")]] in
  _validate_mappings candidates = Ok validated /\
  _validate_mappings validated = Ok validated.
Proof.
  intros candidates validated.
  assert (H : _validate_mappings candidates = Ok validated)
    by (vm_compute; reflexivity).
  split; [exact H|].
  exact (validate_mappings_idempotent candidates validated H).
Defined.

(** ** Field analyzer *)

Section FieldAnalyzerOutcomes.

Variable llm : Type.
Variable get_bedrock_llm : Q -> Z -> result llm.
Variable ainvoke : llm -> field_analysis_prompt -> result string.
Variable json_loads : string -> result value.

Let stage := analyze_fields llm get_bedrock_llm ainvoke json_loads.
Let try_block := analyze_fields_try llm ainvoke json_loads.

Lemma analyze_fields_guarded (state : dict) (client : llm)
  (p : field_analysis_prompt) :
  field_analyzer_enters get_bedrock_llm state client p ->
  stage state =
    run_stage (try_except (try_block client p) analyze_fields_except) state.
Proof.
  intros (incoming & hash & detected & sample & Hinc & Hhash & Hllm & Hdet
          & Hsample & Hprompt).
  unfold stage, analyze_fields, analyze_fields_body, run_stage, bind,
    state_getitem, lift, dict_getitem.
  rewrite Hinc, Hhash, Hllm, Hdet, Hsample, Hprompt. reflexivity.
Qed.

Lemma analyze_fields_try_frame (client : llm) (p : field_analysis_prompt)
  (k : string) :
  k <> "field_analysis" -> k <> "processing_history" ->
  keeps k (try_block client p).
Proof.
  intros H1 H2.
  unfold try_block, analyze_fields_try, record_field_analysis. frame_tac.
Qed.

(** X16. Once its prompt is built, [analyze_fields] always returns.  It
    changes no key but [field_analysis], [processing_history] and
    [error], and either leaves [error] as it was, the parsed reply being
    stored and "field_analysis_completed" recorded, or records
    "Field analysis failed: <cause>". *)
Theorem analyze_fields_outcomes :
  forall (state : dict) (client : llm) (p : field_analysis_prompt),
    field_analyzer_enters get_bedrock_llm state client p ->
    exists state' : dict,
      stage state = Ok state' /\
      (forall k : string,
          k <> "field_analysis" -> k <> "processing_history" ->
          k <> "error" -> dict_get k state' = dict_get k state) /\
      ((exists content reply history,
           ainvoke client p = Ok content /\
           json_loads content = Ok reply /\
           dict_get "processing_history" state = Some (VList history) /\
           state' =
             dict_set "processing_history"
               (VList (history ++ [VStr "field_analysis_completed"]))
               (dict_set "field_analysis" reply state)) \/
       (exists e : exn,
           dict_get "error" state' =
             Some (VStr ("Field analysis failed: " ++ str_exn e)))).
Proof.
  intros state client p Henters.
  rewrite (analyze_fields_guarded _ _ _ Henters).
  unfold run_stage, try_except.
  destruct (try_block client p state) as [[[]|e] s1] eqn:Htry.
  - exists s1. split; [reflexivity|]. split.
    + intros k H1 H2 _.
      exact (analyze_fields_try_frame client p k H1 H2 _ _ _ Htry).
    + left. unfold try_block, analyze_fields_try in Htry.
      apply bind_ok in Htry as (content & s2 & Hreply & Htry).
      apply lift_ok in Hreply as [Hreply ->].
      apply bind_ok in Htry as (reply & s2 & Hparse & Htry).
      apply lift_ok in Hparse as [Hparse ->].
      unfold record_field_analysis in Htry.
      apply bind_ok in Htry as ([] & s2 & Hset & Htry).
      unfold state_set in Hset. injection Hset as <-.
      apply bind_ok in Htry as ([] & s2 & Happend & Htry).
      apply state_append_ok in Happend as (history & Hhist & ->).
      rewrite dict_get_set_other in Hhist by discriminate.
      apply bind_ok in Htry as (composite & s2 & Hcomp & Htry).
      apply lift_ok in Hcomp as [_ ->].
      apply bind_ok in Htry as (n & s2 & Hlen & Htry).
      apply lift_ok in Hlen as [_ ->].
      unfold ret in Htry. injection Htry as <-.
      exists content, reply, history. repeat split; assumption.
  - unfold analyze_fields_except, state_set.
    eexists. split; [reflexivity|]. split.
    + intros k H1 H2 H3. rewrite dict_get_set_other by exact H3.
      exact (analyze_fields_try_frame client p k H1 H2 _ _ _ Htry).
    + right. exists e. apply dict_get_set_same.
Qed.

(** X17. A reply that parses to something other than a record is stored
    under [field_analysis] and "field_analysis_completed" is recorded
    before the stage fails on it: the state returned carries the
    completion tag and the error at once. *)
Theorem analyze_fields_reply_not_record :
  forall (state : dict) (client : llm) (p : field_analysis_prompt)
         (content : string) (reply : value) (history : list value),
    field_analyzer_enters get_bedrock_llm state client p ->
    ainvoke client p = Ok content ->
    json_loads content = Ok reply ->
    (forall d, reply <> VDict d) ->
    dict_get "processing_history" state = Some (VList history) ->
    stage state =
      Ok (dict_set "error"
            (VStr ("Field analysis failed: '" ++ type_name reply
                   ++ "' object has no attribute 'get'"))
            (dict_set "processing_history"
               (VList (history ++ [VStr "field_analysis_completed"]))
               (dict_set "field_analysis" reply state))).
Proof.
  intros state client p content reply history Henters Hreply Hparse Hrecord
    Hhist.
  rewrite (analyze_fields_guarded _ _ _ Henters).
  unfold run_stage, try_except, try_block, analyze_fields_try, bind, lift.
  rewrite Hreply, Hparse.
  unfold record_field_analysis, bind, state_set, state_append, lift.
  rewrite dict_get_set_other by discriminate. rewrite Hhist.
  destruct reply as [| | | | | |d]; try reflexivity.
  contradiction (Hrecord d). reflexivity.
Qed.

End FieldAnalyzerOutcomes.

Lemma sample_field_analyzer_enters :
  field_analyzer_enters Sample.get_llm (Sample.initial_state []) tt
    FieldSample.analysis_request.
Proof.
  exists Sample.incoming_schema, (VStr "9f86d081884c7d65").
  do 2 eexists. repeat split; reflexivity.
Defined.

Lemma analyze_fields_outcomes_witness :
  field_analyzer_enters Sample.get_llm (Sample.initial_state []) tt
    FieldSample.analysis_request /\
  exists state' : dict,
    analyze_fields unit Sample.get_llm FieldSample.replies
      (Sample.parses_to MappingSample.field_analysis)
      (Sample.initial_state []) = Ok state' /\
    dict_get "existing_entities" state' = Some (VList []).
Proof.
  split; [exact sample_field_analyzer_enters|].
  destruct (analyze_fields_outcomes unit Sample.get_llm FieldSample.replies
              (Sample.parses_to MappingSample.field_analysis)
              (Sample.initial_state []) tt FieldSample.analysis_request
              sample_field_analyzer_enters)
    as (state' & Hrun & Hframe & _).
  exists state'. split; [exact Hrun|].
  rewrite Hframe by discriminate. reflexivity.
Defined.

Lemma analyze_fields_reply_not_record_witness :
  field_analyzer_enters Sample.get_llm (Sample.initial_state []) tt
    FieldSample.analysis_request /\
  analyze_fields unit Sample.get_llm FieldSample.replies
    (Sample.parses_to FieldSample.listed_analysis) (Sample.initial_state []) =
  Ok (dict_set "error"
        (VStr "Field analysis failed: 'list' object has no attribute 'get'")
        (dict_set "processing_history"
           (VList [VStr "field_analysis_completed"])
           (dict_set "field_analysis" FieldSample.listed_analysis
              (Sample.initial_state [])))).
Proof.
  split; [exact sample_field_analyzer_enters|].
  apply (analyze_fields_reply_not_record unit Sample.get_llm
           FieldSample.replies (Sample.parses_to FieldSample.listed_analysis)
           (Sample.initial_state []) tt FieldSample.analysis_request
           "reply" FieldSample.listed_analysis []
           sample_field_analyzer_enters eq_refl eq_refl).
  - intros d. discriminate.
  - reflexivity.
Defined.

(** ** Response assembly: the error response *)

Lemma error_field_aligned (field : value) :
  detected_field field ->
  exists definition mapping,
    error_field field = Ok (definition, mapping) /\
    synthesized_from field definition /\ self_mapped field mapping.
Proof.
  intros (d & name & type & -> & Hname & Htype).
  unfold error_field. cbn [py_getitem py_get]. unfold dict_getitem.
  rewrite Hname, Htype. cbn [rbind].
  do 2 eexists. split; [reflexivity|]. split.
  - exists d, name, type. repeat split; assumption.
  - exists d, name. repeat split. exact Hname.
Qed.

Lemma error_fields_aligned (detected_fields : list value) :
  Forall detected_field detected_fields ->
  exists pairs,
    map_result error_field detected_fields = Ok pairs /\
    Forall2 synthesized_from detected_fields (map fst pairs) /\
    Forall2 self_mapped detected_fields (map snd pairs).
Proof.
  induction 1 as [|field rest Hfield _ (pairs & Hpairs & Hfst & Hsnd)].
  - exists []. repeat split; constructor.
  - destruct (error_field_aligned field Hfield)
      as (definition & mapping & Hpair & Hdef & Hmap).
    exists ((definition, mapping) :: pairs). cbn [map_result].
    rewrite Hpair, Hpairs. cbn [rbind map fst snd].
    repeat split; constructor; assumption.
Qed.

Lemma create_error_response_ok (state incoming_schema : dict) (name : value)
  (detected_fields : list value) (error : string) :
  dict_get "incoming_schema" state = Some (VDict incoming_schema) ->
  dict_get "name" incoming_schema = Some name ->
  dict_get "detected_fields" incoming_schema = Some (VList detected_fields) ->
  Forall detected_field detected_fields ->
  exists response : dict,
    _create_error_response state error = Ok response /\
    error_response_for detected_fields name error response.
Proof.
  intros Hinc Hname Hdet Hfields. rename incoming_schema into incoming.
  rename detected_fields into detected.
  destruct (error_fields_aligned detected Hfields)
    as (pairs & Hpairs & Hfst & Hsnd).
  unfold _create_error_response, dict_getitem. rewrite Hinc.
  cbn [rbind py_getitem]. unfold dict_getitem. rewrite Hdet, Hname.
  cbn [rbind py_iter]. rewrite Hpairs. cbn [rbind].
  eexists. split; [reflexivity|].
  exists (map fst pairs), (map snd pairs). repeat split; assumption.
Qed.

(** X18. For an incoming schema with a name whose detected fields are
    records with a name and a type, [_create_error_response] returns the
    fallback response: action "create_new", no entity id and no score,
    the cause in the reasoning, and, in the order of the detected
    fields, one field definition and one direct mapping of the field
    onto itself for each of them. *)
Theorem create_error_response_aligned :
  forall (state incoming_schema : dict) (name : value)
         (detected_fields : list value) (error : string),
    dict_get "incoming_schema" state = Some (VDict incoming_schema) ->
    dict_get "name" incoming_schema = Some name ->
    dict_get "detected_fields" incoming_schema =
      Some (VList detected_fields) ->
    Forall detected_field detected_fields ->
    exists response : dict,
      _create_error_response state error = Ok response /\
      error_response_for detected_fields name error response.
Proof.
  intros state incoming name detected error.
  apply create_error_response_ok.
Qed.

Lemma error_response_keys (detected_fields : list value) (name : value)
  (error : string) (response : dict) :
  error_response_for detected_fields name error response ->
  (forall k, In k response_keys -> dict_mem k response = true) /\
  exists mappings, dict_get "field_mappings" response = Some (VList mappings).
Proof.
  intros (fields & mappings & -> & _ & _). split.
  - intros k Hk. cbn [response_keys In] in Hk.
    repeat (destruct Hk as [<-|Hk]; [reflexivity|]). contradiction.
  - exists mappings. reflexivity.
Qed.

Lemma create_error_response_aligned_witness :
  exists response : dict,
    _create_error_response (Sample.initial_state [])
      "Read timeout on endpoint" = Ok response /\
    error_response_for
      [Sample.text_field "full_name"; Sample.text_field "email"]
      (VStr "contacts_import") "Read timeout on endpoint" response.
Proof.
  apply (create_error_response_aligned (Sample.initial_state []) _
           (VStr "contacts_import")
           [Sample.text_field "full_name"; Sample.text_field "email"]
           "Read timeout on endpoint" eq_refl eq_refl eq_refl).
  repeat constructor; do 3 eexists; repeat split.
Defined.

(** ** Response assembly: what validation guarantees *)

Lemma dict_mem_set_keeps (k k' : string) (v : value) (d : dict) :
  dict_mem k d = true -> dict_mem k (dict_set k' v d) = true.
Proof. intros H. rewrite dict_mem_set, H. apply orb_true_r. Qed.

Lemma dict_mem_get (k : string) (d d' : dict) :
  dict_get k d' = dict_get k d -> dict_mem k d' = dict_mem k d.
Proof. unfold dict_mem. intros ->. reflexivity. Qed.

Section ResponseGuarantees.

Variable py_repr : value -> string.

Lemma ensure_canonical_schema_settled (r s ra : dict) :
  ensure_canonical_schema r s = Ok ra ->
  truthy (dict_get_default "canonical_schema" VNone ra) = true.
Proof.
  unfold ensure_canonical_schema.
  destruct (canonical_schema_missing r) as [[|]|] eqn:Hmissing;
    cbn [rbind]; [| |discriminate].
  - unfold replacement_schema, dict_get_default at 1, dict_getitem.
    destruct (dict_get "normalization_suggestions" s) as [suggestions|].
    + destruct suggestions as [| | | | | |d]; try discriminate.
      cbn [py_get py_getitem rbind]. unfold dict_get_default, dict_getitem.
      destruct (dict_get "canonical_schema" d) as [schema|];
        cbn [truthy].
      * destruct (truthy schema) eqn:Htrue.
        -- cbn [rbind]. intros H. injection H as <-.
           rewrite dict_get_set_same. exact Htrue.
        -- destruct (dict_get "incoming_schema" s) as [incoming|];
             cbn [rbind]; [|discriminate].
           destruct (py_getitem incoming "detected_fields"); cbn [rbind];
             [|discriminate].
           destruct (py_iter _); cbn [rbind]; [|discriminate].
           destruct (map_result _ _); cbn [rbind]; [|discriminate].
           intros H. injection H as <-.
           rewrite dict_get_set_same. reflexivity.
      * destruct (dict_get "incoming_schema" s) as [incoming|];
          cbn [rbind]; [|discriminate].
        destruct (py_getitem incoming "detected_fields"); cbn [rbind];
          [|discriminate].
        destruct (py_iter _); cbn [rbind]; [|discriminate].
        destruct (map_result _ _); cbn [rbind]; [|discriminate].
        intros H. injection H as <-.
        rewrite dict_get_set_same. reflexivity.
    + cbn [py_get dict_get_default dict_get rbind truthy].
      destruct (dict_get "incoming_schema" s) as [incoming|];
        cbn [rbind]; [|discriminate].
      destruct (py_getitem incoming "detected_fields"); cbn [rbind];
        [|discriminate].
      destruct (py_iter _); cbn [rbind]; [|discriminate].
      destruct (map_result _ _); cbn [rbind]; [|discriminate].
      intros H. injection H as <-.
      unfold dict_get_default. rewrite dict_get_set_same. reflexivity.
  - intros H. injection H as <-.
    unfold canonical_schema_missing in Hmissing.
    destruct (truthy (dict_get_default "canonical_schema" VNone r));
      [reflexivity|discriminate Hmissing].
Qed.

(** X19. Whenever [_validate_response] returns, the response has a
    canonical schema, a source schema name, an entity name and a
    reasoning that are all non-empty, and its field mappings are a list;
    every other attribute, [action], [entity_id] and [similarity_score]
    among them, is the candidate's, so that an action that is [None]
    stays [None]. *)
Theorem validate_response_guarantees :
  forall response state response' : dict,
    _validate_response py_repr response state = Ok response' ->
    (forall k : string,
        In k ["canonical_schema"; "source_schema_name"; "entity_name";
              "reasoning"] ->
        truthy (dict_get_default k VNone response') = true) /\
    (exists mappings : list value,
        dict_get "field_mappings" response' = Some (VList mappings)) /\
    (forall k : string,
        ~ In k ["canonical_schema"; "field_mappings"; "source_schema_name";
                "entity_name"; "reasoning"] ->
        dict_get k response' = dict_get k response).
Proof.
  intros r s r' H.
  pose proof (validate_response_field_mappings_shape py_repr _ _ _ H)
    as Hmappings.
  apply validate_response_inv in H as (ra & rb & Ha & Hb & Hc).
  destruct (ensure_field_mappings_ok ra) as (rb' & Hb' & _ & Hother).
  rewrite Hb in Hb'. injection Hb' as <-.
  destruct (ensure_text_defaults_settled py_repr _ _ _ Hc)
    as (Hsource & Hentity & Hreason).
  split; [|split].
  - intros k [<-|[<-|[<-|[<-|[]]]]]; try assumption.
    unfold dict_get_default.
    rewrite (ensure_text_defaults_other py_repr _ _ _ "canonical_schema" Hc)
      by discriminate.
    rewrite Hother by discriminate.
    exact (ensure_canonical_schema_settled _ _ _ Ha).
  - eexists. exact Hmappings.
  - intros k Hk. cbn [In] in Hk.
    rewrite (ensure_text_defaults_other py_repr _ _ _ k Hc)
      by (intros ->; tauto).
    rewrite Hother by (intros ->; tauto).
    apply (ensure_canonical_schema_other _ _ _ k Ha). intros ->. tauto.
Qed.

Lemma validate_response_keeps_keys (response state response' : dict)
  (k : string) :
  _validate_response py_repr response state = Ok response' ->
  dict_mem k response = true -> dict_mem k response' = true.
Proof.
  intros H Hk.
  apply validate_response_inv in H as (ra & rb & Ha & Hb & Hc).
  assert (Hka : dict_mem k ra = true).
  { unfold ensure_canonical_schema in Ha.
    destruct (canonical_schema_missing response) as [[|]|];
      cbn [rbind] in Ha; [| |discriminate].
    - destruct (replacement_schema state); cbn [rbind] in Ha;
        [|discriminate].
      injection Ha as <-. apply dict_mem_set_keeps. exact Hk.
    - injection Ha as <-. exact Hk. }
  assert (Hkb : dict_mem k rb = true).
  { unfold ensure_field_mappings in Hb.
    destruct (dict_getitem _ _) as [mappings|]; cbn [rbind] in Hb;
      [|discriminate].
    destruct (py_iter mappings); cbn [rbind] in Hb; [|discriminate].
    injection Hb as <-. apply dict_mem_set_keeps.
    destruct (is_list _); [exact Hka|].
    apply dict_mem_set_keeps. exact Hka. }
  unfold ensure_text_defaults in Hc.
  destruct (negb (truthy (dict_get_default "source_schema_name" VNone rb))).
  - destruct (dict_getitem "incoming_schema" state) as [incoming|];
      [|discriminate].
    cbn [rbind] in Hc.
    destruct (py_getitem incoming "hash") as [hash|]; [|discriminate].
    cbn [rbind] in Hc.
    destruct (py_slice_to 8 hash) as [prefix|]; [|discriminate].
    cbn [rbind] in Hc. injection Hc as <-.
    repeat match goal with
           | |- context [if ?b then _ else _] => destruct b
           end;
      repeat apply dict_mem_set_keeps; exact Hkb.
  - cbn [rbind] in Hc. injection Hc as <-.
    repeat match goal with
           | |- context [if ?b then _ else _] => destruct b
           end;
      repeat apply dict_mem_set_keeps; exact Hkb.
Qed.

End ResponseGuarantees.

Lemma validate_response_guarantees_witness :
  let state :=
    dict_set "normalization_suggestions" (VDict [])
      (Sample.initial_state []) in
  let candidate :=
    [("action", VNone);
     ("entity_id", VNone);
     ("entity_name", VNone);
     ("source_schema_name", VNone);
     ("similarity_score", VNone);
     ("reasoning", VNone);
     ("canonical_schema", VNone);
     ("field_mappings", VNone)] in
  exists response : dict,
    _validate_response Sample.repr candidate state = Ok response /\
    dict_get "action" response = Some VNone /\
    dict_get "entity_name" response = Some (VStr "DataEntity") /\
    truthy (dict_get_default "canonical_schema" VNone response) = true.
Proof.
  intros state candidate.
  destruct (_validate_response Sample.repr candidate state) as [response|]
    eqn:Hrun; [|discriminate Hrun].
  exists response. split; [reflexivity|].
  destruct (validate_response_guarantees Sample.repr candidate state response
              Hrun) as (Htrue & _ & Hother).
  split; [|split].
  - rewrite Hother; [reflexivity|].
    cbn [In]. intros [H|[H|[H|[H|[H|[]]]]]]; discriminate H.
  - injection Hrun as <-. reflexivity.
  - apply Htrue. left. reflexivity.
Defined.

(** ** Response assembly: the stage *)

Lemma keeps_read {A : Type} (k : string) (f : dict -> result A) :
  keeps k (fun s => (f s, s)).
Proof. intros s r s' H. injection H as _ <-. reflexivity. Qed.

Section PrepareResponse.

Variable py_repr : value -> string.

Lemma prepare_response_try_frame (k : string) :
  k <> "final_response" -> k <> "processing_history" ->
  keeps k (prepare_response_try py_repr).
Proof.
  intros H1 H2. unfold prepare_response_try.
  repeat first
    [ apply keeps_state_set; assumption
    | apply keeps_state_append; assumption
    | apply keeps_bind;
      [ first [ apply keeps_state_get | apply keeps_state_getitem
              | apply keeps_lift | apply keeps_read
              | apply keeps_state_set; assumption ]
      | intro ] ].
Qed.

Lemma prepare_response_try_ok (state state' : dict) :
  prepare_response_try py_repr state = (Ok tt, state') ->
  exists (candidate response : dict) (history : list value),
    (forall k, In k response_keys -> dict_mem k candidate = true) /\
    _validate_response py_repr candidate state = Ok response /\
    dict_get "processing_history" state = Some (VList history) /\
    state' =
      dict_set "processing_history"
        (VList (history ++ [VStr "response_prepared"]))
        (dict_set "final_response" (VDict response) state).
Proof.
  unfold prepare_response_try. intros H.
  repeat match type of H with
         | bind (state_get _ _) _ _ = _ =>
             apply bind_ok in H as (? & ? & Hget & H);
             unfold state_get in Hget; injection Hget as <- <-
         end.
  apply bind_ok in H as (incoming & s1 & Hinc & H).
  unfold state_getitem in Hinc.
  destruct (dict_getitem "incoming_schema" state); [|discriminate].
  injection Hinc as <- <-.
  apply bind_ok in H as (name & s1 & Hname & H).
  apply lift_ok in Hname as [_ ->].
  repeat match type of H with
         | bind (state_get _ _) _ _ = _ =>
             apply bind_ok in H as (? & ? & Hget & H);
             unfold state_get in Hget; injection Hget as <- <-
         end.
  apply bind_ok in H as (response & s1 & Hval & H).
  injection Hval as Hval <-.
  destruct (_validate_response py_repr _ state) as [response'|] eqn:Hrun;
    [|discriminate].
  injection Hval as ->.
  apply bind_ok in H as ([] & s1 & Hset & H).
  unfold state_set in Hset. injection Hset as <-.
  apply state_append_ok in H as (history & Hhist & ->).
  rewrite dict_get_set_other in Hhist by discriminate.
  do 2 eexists. exists history.
  split; [|split; [exact Hrun|split; [exact Hhist|reflexivity]]].
  intros k Hk. cbn [response_keys In] in Hk.
  repeat (destruct Hk as [<-|Hk]; [reflexivity|]). contradiction.
Qed.

(** X20. For a state whose incoming schema has a hash, a name and
    detected fields that are records with a name and a type,
    [prepare_response] always returns, and the state it returns holds
    under [final_response] a record with the eight attributes of a
    response, its field mappings being a list: the validated response,
    or the fallback response when assembling or recording it failed.
    No key of the state but [final_response] and [processing_history]
    changes. *)
Theorem prepare_response_final_response :
  forall (state : dict) (incoming_schema : value),
    dict_get "incoming_schema" state = Some incoming_schema ->
    well_formed_schema incoming_schema ->
    exists state' response : dict,
      prepare_response py_repr state = Ok state' /\
      dict_get "final_response" state' = Some (VDict response) /\
      (forall k, In k response_keys -> dict_mem k response = true) /\
      (exists mappings : list value,
          dict_get "field_mappings" response = Some (VList mappings)) /\
      (forall k : string,
          k <> "final_response" -> k <> "processing_history" ->
          dict_get k state' = dict_get k state).
Proof.
  intros state incoming Hinc
    (d & hash & name & detected & -> & Hhash & Hname & Hdet & Hfields).
  unfold prepare_response, run_stage, prepare_response_body.
  unfold bind at 1. unfold state_getitem at 1, dict_getitem. rewrite Hinc.
  unfold bind at 1. unfold lift at 1. cbn [py_getitem]. unfold dict_getitem.
  rewrite Hhash. unfold try_except.
  destruct (prepare_response_try py_repr state) as [[[]|e] s1] eqn:Htry.
  - pose proof Htry as Hframe.
    apply prepare_response_try_ok in Htry
      as (candidate & response & history & Hkeys & Hrun & Hhist & ->).
    exists (dict_set "processing_history"
              (VList (history ++ [VStr "response_prepared"]))
              (dict_set "final_response" (VDict response) state)), response.
    split; [reflexivity|]. split.
    { rewrite dict_get_set_other by discriminate. apply dict_get_set_same. }
    split.
    { intros k Hk.
      apply (validate_response_keeps_keys py_repr _ _ _ k Hrun).
      apply Hkeys. exact Hk. }
    split.
    { eexists.
      exact (validate_response_field_mappings_shape py_repr _ _ _ Hrun). }
    intros k H1 H2. rewrite !dict_get_set_other by assumption. reflexivity.
  - assert (Hinc1 : dict_get "incoming_schema" s1 = Some (VDict d)).
    { rewrite (prepare_response_try_frame "incoming_schema"
                 ltac:(discriminate) ltac:(discriminate) _ _ _ Htry).
      exact Hinc. }
    destruct (create_error_response_ok s1 d name detected (str_exn e)
                Hinc1 Hname Hdet Hfields) as (response & Hresponse & Herr).
    unfold prepare_response_except, bind, state_set. rewrite Hresponse.
    exists (dict_set "final_response" (VDict response) s1), response.
    split; [reflexivity|]. split; [apply dict_get_set_same|].
    destruct (error_response_keys _ _ _ _ Herr) as [Hkeys Hmappings].
    split; [exact Hkeys|]. split; [exact Hmappings|].
    intros k H1 H2. rewrite dict_get_set_other by exact H1.
    exact (prepare_response_try_frame k H1 H2 _ _ _ Htry).
Qed.

End PrepareResponse.

Lemma sample_schema_well_formed : well_formed_schema Sample.incoming_schema.
Proof.
  do 4 eexists. split; [reflexivity|]. repeat (split; [reflexivity|]).
  repeat constructor; do 3 eexists; repeat split.
Defined.

Lemma prepare_response_final_response_witness :
  well_formed_schema Sample.incoming_schema /\
  exists state' response : dict,
    prepare_response Sample.repr MappingSample.normalized_state = Ok state' /\
    dict_get "final_response" state' = Some (VDict response) /\
    dict_mem "action" response = true /\
    dict_get "error" state' = dict_get "error" MappingSample.normalized_state.
Proof.
  split; [exact sample_schema_well_formed|].
  destruct (prepare_response_final_response Sample.repr
              MappingSample.normalized_state Sample.incoming_schema
              eq_refl sample_schema_well_formed)
    as (state' & response & Hrun & Hfinal & Hkeys & _ & Hframe).
  exists state', response. split; [exact Hrun|]. split; [exact Hfinal|].
  split.
  - apply Hkeys. left. reflexivity.
  - apply Hframe; discriminate.
Defined.

(** ** The entry point *)

Lemma create_error_response_action (state response : dict) (error : string) :
  _create_error_response state error = Ok response ->
  dict_get "action" response = Some (VStr "create_new") /\
  (forall k, In k response_keys -> dict_mem k response = true).
Proof.
  unfold _create_error_response.
  destruct (dict_getitem "incoming_schema" state) as [incoming|];
    cbn [rbind]; [|discriminate].
  destruct (py_getitem incoming "detected_fields") as [detected|];
    cbn [rbind]; [|discriminate].
  destruct (py_iter detected) as [fields|]; cbn [rbind]; [|discriminate].
  destruct (map_result error_field fields) as [pairs|]; cbn [rbind];
    [|discriminate].
  destruct (py_getitem incoming "name") as [name|]; cbn [rbind];
    [|discriminate].
  intros H. injection H as <-. split; [reflexivity|].
  intros k Hk. cbn [response_keys In] in Hk.
  repeat (destruct Hk as [<-|Hk]; [reflexivity|]). contradiction.
Qed.

Section EntryPointProperties.

Variable py_repr : value -> string.
Variable graph : Type.
Variable create_schema_analyzer_graph : result graph.
Variable graph_ainvoke : graph -> dict -> value -> result dict.

Let entry :=
  analyze_schema py_repr graph create_schema_analyzer_graph graph_ainvoke.

(** X21. For a request whose incoming schema has a hash, a name and
    detected fields that are records with a name and a type, and whose
    existing entities can be counted, [analyze_schema] always answers
    once the workflow is built; when the run of the workflow raises,
    the answer is the fallback response for the detected fields, with
    the cause in its reasoning. *)
Theorem analyze_schema_always_answers :
  forall (request incoming_schema : dict) (hash name : value)
         (detected_fields : list value) (n : Z) (workflow : graph),
    dict_get "incoming_schema" request = Some (VDict incoming_schema) ->
    dict_get "hash" incoming_schema = Some hash ->
    dict_get "name" incoming_schema = Some name ->
    dict_get "detected_fields" incoming_schema =
      Some (VList detected_fields) ->
    Forall detected_field detected_fields ->
    py_len (dict_get_default "existing_entities" (VList []) request) = Ok n ->
    create_schema_analyzer_graph = Ok workflow ->
    exists (initial : dict) (response : value),
      initial_state request = Ok initial /\
      entry request = Ok response /\
      forall e : exn,
        graph_ainvoke workflow initial hash = Raise e ->
        exists r : dict,
          response = VDict r /\
          error_response_for detected_fields name (str_exn e) r.
Proof.
  intros request incoming hash name detected n workflow Hinc Hhash Hname
    Hdet Hfields Hlen Hgraph.
  assert (Hinit : exists initial, initial_state request = Ok initial).
  { unfold initial_state, dict_getitem. rewrite Hinc. eexists. reflexivity. }
  destruct Hinit as (initial & Hinit). exists initial.
  assert (Herror :
            forall e, exists r,
              _create_error_response [("incoming_schema", VDict incoming)]
                (str_exn e) = Ok r /\
              error_response_for detected name (str_exn e) r).
  { intros e.
    apply (create_error_response_ok _ incoming); [reflexivity|assumption..]. }
  unfold entry, analyze_schema, dict_getitem.
  rewrite Hinc. cbn [rbind py_getitem]. unfold dict_getitem.
  rewrite Hhash. cbn [rbind]. rewrite Hlen, Hgraph, Hinit. cbn [rbind].
  unfold analyze_schema_try, dict_getitem. rewrite Hinc.
  cbn [rbind py_getitem]. unfold dict_getitem. rewrite Hhash. cbn [rbind].
  destruct (graph_ainvoke workflow initial hash) as [final_state|e0];
    cbn [rbind].
  - destruct (response_of_final_state py_repr final_state)
      as [response|e1].
    + exists response. split; [reflexivity|]. split; [reflexivity|].
      intros e He. discriminate He.
    + destruct (Herror e1) as (r & -> & _). cbn [rbind].
      eexists. split; [reflexivity|]. split; [reflexivity|].
      intros e He. discriminate He.
  - destruct (Herror e0) as (r & -> & Herr). cbn [rbind].
    eexists. split; [reflexivity|]. split; [reflexivity|].
    intros e He. injection He as <-. exists r. split; [reflexivity|].
    exact Herr.
Qed.

(** X22. When the workflow returns a state without [final_response],
    whatever [analyze_schema] answers is a record with the eight
    attributes of a response whose action is set: the action of the
    state, "create_new" when the state has none, or the fallback
    response when the response could not be validated. *)
Theorem analyze_schema_action_set :
  forall (request initial final_state : dict) (incoming_schema hash : value)
         (workflow : graph) (response : value),
    dict_get "incoming_schema" request = Some incoming_schema ->
    py_getitem incoming_schema "hash" = Ok hash ->
    create_schema_analyzer_graph = Ok workflow ->
    initial_state request = Ok initial ->
    graph_ainvoke workflow initial hash = Ok final_state ->
    dict_mem "final_response" final_state = false ->
    entry request = Ok response ->
    exists r : dict,
      response = VDict r /\
      truthy (dict_get_default "action" VNone r) = true /\
      (forall k, In k response_keys -> dict_mem k r = true).
Proof.
  intros request initial final_state incoming hash workflow response Hinc
    Hhash Hgraph Hinit Hrun Hfinal.
  unfold entry, analyze_schema, dict_getitem.
  rewrite Hinc. cbn [rbind]. rewrite Hhash. cbn [rbind].
  destruct (py_len _) as [n|]; cbn [rbind]; [|discriminate].
  rewrite Hgraph, Hinit. cbn [rbind].
  unfold analyze_schema_try, dict_getitem. rewrite Hinc. cbn [rbind].
  rewrite Hhash. cbn [rbind]. rewrite Hrun. cbn [rbind].
  destruct (response_of_final_state py_repr final_state) as [answer|e]
    eqn:Hanswer.
  - intros H. injection H as <-.
    unfold response_of_final_state in Hanswer. rewrite Hfinal in Hanswer.
    destruct (dict_getitem "incoming_schema" _) as [incoming'|];
      cbn [rbind] in Hanswer; [|discriminate].
    destruct (py_getitem incoming' "hash") as [hash'|];
      cbn [rbind] in Hanswer; [|discriminate].
    destruct (py_slice_to 8 hash') as [prefix|];
      cbn [rbind] in Hanswer; [|discriminate].
    destruct (py_get incoming' "name" (VStr "unknown")) as [name|];
      cbn [rbind] in Hanswer; [|discriminate].
    destruct (_validate_response py_repr _ _) as [r|] eqn:Hvalid;
      cbn [rbind] in Hanswer; [|discriminate].
    injection Hanswer as <-. exists r. split; [reflexivity|]. split.
    + apply validate_response_inv in Hvalid as (ra & rb & Ha & Hb & Hc).
      destruct (ensure_field_mappings_ok ra) as (rb' & Hb' & _ & Hother).
      rewrite Hb in Hb'. injection Hb' as <-.
      unfold dict_get_default at 1.
      rewrite (ensure_text_defaults_other py_repr _ _ _ "action" Hc)
        by discriminate.
      rewrite Hother by discriminate.
      rewrite (ensure_canonical_schema_other _ _ _ "action" Ha)
        by discriminate.
      cbn [dict_get String.eqb Ascii.eqb Bool.eqb].
      destruct (truthy (dict_get_default "action" VNone final_state))
        eqn:Haction; cbn [negb]; cbv beta iota.
      * unfold dict_get_default in *.
        destruct (dict_get "action" final_state); [exact Haction|].
        discriminate Haction.
      * rewrite dict_get_default_set, String.eqb_refl. reflexivity.
    + intros k Hk.
      apply (validate_response_keeps_keys py_repr _ _ _ k Hvalid).
      cbn [response_keys In] in Hk.
      repeat (destruct Hk as [<-|Hk]; [reflexivity|]). contradiction.
  - destruct (_create_error_response _ (str_exn e)) as [r|] eqn:Herr;
      cbn [rbind]; [|discriminate].
    intros H. injection H as <-. exists r. split; [reflexivity|].
    apply create_error_response_action in Herr as [Haction Hkeys].
    split; [|exact Hkeys].
    unfold dict_get_default. rewrite Haction. reflexivity.
Qed.

End EntryPointProperties.

Lemma analyze_schema_always_answers_witness :
  exists (initial : dict) (response : value),
    initial_state EntrySample.request = Ok initial /\
    analyze_schema Sample.repr unit EntrySample.create_graph
      EntrySample.breaks EntrySample.request = Ok response /\
    forall e : exn,
      EntrySample.breaks tt initial (VStr "9f86d081884c7d65") = Raise e ->
      exists r : dict,
        response = VDict r /\
        error_response_for
          [Sample.text_field "full_name"; Sample.text_field "email"]
          (VStr "contacts_import") (str_exn e) r.
Proof.
  apply (analyze_schema_always_answers Sample.repr unit
           EntrySample.create_graph EntrySample.breaks EntrySample.request
           _ (VStr "9f86d081884c7d65") (VStr "contacts_import")
           [Sample.text_field "full_name"; Sample.text_field "email"]
           0%Z tt eq_refl eq_refl eq_refl eq_refl);
    [|reflexivity|reflexivity].
  repeat constructor; do 3 eexists; repeat split.
Defined.

Lemma analyze_schema_action_set_witness :
  let answer :=
    analyze_schema Sample.repr unit EntrySample.create_graph
      EntrySample.stops_early EntrySample.request in
  let response :=
    match answer with Ok v => v | Raise _ => VNone end in
  dict_mem "final_response" MappingSample.normalized_state = false /\
  answer = Ok response /\
  exists r : dict,
    response = VDict r /\
    truthy (dict_get_default "action" VNone r) = true /\
    (forall k, In k response_keys -> dict_mem k r = true).
Proof.
  intros answer response.
  assert (H : answer = Ok response) by (vm_compute; reflexivity).
  split; [reflexivity|]. split; [exact H|].
  destruct (initial_state EntrySample.request) as [initial|] eqn:Hinit;
    [|discriminate Hinit].
  exact (analyze_schema_action_set Sample.repr unit EntrySample.create_graph
           EntrySample.stops_early EntrySample.request initial
           MappingSample.normalized_state Sample.incoming_schema
           (VStr "9f86d081884c7d65") tt response
           eq_refl eq_refl eq_refl Hinit eq_refl eq_refl H).
Defined.
